(** * Supplementary group IDs (kernel/groups.c)

    A shallow embedding of the group-set container, its Shell sort, binary
    search and subset test, the installer, the privilege gate and the two
    system calls, followed by the properties proved about them.

    Conventions.
    - A C [int] or [unsigned int] is a [Z]; every arithmetic operation that
      can leave the type's range is wrapped by [to_int] or [to_uint].
    - A function that works through a [struct group_info *] takes the
      structure and returns the updated structure; the kernel heap maps
      addresses to structures, so two holders of one address see one
      structure.
    - Every C loop is a [Fixpoint] on an iteration budget; [NoFuel] is the
      answer of a loop whose budget ran out, [Fault] the answer of an access
      outside an object.  The theorems show that neither happens on
      well-formed input once the budget exceeds the size of the set. *)

From Stdlib Require Import ZArith Lia List Sorted Permutation.
From stdpp Require Import base option list gmap sets sorting.

Local Open Scope Z_scope.
#[local] Set Warnings "-clear-no-such-hyp".

(** ** Machine integers *)

Definition INT_MAX : Z := 2147483647.
Definition UINT_MOD : Z := 4294967296.

(** Value of an [int] expression after wrap-around (the kernel is built with
    [-fno-strict-overflow]). *)
Definition to_int (z : Z) : Z := (z + 2147483648) mod UINT_MOD - 2147483648.

(** Value of an [unsigned int] expression, and conversion of an [int] to
    [unsigned int]. *)
Definition to_uint (z : Z) : Z := z mod UINT_MOD.

(** errno values returned negated by the functions below. *)
Definition EPERM : Z := 1.
Definition ENOMEM : Z := 12.
Definition EFAULT : Z := 14.
Definition EINVAL : Z := 22.

(** ** Outcomes of a computation *)

Inductive res (A : Type) : Type :=
  | Done (a : A)
  | Fault
  | NoFuel.
Arguments Done {A} a.
Arguments Fault {A}.
Arguments NoFuel {A}.

Definition res_bind {A B} (m : res A) (k : A -> res B) : res B :=
  match m with
  | Done a => k a
  | Fault => Fault
  | NoFuel => NoFuel
  end.

Declare Scope res_scope.
Delimit Scope res_scope with res.
Notation "'do' x <- m ; k" := (res_bind m (fun x => k))
  (at level 10, x name, m at level 100, k at level 200) : res_scope.
Notation "'do' ' ( x , y ) <- m ; k" := (res_bind m (fun '(x, y) => k))
  (at level 10, x name, y name, m at level 100, k at level 200) : res_scope.

(** A cell of an array held as a list. *)
Definition cell_get (cells : list Z) (i : Z) : res Z :=
  if i <? 0 then Fault
  else match cells !! Z.to_nat i with
       | Some v => Done v
       | None => Fault
       end.

Definition cell_set (cells : list Z) (i : Z) (v : Z) : res (list Z) :=
  if i <? 0 then Fault
  else if (Z.to_nat i <? length cells)%nat then Done (<[Z.to_nat i := v]> cells)
  else Fault.

(** ** The platform

    Constants and namespace helpers that groups.c takes from headers which
    are not part of the sources at hand ([linux/cred.h], [linux/uidgid.h],
    [linux/limits.h]); they are parameters of the development. *)
Class Platform : Type := {
  NGROUPS_PER_BLOCK : Z;          (* PAGE_SIZE / sizeof(kgid_t) *)
  NGROUPS_SMALL : Z;              (* length of the inline small_block *)
  NGROUPS_MAX : Z;                (* largest size setgroups accepts *)
  make_kgid : Z -> Z;             (* make_kgid(current_user_ns(), gid) *)
  gid_valid : Z -> bool;          (* gid_valid(kgid) *)
  from_kgid_munged : Z -> Z       (* from_kgid_munged(current_user_ns(), kgid) *)
}.

(** The largest set size for which [3 * stride + 1] of groups_sort stays an
    [int]: the twentieth stride of the sequence 1, 4, 13, 40, ... *)
Definition SORT_MAX : Z := 1743392200.

(** What the code relies on about the constants: a block holds at least one
    identifier, the inline block fits the first block, and a set of the
    largest size setgroups accepts can be sorted. *)
Class PlatformOk `{Platform} : Prop := {
  per_block_pos : 0 < NGROUPS_PER_BLOCK;
  per_block_int : NGROUPS_PER_BLOCK <= INT_MAX;
  small_in_block : 0 <= NGROUPS_SMALL <= NGROUPS_PER_BLOCK;
  max_sortable : 0 <= NGROUPS_MAX <= SORT_MAX
}.

(** Modelled from the spec: the comparison helpers of [linux/uidgid.h], which
    is missing from the sources; identifiers are opaque, totally ordered
    fixed-width values compared by value. *)
Definition gid_eq (a b : Z) : bool := a =? b.
Definition gid_gt (a b : Z) : bool := b <? a.
Definition gid_lt (a b : Z) : bool := a <? b.
Definition gid_lte (a b : Z) : bool := a <=? b.

(** ** The group-set container *)

(** One slot of [group_info->blocks[]]: the address of the inline
    [small_block], a page of its own together with the identifiers it holds,
    or a slot that was never assigned. *)
Inductive block : Type :=
  | InSmall
  | InPage (addr : Z) (cells : list Z)
  | Unset.

Record group_info : Type := mk_group_info {
  usage : Z;
  ngroups : Z;
  nblocks : Z;
  small_block : list Z;
  blocks : list block
}.

(** The structure with other block pointers. *)
Definition with_blocks (bl : list block) (gi : group_info) : group_info :=
  mk_group_info (usage gi) (ngroups gi) (nblocks gi) (small_block gi) bl.

(** The structure with another reference count. *)
Definition with_usage (u : Z) (gi : group_info) : group_info :=
  mk_group_info u (ngroups gi) (nblocks gi) (small_block gi) (blocks gi).

Section Groups.
Context `{Platform}.

(** Modelled from the spec: the accessor macro [GROUP_AT] of [linux/cred.h],
    which is missing from the sources.  Element access is a two-level index:
    for a linear index [i] the block is [i / PER_BLOCK] and the offset
    [i % PER_BLOCK].  A negative index is outside every block. *)
Definition GROUP_AT (gi : group_info) (i : Z) : res Z :=
  if i <? 0 then Fault
  else match blocks gi !! Z.to_nat (i / NGROUPS_PER_BLOCK) with
       | Some InSmall => cell_get (small_block gi) (i mod NGROUPS_PER_BLOCK)
       | Some (InPage _ cells) => cell_get cells (i mod NGROUPS_PER_BLOCK)
       | Some Unset | None => Fault
       end.

(** The assignment [GROUP_AT(gi, i) = v]. *)
Definition GROUP_AT_set (gi : group_info) (i : Z) (v : Z) : res group_info :=
  if i <? 0 then Fault
  else match blocks gi !! Z.to_nat (i / NGROUPS_PER_BLOCK) with
       | Some InSmall =>
           (do sb <- cell_set (small_block gi) (i mod NGROUPS_PER_BLOCK) v;
            Done (mk_group_info (usage gi) (ngroups gi) (nblocks gi) sb (blocks gi)))%res
       | Some (InPage a cells) =>
           (do cs <- cell_set cells (i mod NGROUPS_PER_BLOCK) v;
            Done (mk_group_info (usage gi) (ngroups gi) (nblocks gi) (small_block gi)
                    (<[Z.to_nat (i / NGROUPS_PER_BLOCK) := InPage a cs]> (blocks gi))))%res
       | Some Unset | None => Fault
       end.

(** *** groups_sort: a simple Shell sort *)

(** [for (stride = 1; stride < gidsetsize; stride = 3 * stride + 1);] *)
Fixpoint sort_first_stride (fuel : nat) (gidsetsize stride : Z) : res Z :=
  match fuel with
  | O => NoFuel
  | S fuel' =>
      if stride <? gidsetsize
      then sort_first_stride fuel' gidsetsize (to_int (3 * stride + 1))
      else Done stride
  end.

(** The inner [while (left >= 0 && gid_gt(GROUP_AT(group_info, left), tmp))];
    it returns the structure and the final value of [right]. *)
Fixpoint sort_shift (fuel : nat) (stride tmp left right : Z) (gi : group_info)
  : res (group_info * Z) :=
  match fuel with
  | O => NoFuel
  | S fuel' =>
      if 0 <=? left then
        (do x <- GROUP_AT gi left;
         if gid_gt x tmp then
           do gi1 <- GROUP_AT_set gi right x;
           sort_shift fuel' stride tmp (to_int (left - stride)) left gi1
         else Done (gi, right))%res
      else Done (gi, right)
  end.

(** [for (base = 0; base < max; base++) { ... }]; [budget] is what each run
    of the inner loop may use. *)
Fixpoint sort_pass (fuel budget : nat) (stride max base : Z) (gi : group_info)
  : res group_info :=
  match fuel with
  | O => NoFuel
  | S fuel' =>
      if base <? max then
        let left := base in
        let right := to_int (left + stride) in
        (do tmp <- GROUP_AT gi right;
         do '(gi1, right1) <- sort_shift budget stride tmp left right gi;
         do gi2 <- GROUP_AT_set gi1 right1 tmp;
         sort_pass fuel' budget stride max (to_int (base + 1)) gi2)%res
      else Done gi
  end.

(** [while (stride) { max = gidsetsize - stride; for ...; stride /= 3; }] *)
Fixpoint sort_strides (fuel budget : nat) (gidsetsize stride : Z) (gi : group_info)
  : res group_info :=
  match fuel with
  | O => NoFuel
  | S fuel' =>
      if stride =? 0 then Done gi
      else
        let max := to_int (gidsetsize - stride) in
        (do gi1 <- sort_pass budget budget stride max 0 gi;
         sort_strides fuel' budget gidsetsize (Z.quot stride 3) gi1)%res
  end.

Definition groups_sort (fuel : nat) (gi : group_info) : res group_info :=
  let gidsetsize := ngroups gi in
  (do stride <- sort_first_stride fuel gidsetsize 1;
   let stride := Z.quot stride 3 in
   sort_strides fuel fuel gidsetsize stride gi)%res.

(** *** groups_search: a simple bsearch *)

Fixpoint search_loop (fuel : nat) (gi : group_info) (grp left right : Z) : res Z :=
  match fuel with
  | O => NoFuel
  | S fuel' =>
      if left <? right then
        let mid := to_uint (left + right) / 2 in
        (do x <- GROUP_AT gi mid;
         if gid_gt grp x then search_loop fuel' gi grp (to_uint (mid + 1)) right
         else if gid_lt grp x then search_loop fuel' gi grp left mid
         else Done 1)%res
      else Done 0
  end.

(** [None] is the NULL pointer. *)
Definition groups_search (fuel : nat) (gi : option group_info) (grp : Z)
  : res Z :=
  match gi with
  | None => Done 0
  | Some gi => search_loop fuel gi grp 0 (to_uint (ngroups gi))
  end.

(** *** is_subset *)

(** The inner [for (; j < g2->ngroups; j++)]; it returns [j] and the value
    last loaded into [gid2] ([None] while [gid2] is still uninitialised). *)
Fixpoint subset_scan (fuel : nat) (g2 : group_info) (gid1 j : Z) (gid2 : option Z)
  : res (Z * option Z) :=
  match fuel with
  | O => NoFuel
  | S fuel' =>
      if j <? to_uint (ngroups g2) then
        (do x <- GROUP_AT g2 j;
         if gid_lte gid1 x then Done (j, Some x)
         else subset_scan fuel' g2 gid1 (to_uint (j + 1)) (Some x))%res
      else Done (j, gid2)
  end.

(** The outer [for (i = 0, j = 0; i < g1->ngroups; i++)]. *)
Fixpoint subset_loop (fuel budget : nat) (g1 g2 : group_info) (i j : Z) : res bool :=
  match fuel with
  | O => NoFuel
  | S fuel' =>
      if i <? to_uint (ngroups g1) then
        (do gid1 <- GROUP_AT g1 i;
         do '(j1, gid2) <- subset_scan budget g2 gid1 j None;
         if to_uint (ngroups g2) <=? j1 then Done false
         else match gid2 with
              | None => Fault
              | Some x =>
                  if negb (gid_eq gid1 x) then Done false
                  else subset_loop fuel' budget g1 g2 (to_uint (i + 1)) (to_uint (j1 + 1))
              end)%res
      else Done true
  end.

Definition is_subset (fuel : nat) (g1 g2 : group_info) : res bool :=
  subset_loop fuel fuel g1 g2 0 0.

(** ** Kernel state *)

(** The fields of [struct cred] that matter here; [cred_group_info] is the
    address of the group set the credentials hold (0 is NULL). *)
Record cred : Type := mk_cred {
  gid : Z;
  egid : Z;
  fsgid : Z;
  cred_group_info : Z
}.

Record kstate : Type := mk_kstate {
  k_objs : gmap Z group_info;   (* live group_info structures, by address *)
  k_pages : gset Z;             (* live pages of __get_free_page *)
  k_plan : list bool;           (* whether the coming allocations succeed *)
  k_user : gmap Z Z;            (* user memory, one gid_t per cell *)
  k_cred : cred;                (* current_cred() *)
  k_setgid : bool;              (* ns_capable(current_user_ns(), CAP_SETGID) *)
  k_current : Z;                (* current *)
  k_dumpTsk : Z                 (* get_dumpTsk() *)
}.

Definition kern (A : Type) : Type := kstate -> res (A * kstate).

Definition kret {A} (a : A) : kern A := fun s => Done (a, s).

Definition kbind {A B} (m : kern A) (k : A -> kern B) : kern B :=
  fun s => match m s with
           | Done (a, s1) => k a s1
           | Fault => Fault
           | NoFuel => NoFuel
           end.

Declare Scope kern_scope.
Delimit Scope kern_scope with kern.
Notation "'do' x <- m ; k" := (kbind m (fun x => k))
  (at level 10, x name, m at level 100, k at level 200) : kern_scope.
Notation "m ;; k" := (kbind m (fun _ => k))
  (at level 100, k at level 200, right associativity) : kern_scope.

Definition lift {A} (r : res A) : kern A :=
  fun s => match r with
           | Done a => Done (a, s)
           | Fault => Fault
           | NoFuel => NoFuel
           end.

Definition set_objs (f : gmap Z group_info -> gmap Z group_info) (s : kstate) : kstate :=
  mk_kstate (f (k_objs s)) (k_pages s) (k_plan s) (k_user s) (k_cred s)
    (k_setgid s) (k_current s) (k_dumpTsk s).

Definition set_pages (f : gset Z -> gset Z) (s : kstate) : kstate :=
  mk_kstate (k_objs s) (f (k_pages s)) (k_plan s) (k_user s) (k_cred s)
    (k_setgid s) (k_current s) (k_dumpTsk s).

Definition set_plan (p : list bool) (s : kstate) : kstate :=
  mk_kstate (k_objs s) (k_pages s) p (k_user s) (k_cred s)
    (k_setgid s) (k_current s) (k_dumpTsk s).

Definition set_user (f : gmap Z Z -> gmap Z Z) (s : kstate) : kstate :=
  mk_kstate (k_objs s) (k_pages s) (k_plan s) (f (k_user s)) (k_cred s)
    (k_setgid s) (k_current s) (k_dumpTsk s).

Definition set_cred (c : cred) (s : kstate) : kstate :=
  mk_kstate (k_objs s) (k_pages s) (k_plan s) (k_user s) c
    (k_setgid s) (k_current s) (k_dumpTsk s).

(** Dereference of a [struct group_info *]. *)
Definition load (p : Z) : kern group_info :=
  fun s => match k_objs s !! p with
           | Some gi => Done (gi, s)
           | None => Fault
           end.

Definition store (p : Z) (gi : group_info) : kern unit :=
  fun s => match k_objs s !! p with
           | Some _ => Done (tt, set_objs (insert p gi) s)
           | None => Fault
           end.

(** The next allocation attempt: its outcome is the head of the plan, and an
    empty plan lets every attempt succeed. *)
Definition attempt : kern bool :=
  fun s => match k_plan s with
           | b :: rest => Done (b, set_plan rest s)
           | [] => Done (true, s)
           end.

(** [kmalloc(sizeof(*group_info) + nblocks*sizeof(gid_t *), GFP_USER)]: NULL,
    or the address of a fresh structure with [nblocks] unassigned slots. *)
Definition kmalloc_group_info (nblocks : Z) : kern Z :=
  (do ok <- attempt;
   if ok : bool then
     fun s =>
       let p := fresh ({[0]} ∪ dom (k_objs s)) in
       let blank := mk_group_info 0 0 0 (replicate (Z.to_nat NGROUPS_SMALL) 0)
                      (replicate (Z.to_nat nblocks) Unset) in
       Done (p, set_objs (insert p blank) s)
   else kret 0)%kern.

Definition kfree (p : Z) : kern unit :=
  fun s => match k_objs s !! p with
           | Some _ => Done (tt, set_objs (delete p) s)
           | None => Fault
           end.

(** [__get_free_page(GFP_USER)]: 0, or the address of a fresh page. *)
Definition get_free_page : kern Z :=
  (do ok <- attempt;
   if ok : bool then
     fun s =>
       let a := fresh ({[0]} ∪ k_pages s) in
       Done (a, set_pages (fun live => {[a]} ∪ live) s)
   else kret 0)%kern.

Definition free_page (b : block) : kern unit :=
  fun s => match b with
           | InPage a _ =>
               if decide (a ∈ k_pages s)
               then Done (tt, set_pages (fun live => live ∖ {[a]}) s)
               else Fault
           | InSmall | Unset => Fault
           end.

(** [group_info->blocks[i]] as an rvalue and as an lvalue. *)
Definition block_at (p i : Z) : kern block :=
  (do gi <- load p;
   if i <? 0 then lift Fault
   else match blocks gi !! Z.to_nat i with
        | Some b => kret b
        | None => lift Fault
        end)%kern.

Definition block_set (p i : Z) (b : block) : kern unit :=
  (do gi <- load p;
   if (i <? 0) || (Z.of_nat (length (blocks gi)) <=? i) then lift Fault
   else store p (with_blocks (<[Z.to_nat i := b]> (blocks gi)) gi))%kern.

(** *** groups_alloc and groups_free *)

(** [for (i = 0; i < nblocks; i++)] of groups_alloc; [Some i] is the jump to
    [out_undo_partial_alloc] with that [i], [None] the normal exit. *)
Fixpoint alloc_blocks (fuel : nat) (p nblocks i : Z) : kern (option Z) :=
  match fuel with
  | O => lift NoFuel
  | S fuel' =>
      if i <? nblocks then
        (do b <- get_free_page;
         if b =? 0 then kret (Some i)
         else
           block_set p i (InPage b (replicate (Z.to_nat NGROUPS_PER_BLOCK) 0));;
           alloc_blocks fuel' p nblocks (to_int (i + 1)))%kern
      else kret None
  end.

(** [while (--i >= 0) free_page((unsigned long)group_info->blocks[i]);] *)
Fixpoint undo_partial_alloc (fuel : nat) (p i : Z) : kern unit :=
  match fuel with
  | O => lift NoFuel
  | S fuel' =>
      let i := to_int (i - 1) in
      if 0 <=? i then
        (do b <- block_at p i;
         free_page b;;
         undo_partial_alloc fuel' p i)%kern
      else kret tt
  end.

(** [NGROUPS_PER_BLOCK] is an [unsigned int] in [linux/cred.h], so the block
    count is computed in unsigned arithmetic and then stored in an [int]. *)
Definition groups_alloc (fuel : nat) (gidsetsize : Z) : kern Z :=
  let nblocks := to_int (to_uint (gidsetsize + NGROUPS_PER_BLOCK - 1) / NGROUPS_PER_BLOCK) in
  let nblocks := if nblocks =? 0 then 1 else nblocks in
  (do p <- kmalloc_group_info nblocks;
   if p =? 0 then kret 0
   else
     do gi <- load p;
     store p (mk_group_info 1 gidsetsize nblocks (small_block gi) (blocks gi));;
     if gidsetsize <=? NGROUPS_SMALL then
       block_set p 0 InSmall;;
       kret p
     else
       do out <- alloc_blocks fuel p nblocks 0;
       match out with
       | None => kret p
       | Some i =>
           undo_partial_alloc fuel p i;;
           kfree p;;
           kret 0
       end)%kern.

(** [for (i = 0; i < group_info->nblocks; i++) free_page(...)] *)
Fixpoint free_blocks (fuel : nat) (p nblocks i : Z) : kern unit :=
  match fuel with
  | O => lift NoFuel
  | S fuel' =>
      if i <? nblocks then
        (do b <- block_at p i;
         free_page b;;
         free_blocks fuel' p nblocks (to_int (i + 1)))%kern
      else kret tt
  end.

Definition groups_free (fuel : nat) (p : Z) : kern unit :=
  (do b0 <- block_at p 0;
   match b0 with
   | InSmall => kret tt
   | InPage _ _ =>
       do gi <- load p;
       free_blocks fuel p (nblocks gi) 0
   | Unset => lift Fault
   end;;
   kfree p)%kern.

(** Modelled from the spec: the reference-count macros of [linux/cred.h],
    which is missing from the sources.  Retaining a set increments its
    counter; releasing it decrements the counter and, at zero, frees the set
    with [groups_free]. *)
Definition get_group_info (p : Z) : kern Z :=
  (do gi <- load p;
   store p (with_usage (to_int (usage gi + 1)) gi);;
   kret p)%kern.

Definition put_group_info (fuel : nat) (p : Z) : kern unit :=
  (do gi <- load p;
   let u := to_int (usage gi - 1) in
   store p (with_usage u gi);;
   if u =? 0 then groups_free fuel p else kret tt)%kern.

(** *** Transfers to and from user space *)

(** [put_user(gid, addr)] and [get_user(gid, addr)] on a user address counted
    in [gid_t] cells: a cell that is not mapped makes them fail. *)
Definition put_user (v addr : Z) : kern bool :=
  fun s => match k_user s !! addr with
           | Some _ => Done (false, set_user (insert addr v) s)
           | None => Done (true, s)
           end.

Definition get_user (addr : Z) : kern (option Z) :=
  fun s => Done (k_user s !! addr, s).

(** The loop of groups_to_user; [i] is an [int] compared with the
    [unsigned int count]. *)
Fixpoint to_user_loop (fuel : nat) (grouplist : Z) (gi : group_info) (count i : Z)
  : kern Z :=
  match fuel with
  | O => lift NoFuel
  | S fuel' =>
      if to_uint i <? count then
        (do kgid <- lift (GROUP_AT gi i);
         let gid := from_kgid_munged kgid in
         do failed <- put_user gid (grouplist + i);
         if failed : bool then kret (- EFAULT)
         else to_user_loop fuel' grouplist gi count (to_int (i + 1)))%kern
      else kret 0
  end.

Definition groups_to_user (fuel : nat) (grouplist : Z) (p : Z) : kern Z :=
  (do gi <- load p;
   let count := to_uint (ngroups gi) in
   to_user_loop fuel grouplist gi count 0)%kern.

(** The loop of groups_from_user. *)
Fixpoint from_user_loop (fuel : nat) (p grouplist count i : Z) : kern Z :=
  match fuel with
  | O => lift NoFuel
  | S fuel' =>
      if to_uint i <? count then
        (do got <- get_user (grouplist + i);
         match got with
         | None => kret (- EFAULT)
         | Some gid =>
             let kgid := make_kgid gid in
             if negb (gid_valid kgid) then kret (- EINVAL)
             else
               do gi <- load p;
               do gi1 <- lift (GROUP_AT_set gi i kgid);
               store p gi1;;
               from_user_loop fuel' p grouplist count (to_int (i + 1))
         end)%kern
      else kret 0
  end.

Definition groups_from_user (fuel : nat) (p grouplist : Z) : kern Z :=
  (do gi <- load p;
   let count := to_uint (ngroups gi) in
   from_user_loop fuel p grouplist count 0)%kern.

(** *** Credentials *)

(** [groups_sort(group_info)] through the pointer. *)
Definition groups_sort_at (fuel : nat) (p : Z) : kern unit :=
  (do gi <- load p;
   do gi1 <- lift (groups_sort fuel gi);
   store p gi1)%kern.

Definition current_cred : kern cred := fun s => Done (k_cred s, s).

Definition ns_capable_setgid : kern bool := fun s => Done (k_setgid s, s).

(** Modelled from the spec: [prepare_creds], [abort_creds] and
    [commit_creds] of kernel/cred.c, which is missing from the sources.
    Preparing yields a private draft of the caller's credentials, which holds
    a reference of its own to the group set, or fails for lack of memory;
    aborting discards the draft; committing publishes the draft as the
    caller's credentials, destroys the credentials it replaces and signals
    success. *)
Definition prepare_creds : kern (option cred) :=
  (do ok <- attempt;
   if ok : bool then
     do old <- current_cred;
     get_group_info (cred_group_info old);;
     kret (Some old)
   else kret None)%kern.

Definition abort_creds (fuel : nat) (new : cred) : kern unit :=
  put_group_info fuel (cred_group_info new).

Definition commit_creds (fuel : nat) (new : cred) : kern Z :=
  (do old <- current_cred;
   (fun s => Done (tt, set_cred new s));;
   put_group_info fuel (cred_group_info old);;
   kret 0)%kern.

(** set_groups_sorted: the draft is returned with its new group set. *)
Definition set_groups_sorted (fuel : nat) (new : cred) (p : Z) : kern cred :=
  (put_group_info fuel (cred_group_info new);;
   get_group_info p;;
   kret (mk_cred (gid new) (egid new) (fsgid new) p))%kern.

Definition set_groups (fuel : nat) (new : cred) (p : Z) : kern (Z * cred) :=
  (groups_sort_at fuel p;;
   do new1 <- set_groups_sorted fuel new p;
   kret (0, new1))%kern.

Definition set_current_groups (fuel : nat) (p : Z) : kern Z :=
  (groups_sort_at fuel p;;
   do new <- prepare_creds;
   match new with
   | None => kret (- ENOMEM)
   | Some new =>
       do capable <- ns_capable_setgid;
       do refused <-
         (if negb capable then
            do g1 <- load p;
            do g2 <- load (cred_group_info new);
            do sub <- lift (is_subset fuel g1 g2);
            kret (negb sub)
          else kret false);
       if refused : bool then
         abort_creds fuel new;;
         kret (- EPERM)
       else
         do new1 <- set_groups_sorted fuel new p;
         commit_creds fuel new1
   end)%kern.

(** *** The system calls *)

Definition sys_getgroups (fuel : nat) (gidsetsize grouplist : Z) : kern Z :=
  (do cred <- current_cred;
   if gidsetsize <? 0 then kret (- EINVAL)
   else
     do gi <- load (cred_group_info cred);
     let i := ngroups gi in
     if negb (gidsetsize =? 0) then
       if gidsetsize <? i then kret (- EINVAL)
       else
         do r <- groups_to_user fuel grouplist (cred_group_info cred);
         if negb (r =? 0) then kret (- EFAULT)
         else kret i
     else kret i)%kern.

Definition may_setgroups : kern bool := ns_capable_setgid.

Definition sys_setgroups (fuel : nat) (gidsetsize grouplist : Z) : kern Z :=
  (do may <- may_setgroups;
   if negb may then kret (- EPERM)
   else if to_uint NGROUPS_MAX <? to_uint gidsetsize then kret (- EINVAL)
   else
     do p <- groups_alloc fuel gidsetsize;
     if p =? 0 then kret (- ENOMEM)
     else
       do retval <- groups_from_user fuel p grouplist;
       if negb (retval =? 0) then
         put_group_info fuel p;;
         kret retval
       else
         do retval <- set_current_groups fuel p;
         put_group_info fuel p;;
         kret retval)%kern.

(** *** Membership queries *)

Definition AID_SDCARD_RW : Z := 1015.
Definition AID_SDCARD_R : Z := 1028.

(** [cred->group_info] as the argument of groups_search: NULL or the
    structure it points to. *)
Definition load_opt (p : Z) : kern (option group_info) :=
  if p =? 0 then kret None
  else (do gi <- load p; kret (Some gi))%kern.

Definition in_group_p (fuel : nat) (grp : Z) : kern Z :=
  (do cred <- current_cred;
   do dump <- (fun s => Done (k_dumpTsk s, s));
   do cur <- (fun s => Done (k_current s, s));
   if (dump =? cur) && ((grp =? AID_SDCARD_RW) || (grp =? AID_SDCARD_R)) then kret 1
   else if negb (gid_eq grp (fsgid cred)) then
     do gi <- load_opt (cred_group_info cred);
     lift (groups_search fuel gi grp)
   else kret 1)%kern.

Definition in_egroup_p (fuel : nat) (grp : Z) : kern Z :=
  (do cred <- current_cred;
   if negb (gid_eq grp (egid cred)) then
     do gi <- load_opt (cred_group_info cred);
     lift (groups_search fuel gi grp)
   else kret 1)%kern.

End Groups.

(** ** Concrete platforms and sets *)

(** The values of a 4 KiB-page Linux build in the initial user namespace,
    where identifiers map to themselves and only [(gid_t)-1] is invalid. *)
Definition linux_platform : Platform := {|
  NGROUPS_PER_BLOCK := 1024;
  NGROUPS_SMALL := 32;
  NGROUPS_MAX := 65536;
  make_kgid := fun g => g;
  gid_valid := fun k => negb (k =? 4294967295);
  from_kgid_munged := fun k => k
|}.

(** A platform with tiny blocks, on which a set of a few identifiers already
    spans several pages. *)
Definition tiny_platform : Platform := {|
  NGROUPS_PER_BLOCK := 4;
  NGROUPS_SMALL := 2;
  NGROUPS_MAX := 64;
  make_kgid := fun g => g;
  gid_valid := fun k => negb (k =? 4294967295);
  from_kgid_munged := fun k => k
|}.

(** The pages holding [l] from address [a] on, [per] identifiers each, the
    last one padded with zeros. *)
Fixpoint pages_of (n : nat) (per : nat) (a : Z) (l : list Z) : list block :=
  match n with
  | O => []
  | S n' => InPage a (take per (l ++ replicate per 0)) :: pages_of n' per (a + 1) (drop per l)
  end.

(** The structure groups_alloc lays out for [length l] identifiers, filled
    with [l], its pages at addresses [1], [2], ... *)
Definition group_info_of `{Platform} (refs : Z) (l : list Z) : group_info :=
  let n := Z.of_nat (length l) in
  let nb := Z.max 1 ((n + NGROUPS_PER_BLOCK - 1) / NGROUPS_PER_BLOCK) in
  if n <=? NGROUPS_SMALL
  then mk_group_info refs n nb
         (take (Z.to_nat NGROUPS_SMALL) (l ++ replicate (Z.to_nat NGROUPS_SMALL) 0))
         [InSmall]
  else mk_group_info refs n nb (replicate (Z.to_nat NGROUPS_SMALL) 0)
         (pages_of (Z.to_nat nb) (Z.to_nat NGROUPS_PER_BLOCK) 1 l).

(** A task with real, effective and filesystem group 1000 whose credentials
    hold the sorted set {100, 200, 300} at address 16; it lacks CAP_SETGID and
    no coredump is being captured.  User memory has the cells 64..67 mapped. *)
Definition demo_state : kstate := {|
  k_objs := {[ 16 := @group_info_of linux_platform 1 [100; 200; 300] ]};
  k_pages := ∅;
  k_plan := [];
  k_user := list_to_map [(64, 0); (65, 0); (66, 0); (67, 0)];
  k_cred := mk_cred 1000 1000 1000 16;
  k_setgid := false;
  k_current := 7;
  k_dumpTsk := 0
|}.

(** The same task once a caller has built, at address 32, the unsorted set
    {400, 100} it wants installed. *)
Definition demo_request_state : kstate :=
  set_objs (insert 32 (@group_info_of linux_platform 1 [400; 100])) demo_state.

(** The same task while it is the one whose coredump is being captured. *)
Definition demo_dump_state : kstate :=
  mk_kstate (k_objs demo_state) (k_pages demo_state) (k_plan demo_state)
    (k_user demo_state) (k_cred demo_state) (k_setgid demo_state)
    (k_current demo_state) (k_current demo_state).

(** The same task holding CAP_SETGID, with a list in user memory: 400 and
    100 at 64 and 65, then a value that maps to no identifier. *)
Definition demo_capable_state : kstate :=
  mk_kstate (k_objs demo_state) (k_pages demo_state) (k_plan demo_state)
    (list_to_map [(64, 400); (65, 100); (66, 4294967295)]) (k_cred demo_state) true
    (k_current demo_state) (k_dumpTsk demo_state).

(** [struct group_info init_groups = { .usage = ATOMIC_INIT(2) };]: the
    initializer names the reference count only, so the two counts are zero,
    the inline array is zeroed and [blocks[]] has no slot. *)
Definition init_groups `{Platform} : group_info :=
  mk_group_info 2 0 0 (replicate (Z.to_nat NGROUPS_SMALL) 0) [].

(** ** Vocabulary of the statements *)

Section Vocabulary.
Context `{Platform}.

(** The identifiers of a set, in index order, as GROUP_AT reads them. *)
Definition cell_of (gi : group_info) (i : Z) : Z :=
  match GROUP_AT gi i with
  | Done v => v
  | Fault | NoFuel => 0
  end.

Definition gids (gi : group_info) : list Z :=
  map (cell_of gi) (seqZ 0 (ngroups gi)).

(** The pointers held in [blocks[]], without what the pages hold. *)
Definition block_ptr (b : block) : block :=
  match b with
  | InPage a _ => InPage a []
  | InSmall => InSmall
  | Unset => Unset
  end.

Definition layout (gi : group_info) : list block := map block_ptr (blocks gi).

(** The addresses of the pages a set owns. *)
Definition block_addrs (bl : list block) : list Z :=
  omap (fun b => match b with InPage a _ => Some a | _ => None end) bl.

Definition page_addrs (gi : group_info) : list Z := block_addrs (blocks gi).

Definition paged_block (b : block) : Prop :=
  exists a cells, b = InPage a cells /\ Z.of_nat (length cells) = NGROUPS_PER_BLOCK.

(** A structure as groups_alloc builds it: either the single inline block
    or whole pages, enough for [ngroups] identifiers. *)
Record group_info_wf (gi : group_info) : Prop := {
  wf_count : 0 <= ngroups gi <= INT_MAX;
  wf_nblocks : nblocks gi = Z.of_nat (length (blocks gi));
  wf_some_block : 1 <= nblocks gi <= INT_MAX;
  wf_layout :
    (blocks gi = [InSmall] /\
     ngroups gi <= Z.of_nat (length (small_block gi)) /\
     ngroups gi <= NGROUPS_PER_BLOCK) \/
    (Forall paged_block (blocks gi) /\
     ngroups gi <= NGROUPS_PER_BLOCK * Z.of_nat (length (blocks gi)))
}.

(** The pages of a set are live, and no page is listed twice. *)
Definition pages_live (s : kstate) (gi : group_info) : Prop :=
  NoDup (page_addrs gi) /\ forall a, a ∈ page_addrs gi -> a ∈ k_pages s.

(** Two states that differ at most in the heap (structures and pages). *)
Definition heap_only (s s' : kstate) : Prop :=
  k_plan s' = k_plan s /\ k_user s' = k_user s /\ k_cred s' = k_cred s /\
  k_setgid s' = k_setgid s /\ k_current s' = k_current s /\ k_dumpTsk s' = k_dumpTsk s.

(** What releasing one reference to [g] at address [q] leaves of the heap:
    the last reference frees the structure and its pages. *)
Definition objs_after_put (q : Z) (g : group_info) (objs : gmap Z group_info)
  : gmap Z group_info :=
  if decide (usage g = 1) then delete q objs
  else <[q := with_usage (usage g - 1) g]> objs.

Definition pages_after_put (g : group_info) (live : gset Z) : gset Z :=
  if decide (usage g = 1) then live ∖ list_to_set (page_addrs g) else live.

(** A structure whose last reference can be dropped: groups_free can walk
    it and finds its pages live. *)
Definition releasable (fuel : nat) (s : kstate) (g : group_info) : Prop :=
  1 <= usage g <= INT_MAX /\
  (usage g = 1 ->
   group_info_wf g /\ pages_live s g /\ (Z.to_nat (nblocks g) < fuel)%nat).

(** Two states of one process: user memory, credentials, capability and
    task identities are the same. *)
Definition same_process (s s' : kstate) : Prop :=
  k_user s' = k_user s /\ k_cred s' = k_cred s /\ k_setgid s' = k_setgid s /\
  k_current s' = k_current s /\ k_dumpTsk s' = k_dumpTsk s.

(** groups_alloc at work on the structure at [p]: the slots [done] hold
    pages of their own, distinct and allocated since the page set was [base];
    the slots [rest] are still to be filled (or, on the undo path, stale). *)
Definition building (base : gset Z) (p : Z) (hdr : group_info)
    (done rest : list block) (s : kstate) : Prop :=
  k_objs s !! p = Some (with_blocks (done ++ rest) hdr) /\
  Forall paged_block done /\ NoDup (block_addrs done) /\
  (forall a, a ∈ block_addrs done -> a ∉ base) /\
  k_pages s = base ∪ list_to_set (block_addrs done).

(** User memory after the values [vals] were stored in the consecutive
    cells from [addr] on. *)
Fixpoint store_gids (addr : Z) (vals : list Z) (um : gmap Z Z) : gmap Z Z :=
  match vals with
  | [] => um
  | v :: vals' => store_gids (addr + 1) vals' (<[addr := v]> um)
  end.

(** Two states that differ at most in user memory. *)
Definition user_only (s s' : kstate) : Prop :=
  k_objs s' = k_objs s /\ k_pages s' = k_pages s /\ k_plan s' = k_plan s /\
  k_cred s' = k_cred s /\ k_setgid s' = k_setgid s /\
  k_current s' = k_current s /\ k_dumpTsk s' = k_dumpTsk s.

(** Every one of the [n] source cells from [grouplist] on is mapped and
    holds a value that resolves to a valid identifier. *)
Definition import_ok (s : kstate) (grouplist n : Z) : Prop :=
  forall j, 0 <= j < n ->
    exists v, k_user s !! (grouplist + j) = Some v /\ gid_valid (make_kgid v) = true.

(** The identifiers the [n] source cells resolve to, in order. *)
Definition imported (s : kstate) (grouplist n : Z) : list Z :=
  map (fun j => make_kgid (default 0 (k_user s !! (grouplist + j)))) (seqZ 0 n).

(** The number of blocks groups_alloc computes for [k] identifiers. *)
Definition blocks_for (k : Z) : Z :=
  Z.max 1 ((k + NGROUPS_PER_BLOCK - 1) / NGROUPS_PER_BLOCK).

(** The state in which the set at [p] has been replaced by its sorted form
    [gi'] and one allocation attempt has been used up. *)
Definition sorted_and_tried (p : Z) (gi' : group_info) (s : kstate) : kstate :=
  set_plan (tail (k_plan s)) (set_objs (insert p gi') s).

(** Two structures that differ at most in the identifiers they hold. *)
Definition same_frame (gi gi' : group_info) : Prop :=
  usage gi' = usage gi /\ ngroups gi' = ngroups gi /\
  nblocks gi' = nblocks gi /\ layout gi' = layout gi.

(** Non-decreasing order, by positions. *)
Definition ascending (l : list Z) : Prop :=
  forall (i j : nat) (x y : Z), (i <= j)%nat -> l !! i = Some x -> l !! j = Some y -> x <= y.

(** Strictly increasing order: ascending and free of duplicates. *)
Definition strictly_ascending (l : list Z) : Prop :=
  forall (i j : nat) (x y : Z), (i < j)%nat -> l !! i = Some x -> l !! j = Some y -> x < y.

(** [gi] is what [current_cred()->group_info] points to: nothing for the
    NULL pointer, a live structure otherwise. *)
Definition cred_groups (s : kstate) (gi : option group_info) : Prop :=
  (cred_group_info (k_cred s) = 0 /\ gi = None) \/
  (cred_group_info (k_cred s) <> 0 /\
   exists g, gi = Some g /\ k_objs s !! cred_group_info (k_cred s) = Some g).

(** The strides of groups_sort: 1, 4, 13, 40, ... *)
Fixpoint stride_of (k : nat) : Z :=
  match k with
  | O => 1
  | S k' => 3 * stride_of k' + 1
  end.

(** Invariants of a pass of groups_sort with stride 1, on the cells seen as
    a function of the index: the cells up to [top] are in order, and the same
    with the cell at [hole] left out while every later cell exceeds [tmp]. *)
Definition sorted_to (f : Z -> Z) (top : Z) : Prop :=
  forall i j, 0 <= i -> i <= j -> j <= top -> f i <= f j.

Definition hole_sorted (f : Z -> Z) (hole top tmp : Z) : Prop :=
  (forall i j, 0 <= i -> i <= j -> j <= top -> i <> hole -> j <> hole -> f i <= f j) /\
  (forall j, hole < j -> j <= top -> tmp < f j).

End Vocabulary.

(** * Properties *)

(** ** Machine integers *)

Lemma to_int_id z : -2147483648 <= z <= INT_MAX -> to_int z = z.
Proof.
  unfold to_int, INT_MAX, UINT_MOD. intros Hz.
  rewrite Z.mod_small by lia. lia.
Qed.

Lemma to_uint_id z : 0 <= z < UINT_MOD -> to_uint z = z.
Proof. unfold to_uint. intros Hz. apply Z.mod_small. exact Hz. Qed.

Lemma to_uint_int z : 0 <= z <= INT_MAX -> to_uint z = z.
Proof. intros Hz. apply to_uint_id. unfold INT_MAX, UINT_MOD in *. lia. Qed.

(** ** Cells *)

Lemma cell_get_Done cells i v :
  cell_get cells i = Done v <-> 0 <= i /\ cells !! Z.to_nat i = Some v.
Proof.
  unfold cell_get. destruct (Z.ltb_spec i 0).
  - split; [discriminate | lia].
  - destruct (cells !! Z.to_nat i) eqn:E; split; intros Hx;
      try discriminate; try (injection Hx as ->; now split); destruct Hx; congruence.
Qed.

Lemma cell_get_in cells i :
  0 <= i < Z.of_nat (length cells) -> exists v, cell_get cells i = Done v.
Proof.
  intros Hi. destruct (lookup_lt_is_Some_2 cells (Z.to_nat i)) as [v Hv]; [lia|].
  exists v. apply cell_get_Done. split; [lia | exact Hv].
Qed.

Lemma cell_set_in cells i v :
  0 <= i < Z.of_nat (length cells) ->
  cell_set cells i v = Done (<[Z.to_nat i := v]> cells).
Proof.
  intros Hi. unfold cell_set.
  destruct (Z.ltb_spec i 0); [lia|].
  destruct (Nat.ltb_spec (Z.to_nat i) (length cells)); [reflexivity | lia].
Qed.

Lemma cell_get_insert cells i j v :
  0 <= i < Z.of_nat (length cells) -> 0 <= j ->
  cell_get (<[Z.to_nat i := v]> cells) j =
  if j =? i then Done v else cell_get cells j.
Proof.
  intros Hi Hj. unfold cell_get. destruct (Z.ltb_spec j 0); [lia|].
  destruct (Z.eqb_spec j i) as [->|Hne].
  - rewrite list_lookup_insert_eq by lia. reflexivity.
  - rewrite list_lookup_insert_ne by lia. reflexivity.
Qed.

(** ** The container: reading and writing through GROUP_AT *)

Section Container.
Context `{PlatformOk}.

Lemma block_index_lt (i n : Z) :
  0 <= i -> i < NGROUPS_PER_BLOCK * n -> 0 <= i / NGROUPS_PER_BLOCK < n.
Proof.
  intros Hi Hn. pose proof per_block_pos as Hp. split.
  - apply Z.div_pos; lia.
  - apply Z.div_lt_upper_bound; lia.
Qed.

Lemma GROUP_AT_in gi i :
  group_info_wf gi -> 0 <= i < ngroups gi -> exists v, GROUP_AT gi i = Done v.
Proof.
  intros [Hc Hn Hnb Hl] Hi. pose proof per_block_pos as Hp. unfold GROUP_AT.
  destruct (Z.ltb_spec i 0); [lia|].
  destruct Hl as [(Hb & Hs & Hpb) | (Hb & Hlen)].
  - rewrite Hb, Z.div_small, Z.mod_small by lia. simpl.
    apply cell_get_in. lia.
  - pose proof (block_index_lt i (Z.of_nat (length (blocks gi))) ltac:(lia) ltac:(lia)) as Hk.
    destruct (lookup_lt_is_Some_2 (blocks gi) (Z.to_nat (i / NGROUPS_PER_BLOCK)))
      as [b Hbk]; [lia|].
    rewrite Hbk. rewrite Forall_forall in Hb.
    destruct (Hb b) as (a & cells & -> & Hcl).
    { eapply list_elem_of_lookup_2. exact Hbk. }
    apply cell_get_in. pose proof (Z.mod_pos_bound i NGROUPS_PER_BLOCK Hp). lia.
Qed.

Lemma index_split_inj (i j : Z) :
  i / NGROUPS_PER_BLOCK = j / NGROUPS_PER_BLOCK ->
  i mod NGROUPS_PER_BLOCK = j mod NGROUPS_PER_BLOCK -> i = j.
Proof.
  intros Hd Hm. pose proof per_block_pos as Hp.
  rewrite (Z.div_mod i NGROUPS_PER_BLOCK), (Z.div_mod j NGROUPS_PER_BLOCK) by lia.
  congruence.
Qed.

Lemma GROUP_AT_set_spec gi i v :
  group_info_wf gi -> 0 <= i < ngroups gi ->
  exists gi',
    GROUP_AT_set gi i v = Done gi' /\ group_info_wf gi' /\ same_frame gi gi' /\
    forall j, 0 <= j -> GROUP_AT gi' j = if j =? i then Done v else GROUP_AT gi j.
Proof.
  intros [Hc Hn Hnb Hl] Hi. pose proof per_block_pos as Hp. unfold GROUP_AT_set.
  destruct (Z.ltb_spec i 0); [lia|].
  destruct Hl as [(Hb & Hs & Hpb) | (Hb & Hlen)].
  - rewrite Hb, Z.div_small, Z.mod_small by lia. simpl.
    rewrite cell_set_in by lia. simpl. eexists. split; [reflexivity|].
    split; [|split].
    + constructor; simpl;
        [assumption | rewrite Hn, Hb; reflexivity | assumption
        | left; rewrite length_insert; auto].
    + unfold same_frame, layout. simpl. rewrite Hb. auto.
    + intros j Hj. unfold GROUP_AT. simpl. rewrite ?Hb.
      destruct (Z.ltb_spec j 0); [lia|].
      destruct (Z.eqb_spec j i) as [->|Hne].
      * rewrite Z.div_small, Z.mod_small by lia. simpl.
        rewrite cell_get_insert by lia. now rewrite Z.eqb_refl.
      * destruct (Z.lt_ge_cases j NGROUPS_PER_BLOCK) as [Hlt|Hge].
        -- rewrite Z.div_small, Z.mod_small by lia. simpl.
           rewrite cell_get_insert by lia.
           destruct (Z.eqb_spec j i); [lia | reflexivity].
        -- assert (0 < j / NGROUPS_PER_BLOCK) by (apply Z.div_str_pos; lia).
           destruct (Z.to_nat (j / NGROUPS_PER_BLOCK)) eqn:E; [lia | reflexivity].
  - pose proof (block_index_lt i (Z.of_nat (length (blocks gi))) ltac:(lia) ltac:(lia)) as Hk.
    pose proof (Z.mod_pos_bound i NGROUPS_PER_BLOCK Hp) as Hm.
    destruct (lookup_lt_is_Some_2 (blocks gi) (Z.to_nat (i / NGROUPS_PER_BLOCK)))
      as [b Hbk]; [lia|].
    rewrite Hbk. pose proof Hb as Hb'. rewrite Forall_forall in Hb'.
    destruct (Hb' b) as (a & cells & -> & Hcl).
    { eapply list_elem_of_lookup_2. exact Hbk. }
    rewrite cell_set_in by lia. simpl. eexists. split; [reflexivity|].
    split; [|split].
    + constructor; simpl; rewrite ?length_insert; try assumption.
      right. split; [|assumption].
      apply Forall_insert; [assumption|].
      exists a, (<[Z.to_nat (i mod NGROUPS_PER_BLOCK) := v]> cells).
      split; [reflexivity|]. now rewrite length_insert.
    + unfold same_frame, layout. simpl. repeat split.
      rewrite list_fmap_insert. simpl.
      apply list_insert_id. rewrite list_lookup_fmap, Hbk. reflexivity.
    + intros j Hj. unfold GROUP_AT. simpl.
      destruct (Z.ltb_spec j 0); [lia|].
      destruct (Z.eq_dec (j / NGROUPS_PER_BLOCK) (i / NGROUPS_PER_BLOCK)) as [Heq|Hne].
      * rewrite Heq, list_lookup_insert_eq, Hbk by lia.
        pose proof (Z.mod_pos_bound j NGROUPS_PER_BLOCK Hp) as Hmj.
        rewrite cell_get_insert by lia.
        destruct (Z.eqb_spec (j mod NGROUPS_PER_BLOCK) (i mod NGROUPS_PER_BLOCK)) as [Hmm|Hmm].
        -- rewrite (index_split_inj j i Heq Hmm), Z.eqb_refl. reflexivity.
        -- destruct (Z.eqb_spec j i) as [->|_]; [congruence | reflexivity].
      * assert (0 <= j / NGROUPS_PER_BLOCK) by (apply Z.div_pos; lia).
        rewrite list_lookup_insert_ne by lia.
        destruct (Z.eqb_spec j i) as [->|_]; [congruence | reflexivity].
Qed.

Lemma gids_length gi : length (gids gi) = Z.to_nat (ngroups gi).
Proof. unfold gids. now rewrite length_map, length_seqZ. Qed.

Lemma gids_lookup gi i :
  0 <= i < ngroups gi -> gids gi !! Z.to_nat i = Some (cell_of gi i).
Proof.
  intros Hi. unfold gids. rewrite list_lookup_fmap.
  rewrite (lookup_seqZ_lt 0 (ngroups gi) (Z.to_nat i)) by lia.
  simpl. f_equal. f_equal. lia.
Qed.

Lemma GROUP_AT_gids gi i :
  group_info_wf gi -> 0 <= i < ngroups gi ->
  exists v, GROUP_AT gi i = Done v /\ gids gi !! Z.to_nat i = Some v.
Proof.
  intros Hwf Hi. destruct (GROUP_AT_in gi i Hwf Hi) as [v Hv].
  exists v. split; [exact Hv|].
  rewrite gids_lookup by exact Hi. unfold cell_of. now rewrite Hv.
Qed.

Lemma GROUP_AT_of_gids gi i v :
  group_info_wf gi -> 0 <= i < ngroups gi ->
  gids gi !! Z.to_nat i = Some v -> GROUP_AT gi i = Done v.
Proof.
  intros Hwf Hi Hv. destruct (GROUP_AT_gids gi i Hwf Hi) as (w & Hw & Hg).
  congruence.
Qed.

Lemma GROUP_AT_set_gids gi i v :
  group_info_wf gi -> 0 <= i < ngroups gi ->
  exists gi',
    GROUP_AT_set gi i v = Done gi' /\ group_info_wf gi' /\ same_frame gi gi' /\
    gids gi' = <[Z.to_nat i := v]> (gids gi).
Proof.
  intros Hwf Hi.
  destruct (GROUP_AT_set_spec gi i v Hwf Hi) as (gi' & Hset & Hwf' & Hfr & Hrd).
  exists gi'. split; [exact Hset|]. split; [exact Hwf'|]. split; [exact Hfr|].
  destruct Hfr as (_ & Hn & _).
  apply list_eq. intros k.
  destruct (Nat.lt_ge_cases k (Z.to_nat (ngroups gi))) as [Hk|Hk].
  - replace k with (Z.to_nat (Z.of_nat k)) by lia.
    rewrite gids_lookup by lia.
    unfold cell_of. rewrite Hrd by lia.
    destruct (Z.eqb_spec (Z.of_nat k) i) as [->|Hne].
    + rewrite list_lookup_insert_eq by (rewrite gids_length; lia). reflexivity.
    + rewrite list_lookup_insert_ne by lia.
      rewrite gids_lookup by lia. reflexivity.
  - rewrite !lookup_ge_None_2; try reflexivity.
    + rewrite length_insert, gids_length. lia.
    + rewrite gids_length. lia.
Qed.

End Container.

(** ** Order *)

Lemma ascending_nil : ascending [].
Proof. intros i j x y _ Hi. discriminate. Qed.

Lemma ascending_tail x l : ascending (x :: l) -> ascending l.
Proof. intros Ha i j a b Hij Hi Hj. apply (Ha (S i) (S j)); simpl; auto with arith. Qed.

Lemma StronglySorted_ascending l : StronglySorted Z.le l -> ascending l.
Proof.
  induction 1 as [|a l Hs IH Hall]; [apply ascending_nil|].
  intros i j x y Hij Hi Hj.
  destruct i as [|i], j as [|j]; simpl in *.
  - assert (x = y) by congruence. lia.
  - injection Hi as ->. rewrite Forall_forall in Hall.
    apply Hall. eapply list_elem_of_lookup_2. exact Hj.
  - lia.
  - apply (IH i j); auto with arith.
Qed.

Lemma Sorted_ascending l : Sorted Z.le l -> ascending l.
Proof.
  intros Hs. apply StronglySorted_ascending, Sorted_StronglySorted; [|exact Hs].
  intros a b c. apply Z.le_trans.
Qed.

Lemma ascending_Sorted l : ascending l -> Sorted Z.le l.
Proof.
  induction l as [|a l IH]; intros Ha; constructor.
  - apply IH. eapply ascending_tail. exact Ha.
  - destruct l as [|b l]; constructor.
    apply (Ha 0%nat 1%nat); simpl; auto.
Qed.

Lemma strictly_ascending_ascending l : strictly_ascending l -> ascending l.
Proof.
  intros Hs i j x y Hij Hi Hj.
  destruct (Nat.eq_dec i j) as [->|Hne].
  - assert (x = y) by congruence. lia.
  - apply Z.lt_le_incl. apply (Hs i j); auto. lia.
Qed.

(** ** groups_search *)

Section Search.
Context `{PlatformOk}.

Lemma search_loop_correct fuel gi grp : forall left right,
  group_info_wf gi -> ascending (gids gi) ->
  0 <= left -> left <= right -> right <= ngroups gi ->
  (Z.to_nat (right - left) < fuel)%nat ->
  (forall i, 0 <= i < ngroups gi -> gids gi !! Z.to_nat i = Some grp -> left <= i < right) ->
  search_loop fuel gi grp left right =
  Done (if bool_decide (grp ∈ gids gi) then 1 else 0).
Proof.
  induction fuel as [|fuel IH]; intros left right Hwf Hasc Hl Hlr Hr Hfuel Hwin; [lia|].
  pose proof (wf_count _ Hwf) as Hc. unfold INT_MAX in Hc.
  simpl. destruct (Z.ltb_spec left right) as [Hlt|Hge].
  - rewrite to_uint_id by (unfold UINT_MOD; lia).
    set (mid := (left + right) / 2).
    assert (left <= mid < right) as Hmid.
    { unfold mid. split; [apply Z.div_le_lower_bound | apply Z.div_lt_upper_bound]; lia. }
    destruct (GROUP_AT_gids gi mid Hwf ltac:(lia)) as (x & Hx & Hgx).
    rewrite Hx. simpl. unfold gid_gt, gid_lt.
    destruct (Z.ltb_spec x grp) as [Hxg|Hxg].
    + rewrite to_uint_id by (unfold UINT_MOD; lia).
      apply IH; try assumption; try lia.
      intros i Hi Hgi. specialize (Hwin i Hi Hgi).
      destruct (Z.le_gt_cases i mid) as [Him|Him]; [|lia].
      pose proof (Hasc (Z.to_nat i) (Z.to_nat mid) grp x ltac:(lia) Hgi Hgx). lia.
    + destruct (Z.ltb_spec grp x) as [Hgx'|Hgx'].
      * apply IH; try assumption; try lia.
        intros i Hi Hgi. specialize (Hwin i Hi Hgi).
        destruct (Z.le_gt_cases mid i) as [Him|Him]; [|lia].
        pose proof (Hasc (Z.to_nat mid) (Z.to_nat i) x grp ltac:(lia) Hgx Hgi). lia.
      * assert (x = grp) as -> by lia.
        rewrite bool_decide_eq_true_2; [reflexivity|].
        eapply list_elem_of_lookup_2. exact Hgx.
  - rewrite bool_decide_eq_false_2; [reflexivity|].
    intros Hin. apply list_elem_of_lookup_1 in Hin as [k Hk].
    pose proof (lookup_lt_Some _ _ _ Hk) as Hlen. rewrite gids_length in Hlen.
    specialize (Hwin (Z.of_nat k) ltac:(lia)).
    rewrite Nat2Z.id in Hwin. specialize (Hwin Hk). lia.
Qed.

End Search.

(** Well-formedness of a concrete structure. *)
Ltac concrete_wf :=
  constructor;
  [ vm_compute; split; discriminate
  | vm_compute; reflexivity
  | vm_compute; split; discriminate
  | first
      [ left; split; [vm_compute; reflexivity | split; vm_compute; discriminate]
      | right; split;
        [ match goal with
          | |- Forall _ ?l => let l' := eval vm_compute in l in change l with l'
          end;
          repeat (constructor; [eexists _, _; split; reflexivity|]); constructor
        | vm_compute; discriminate ] ] ].

(** ** The concrete platforms satisfy the side conditions *)

Lemma linux_platform_ok : @PlatformOk linux_platform.
Proof. constructor; simpl; unfold INT_MAX, SORT_MAX; lia. Qed.

Lemma tiny_platform_ok : @PlatformOk tiny_platform.
Proof. constructor; simpl; unfold INT_MAX, SORT_MAX; lia. Qed.

Lemma group_info_of_small_wf `{PlatformOk} refs l :
  Z.of_nat (length l) <= NGROUPS_SMALL -> group_info_wf (group_info_of refs l).
Proof.
  intros Hl. pose proof small_in_block as Hs. pose proof per_block_int as Hp.
  pose proof per_block_pos as Hp0.
  unfold group_info_of. destruct (Z.leb_spec (Z.of_nat (length l)) NGROUPS_SMALL); [|lia].
  assert ((Z.of_nat (length l) + NGROUPS_PER_BLOCK - 1) / NGROUPS_PER_BLOCK <= 1) as Hdiv
    by (apply Z.lt_succ_r, Z.div_lt_upper_bound; lia).
  constructor; simpl.
  - unfold INT_MAX in *. lia.
  - lia.
  - unfold INT_MAX. lia.
  - left. split; [reflexivity|]. rewrite length_take, length_app, length_replicate. lia.
Qed.

Lemma groups_search_member `{PlatformOk} (fuel : nat) (gi : group_info) (grp : Z) :
  group_info_wf gi -> Sorted Z.le (gids gi) -> (Z.to_nat (ngroups gi) < fuel)%nat ->
  groups_search fuel (Some gi) grp = Done (if bool_decide (grp ∈ gids gi) then 1 else 0).
Proof.
  intros Hwf Hs Hfuel. pose proof (wf_count _ Hwf) as Hc.
  unfold groups_search. rewrite to_uint_int by exact Hc.
  apply search_loop_correct; try assumption; try lia.
  apply Sorted_ascending, Hs.
Qed.

(** C3: on a sorted set groups_search answers 1 exactly when the identifier
    is one of the set's identifiers and 0 otherwise; for the NULL pointer and
    for a set without identifiers it answers 0, and it never faults. *)
Theorem groups_search_correct `{PlatformOk} (fuel : nat) (gi : group_info) (grp : Z) :
  groups_search fuel None grp = Done 0 /\
  (group_info_wf gi -> Sorted Z.le (gids gi) -> (Z.to_nat (ngroups gi) < fuel)%nat ->
   groups_search fuel (Some gi) grp =
     Done (if bool_decide (grp ∈ gids gi) then 1 else 0) /\
   (ngroups gi = 0 -> groups_search fuel (Some gi) grp = Done 0)).
Proof.
  split; [reflexivity|]. intros Hwf Hs Hfuel.
  pose proof (wf_count _ Hwf) as Hc.
  pose proof (groups_search_member fuel gi grp Hwf Hs Hfuel) as Hmain.
  split; [exact Hmain|].
  intros Hz. rewrite Hmain. rewrite bool_decide_eq_false_2; [reflexivity|].
  intros Hin. apply list_elem_of_lookup_1 in Hin as [k Hk].
  apply lookup_lt_Some in Hk. rewrite gids_length in Hk. lia.
Qed.

Lemma groups_search_correct_witness :
  let gi := @group_info_of tiny_platform 1 [1; 5; 6; 6; 7; 9; 12] in
  (@group_info_wf tiny_platform gi /\ Sorted Z.le (@gids tiny_platform gi) /\
   (Z.to_nat (ngroups gi) < 8)%nat) /\
  @groups_search tiny_platform 8 None 6 = Done 0 /\
  @groups_search tiny_platform 8 (Some gi) 6 = Done 1 /\
  @groups_search tiny_platform 8 (Some gi) 8 = Done 0.
Proof.
  intros gi.
  assert (@group_info_wf tiny_platform gi) as Hwf.
  { concrete_wf. }
  assert (Sorted Z.le (@gids tiny_platform gi)) as Hs.
  { vm_compute. repeat constructor; discriminate. }
  assert (Z.to_nat (ngroups gi) < 8)%nat as Hf by (vm_compute; lia).
  split; [auto|].
  destruct (@groups_search_correct tiny_platform tiny_platform_ok 8 gi 6) as [H0 H1].
  destruct (H1 Hwf Hs Hf) as [H6 _].
  destruct (@groups_search_correct tiny_platform tiny_platform_ok 8 gi 8) as [_ H2].
  destruct (H2 Hwf Hs Hf) as [H8 _].
  split; [exact H0|]. split; [exact H6 | exact H8].
Defined.

(** ** groups_sort *)

Lemma insert_perm_delete (l : list Z) j a :
  (j < length l)%nat -> <[j := a]> l ≡ₚ a :: delete j l.
Proof.
  revert j. induction l as [|x l IH]; intros [|j] Hj; simpl in *; try lia.
  - reflexivity.
  - rewrite (IH j) by lia. apply Permutation_swap.
Qed.

Lemma insert_swap_perm (l : list Z) i j a b :
  l !! i = Some a -> l !! j = Some b -> <[i := b]> (<[j := a]> l) ≡ₚ l.
Proof.
  revert i j. induction l as [|x l IH]; intros [|i] [|j] Hi Hj; simpl in *;
    try discriminate.
  - injection Hi as ->. injection Hj as ->. reflexivity.
  - injection Hi as ->.
    rewrite (insert_perm_delete l j a) by (eapply lookup_lt_Some; eassumption).
    rewrite (delete_Permutation l j b Hj) at 2. apply Permutation_swap.
  - injection Hj as ->.
    rewrite (insert_perm_delete l i b) by (eapply lookup_lt_Some; eassumption).
    rewrite (delete_Permutation l i a Hi) at 2. apply Permutation_swap.
  - f_equiv. now apply IH.
Qed.

Lemma stride_of_pos k : 1 <= stride_of k.
Proof. induction k; simpl; lia. Qed.

Lemma stride_of_ge k : Z.of_nat k + 1 <= stride_of k.
Proof. induction k as [|k IH]; [simpl; lia|]. change (stride_of (S k)) with (3 * stride_of k + 1). lia. Qed.

Lemma stride_of_mono k k' : (k <= k')%nat -> stride_of k <= stride_of k'.
Proof.
  induction 1 as [|k' _ IH]; [lia|].
  change (stride_of (S k')) with (3 * stride_of k' + 1). pose proof (stride_of_pos k'). lia.
Qed.

Lemma stride_of_19 : stride_of 19 = SORT_MAX.
Proof. reflexivity. Qed.

Lemma stride_next_int k n :
  stride_of k < n -> n <= SORT_MAX -> 3 * stride_of k + 1 <= INT_MAX.
Proof.
  intros Hk Hn. change (3 * stride_of k + 1) with (stride_of (S k)).
  destruct (Nat.lt_ge_cases k 19) as [Hlt|Hge].
  - pose proof (stride_of_mono (S k) 19 ltac:(lia)) as Hm.
    rewrite stride_of_19 in Hm. unfold SORT_MAX, INT_MAX in *. lia.
  - pose proof (stride_of_mono 19 k Hge) as Hm. rewrite stride_of_19 in Hm. lia.
Qed.

Lemma stride_quot k : Z.quot (stride_of (S k)) 3 = stride_of k.
Proof.
  change (stride_of (S k)) with (3 * stride_of k + 1).
  pose proof (stride_of_pos k). rewrite Z.quot_div_nonneg by lia.
  symmetry. apply Z.div_unique with (r := 1); lia.
Qed.

Lemma sort_first_stride_spec fuel n : forall k,
  n <= SORT_MAX -> (Z.to_nat (n - stride_of k) < fuel)%nat ->
  exists k', (k <= k')%nat /\
    sort_first_stride fuel n (stride_of k) = Done (stride_of k') /\
    n <= stride_of k' /\
    (forall k0, (k <= k0 < k')%nat -> stride_of k0 < n).
Proof.
  induction fuel as [|fuel IH]; intros k Hn Hfuel; [lia|].
  simpl. destruct (Z.ltb_spec (stride_of k) n) as [Hlt|Hge].
  - pose proof (stride_next_int k n Hlt Hn) as Hint. pose proof (stride_of_pos k) as Hp.
    rewrite to_int_id by (unfold INT_MAX in *; lia).
    destruct (IH (S k) Hn) as (k' & Hk & Hrun & Hstop & Hbelow).
    { change (stride_of (S k)) with (3 * stride_of k + 1). lia. }
    exists k'. split; [lia|]. split; [exact Hrun|]. split; [exact Hstop|].
    intros k0 Hk0. destruct (Nat.eq_dec k0 k) as [->|Hne]; [exact Hlt|].
    apply Hbelow. lia.
  - exists k. split; [lia|]. split; [reflexivity|]. split; [lia|]. intros k0 Hk0. lia.
Qed.

Section Sort.
Context `{PlatformOk}.

Lemma same_frame_refl gi : same_frame gi gi.
Proof. unfold same_frame. auto. Qed.

Lemma same_frame_trans g1 g2 g3 : same_frame g1 g2 -> same_frame g2 g3 -> same_frame g1 g3.
Proof. unfold same_frame. intros (?&?&?&?) (?&?&?&?). repeat split; congruence. Qed.

Lemma GROUP_AT_cell gi i :
  group_info_wf gi -> 0 <= i < ngroups gi -> GROUP_AT gi i = Done (cell_of gi i).
Proof.
  intros Hwf Hi. destruct (GROUP_AT_in gi i Hwf Hi) as [v Hv].
  unfold cell_of. now rewrite Hv.
Qed.

Lemma gids_lookup_cell gi i :
  0 <= i < ngroups gi -> gids gi !! Z.to_nat i = Some (cell_of gi i).
Proof. apply gids_lookup. Qed.

(** Everything an assignment through GROUP_AT does. *)
Lemma GROUP_AT_set_full gi i v :
  group_info_wf gi -> 0 <= i < ngroups gi ->
  exists gi',
    GROUP_AT_set gi i v = Done gi' /\ group_info_wf gi' /\ same_frame gi gi' /\
    gids gi' = <[Z.to_nat i := v]> (gids gi) /\
    forall j, 0 <= j -> cell_of gi' j = if j =? i then v else cell_of gi j.
Proof.
  intros Hwf Hi.
  destruct (GROUP_AT_set_spec gi i v Hwf Hi) as (gi' & Hset & Hwf' & Hfr & Hrd).
  destruct (GROUP_AT_set_gids gi i v Hwf Hi) as (gi'' & Hset' & _ & _ & Hg).
  assert (gi'' = gi') as -> by congruence.
  exists gi'. repeat (split; [assumption|]).
  intros j Hj. unfold cell_of. rewrite Hrd by exact Hj.
  destruct (j =? i); reflexivity.
Qed.

(** Storing the value a cell already holds changes nothing. *)
Lemma GROUP_AT_set_same gi i v : GROUP_AT gi i = Done v -> GROUP_AT_set gi i v = Done gi.
Proof.
  unfold GROUP_AT, GROUP_AT_set. destruct (i <? 0); [discriminate|].
  destruct (blocks gi !! Z.to_nat (i / NGROUPS_PER_BLOCK)) as [[|a cells|]|] eqn:Hb;
    try discriminate; intros Hget; apply cell_get_Done in Hget as [Hi Hv];
    pose proof (lookup_lt_Some _ _ _ Hv) as Hlen;
    rewrite cell_set_in by lia; simpl; rewrite (list_insert_id _ _ _ Hv).
  - destruct gi; reflexivity.
  - rewrite (list_insert_id _ _ _ Hb). destruct gi; reflexivity.
Qed.

Lemma sort_shift_spec fuel stride tmp top l0 : forall left right gi,
  group_info_wf gi -> ngroups gi <= SORT_MAX -> 1 <= stride -> stride <= ngroups gi ->
  right = left + stride -> - stride <= left -> right < ngroups gi ->
  (Z.to_nat (left + 1) < fuel)%nat ->
  <[Z.to_nat right := tmp]> (gids gi) ≡ₚ l0 ->
  exists gi' right',
    sort_shift fuel stride tmp left right gi = Done (gi', right') /\
    group_info_wf gi' /\ same_frame gi gi' /\ 0 <= right' /\ right' <= right /\
    <[Z.to_nat right' := tmp]> (gids gi') ≡ₚ l0 /\
    (stride = 1 -> right <= top -> hole_sorted (cell_of gi) right top tmp ->
     hole_sorted (cell_of gi') right' top tmp /\
     (0 < right' -> cell_of gi' (right' - 1) <= tmp)).
Proof.
  induction fuel as [|fuel IH];
    intros left right gi Hwf Hmax Hs1 Hsn Hr Hl Hrn Hfuel Hperm; [lia|].
  simpl. destruct (Z.leb_spec 0 left) as [Hl0|Hl0].
  - rewrite (GROUP_AT_cell gi left Hwf) by lia. simpl. unfold gid_gt.
    destruct (Z.ltb_spec tmp (cell_of gi left)) as [Hgt|Hle].
    + destruct (GROUP_AT_set_full gi right (cell_of gi left) Hwf ltac:(lia))
        as (gi1 & Hset & Hwf1 & Hfr1 & Hg1 & Hc1).
      rewrite Hset. simpl.
      pose proof Hfr1 as (_ & Hn1 & _).
      rewrite to_int_id by (unfold SORT_MAX, INT_MAX in *; lia).
      destruct (IH (left - stride) left gi1) as (gi' & right' & Hrun & Hwf' & Hfr' & Hr0 & Hrr & Hp' & Hsorted);
        try assumption; try lia.
      { rewrite Hg1. rewrite <- Hperm.
        rewrite <- (list_insert_insert_eq (gids gi) (Z.to_nat right) (cell_of gi left) tmp).
        apply insert_swap_perm.
        - rewrite list_lookup_insert_ne by lia. apply gids_lookup_cell. lia.
        - apply list_lookup_insert_eq. rewrite gids_length. lia. }
      exists gi', right'. split; [exact Hrun|]. split; [exact Hwf'|].
      split; [eapply same_frame_trans; eassumption|].
      split; [exact Hr0|]. split; [lia|]. split; [exact Hp'|].
      intros Hone Htop (Hs & Hbig). apply Hsorted; [exact Hone | lia |].
      split.
      * intros i j Hi Hij Hj Hil Hjl. rewrite !Hc1 by lia.
        destruct (Z.eqb_spec i right) as [->|Hir], (Z.eqb_spec j right) as [->|Hjr];
          try lia.
        -- apply Hs; lia.
        -- apply Hs; lia.
        -- apply Hs; lia.
      * intros j Hlj Hj. rewrite Hc1 by lia.
        destruct (Z.eqb_spec j right) as [->|Hjr]; [lia|]. apply Hbig; lia.
    + exists gi, right. split; [reflexivity|]. split; [exact Hwf|].
      split; [apply same_frame_refl|]. split; [lia|]. split; [lia|]. split; [exact Hperm|].
      intros Hone Htop Hhs. split; [exact Hhs|]. intros _.
      replace (right - 1) with left by lia. lia.
  - exists gi, right. split; [reflexivity|]. split; [exact Hwf|].
    split; [apply same_frame_refl|]. split; [lia|]. split; [lia|]. split; [exact Hperm|].
    intros Hone Htop Hhs. split; [exact Hhs|]. lia.
Qed.

Lemma sort_pass_spec budget stride : forall fuel base gi,
  group_info_wf gi -> ngroups gi <= SORT_MAX -> 1 <= stride -> stride < ngroups gi ->
  0 <= base ->
  (Z.to_nat (ngroups gi - stride - base) < fuel)%nat ->
  (Z.to_nat (ngroups gi) < budget)%nat ->
  exists gi',
    sort_pass fuel budget stride (ngroups gi - stride) base gi = Done gi' /\
    group_info_wf gi' /\ same_frame gi gi' /\ gids gi' ≡ₚ gids gi /\
    (stride = 1 -> sorted_to (cell_of gi) base ->
     sorted_to (cell_of gi') (Z.max base (ngroups gi - 1))).
Proof.
  induction fuel as [|fuel IH]; intros base gi Hwf Hmax Hs1 Hsn Hb Hfuel Hbudget; [lia|].
  simpl. destruct (Z.ltb_spec base (ngroups gi - stride)) as [Hlt|Hge].
  - rewrite (to_int_id (base + stride)) by (unfold SORT_MAX, INT_MAX in *; lia).
    rewrite (GROUP_AT_cell gi (base + stride) Hwf) by lia. simpl.
    set (tmp := cell_of gi (base + stride)).
    destruct (sort_shift_spec budget stride tmp (base + 1) (gids gi) base (base + stride) gi)
      as (gi1 & right1 & Hrun & Hwf1 & Hfr1 & Hr0 & Hrr & Hp1 & Hsorted);
      try assumption; try lia.
    { rewrite list_insert_id; [reflexivity|]. apply gids_lookup_cell. lia. }
    rewrite Hrun. simpl. pose proof Hfr1 as (_ & Hn1 & _).
    destruct (GROUP_AT_set_full gi1 right1 tmp Hwf1 ltac:(lia))
      as (gi2 & Hset & Hwf2 & Hfr2 & Hg2 & Hc2).
    rewrite Hset. simpl. pose proof Hfr2 as (_ & Hn2 & _).
    rewrite to_int_id by (unfold SORT_MAX, INT_MAX in *; lia).
    assert (ngroups gi2 = ngroups gi) as Hn by congruence.
    destruct (IH (base + 1) gi2) as (gi' & Hrun' & Hwf' & Hfr' & Hp' & Hsorted');
      try assumption; try lia.
    rewrite Hn in Hrun'.
    exists gi'. split; [exact Hrun'|]. split; [exact Hwf'|].
    split; [eapply same_frame_trans; [|exact Hfr']; eapply same_frame_trans; eassumption|].
    split; [rewrite Hp', Hg2; exact Hp1|].
    intros Hone Hsb. subst stride.
    rewrite Hn in Hsorted'.
    replace (Z.max base (ngroups gi - 1)) with (Z.max (base + 1) (ngroups gi - 1)) by lia.
    apply Hsorted'; [reflexivity |].
    destruct Hsorted as ((Hs & Hbig) & Hprev); [reflexivity | lia | |].
    { split.
      - intros i j Hi Hij Hj Hih Hjh. apply Hsb; lia.
      - intros j Hj1 Hj2. lia. }
    intros i j Hi Hij Hj. rewrite !Hc2 by lia.
    destruct (Z.eqb_spec i right1) as [->|Hir], (Z.eqb_spec j right1) as [->|Hjr].
    + lia.
    + apply Z.lt_le_incl, Hbig; lia.
    + specialize (Hprev ltac:(lia)).
      pose proof (Hs i (right1 - 1) ltac:(lia) ltac:(lia) ltac:(lia) ltac:(lia) ltac:(lia)). lia.
    + apply Hs; lia.
  - exists gi. split; [reflexivity|]. split; [exact Hwf|]. split; [apply same_frame_refl|].
    split; [reflexivity|].
    intros Hone Hsb. subst stride.
    replace (Z.max base (ngroups gi - 1)) with base by lia. exact Hsb.
Qed.

Lemma sort_strides_spec budget : forall k fuel gi,
  group_info_wf gi -> ngroups gi <= SORT_MAX -> stride_of k < ngroups gi ->
  (S k < fuel)%nat -> (Z.to_nat (ngroups gi) < budget)%nat ->
  exists gi',
    sort_strides fuel budget (ngroups gi) (stride_of k) gi = Done gi' /\
    group_info_wf gi' /\ same_frame gi gi' /\ gids gi' ≡ₚ gids gi /\
    sorted_to (cell_of gi') (ngroups gi - 1).
Proof.
  induction k as [|k IH]; intros fuel gi Hwf Hmax Hk Hfuel Hbudget;
    (destruct fuel as [|fuel]; [lia|]).
  - simpl. rewrite to_int_id by (unfold SORT_MAX, INT_MAX in *; simpl in *; lia).
    destruct (sort_pass_spec budget 1 budget 0 gi) as (gi1 & Hrun & Hwf1 & Hfr1 & Hp1 & Hsorted);
      try assumption; simpl in *; try lia.
    rewrite Hrun. simpl. destruct fuel as [|fuel]; [lia|]. simpl.
    exists gi1. split; [reflexivity|]. split; [exact Hwf1|]. split; [exact Hfr1|].
    split; [exact Hp1|].
    replace (ngroups gi - 1) with (Z.max 0 (ngroups gi - 1)) by lia.
    apply Hsorted; [reflexivity |].
    intros i j Hi Hij Hj. replace j with i by lia. lia.
  - cbn [sort_strides].
    pose proof (stride_of_pos k) as Hpos. pose proof (stride_of_pos (S k)) as Hpos'.
    destruct (Z.eqb_spec (stride_of (S k)) 0) as [Hz|_]; [lia|].
    rewrite to_int_id by (unfold SORT_MAX, INT_MAX in *; lia).
    destruct (sort_pass_spec budget (stride_of (S k)) budget 0 gi)
      as (gi1 & Hrun & Hwf1 & Hfr1 & Hp1 & _); try assumption; try lia.
    rewrite Hrun. cbn [res_bind]. rewrite stride_quot.
    pose proof Hfr1 as (_ & Hn1 & _).
    destruct (IH fuel gi1) as (gi' & Hrun' & Hwf' & Hfr' & Hp' & Hsorted');
      try assumption; try lia.
    { change (stride_of (S k)) with (3 * stride_of k + 1) in Hk. lia. }
    rewrite Hn1 in Hrun', Hsorted'.
    exists gi'. split; [exact Hrun'|]. split; [exact Hwf'|].
    split; [eapply same_frame_trans; eassumption|].
    split; [rewrite Hp'; exact Hp1 | exact Hsorted'].
Qed.

Lemma sorted_to_ascending gi :
  sorted_to (cell_of gi) (ngroups gi - 1) -> ascending (gids gi).
Proof.
  intros Hs i j x y Hij Hi Hj.
  pose proof (lookup_lt_Some _ _ _ Hi) as Hil. pose proof (lookup_lt_Some _ _ _ Hj) as Hjl.
  rewrite gids_length in Hil, Hjl.
  pose proof (gids_lookup gi (Z.of_nat i) ltac:(lia)) as Hi'.
  pose proof (gids_lookup gi (Z.of_nat j) ltac:(lia)) as Hj'.
  rewrite Nat2Z.id in Hi', Hj'.
  assert (x = cell_of gi (Z.of_nat i)) as -> by congruence.
  assert (y = cell_of gi (Z.of_nat j)) as -> by congruence.
  apply Hs; lia.
Qed.

Lemma ascending_sorted_to gi :
  ascending (gids gi) -> sorted_to (cell_of gi) (ngroups gi - 1).
Proof.
  intros Ha i j Hi Hij Hj.
  apply (Ha (Z.to_nat i) (Z.to_nat j)); [lia | apply gids_lookup; lia | apply gids_lookup; lia].
Qed.

(** On a set that is in order already no pass moves anything. *)
Lemma sort_pass_id budget stride : forall fuel base gi,
  group_info_wf gi -> ngroups gi <= SORT_MAX -> 1 <= stride -> 0 <= base ->
  sorted_to (cell_of gi) (ngroups gi - 1) ->
  (Z.to_nat (ngroups gi - stride - base) < fuel)%nat -> (0 < budget)%nat ->
  sort_pass fuel budget stride (ngroups gi - stride) base gi = Done gi.
Proof.
  induction fuel as [|fuel IH]; intros base gi Hwf Hmax Hs1 Hb Hsorted Hfuel Hbudget; [lia|].
  simpl. destruct (Z.ltb_spec base (ngroups gi - stride)) as [Hlt|Hge]; [|reflexivity].
  rewrite (to_int_id (base + stride)) by (unfold SORT_MAX, INT_MAX in *; lia).
  rewrite (GROUP_AT_cell gi (base + stride) Hwf) by lia. simpl.
  destruct budget as [|budget]; [lia|]. simpl.
  destruct (Z.leb_spec 0 base); [|lia].
  rewrite (GROUP_AT_cell gi base Hwf) by lia. simpl. unfold gid_gt.
  destruct (Z.ltb_spec (cell_of gi (base + stride)) (cell_of gi base)) as [Hbad|_].
  { pose proof (Hsorted base (base + stride) ltac:(lia) ltac:(lia) ltac:(lia)). lia. }
  simpl. rewrite GROUP_AT_set_same by (apply GROUP_AT_cell; [exact Hwf | lia]). simpl.
  rewrite to_int_id by (unfold SORT_MAX, INT_MAX in *; lia).
  apply IH; try assumption; lia.
Qed.

Lemma sort_strides_id budget : forall k fuel gi,
  group_info_wf gi -> ngroups gi <= SORT_MAX -> stride_of k < ngroups gi ->
  sorted_to (cell_of gi) (ngroups gi - 1) ->
  (S k < fuel)%nat -> (Z.to_nat (ngroups gi) < budget)%nat ->
  sort_strides fuel budget (ngroups gi) (stride_of k) gi = Done gi.
Proof.
  induction k as [|k IH]; intros fuel gi Hwf Hmax Hk Hsorted Hfuel Hbudget;
    (destruct fuel as [|fuel]; [lia|]).
  - simpl. rewrite to_int_id by (unfold SORT_MAX, INT_MAX in *; simpl in *; lia).
    rewrite sort_pass_id; try assumption; simpl in *; try lia.
    destruct fuel as [|fuel]; [lia | reflexivity].
  - cbn [sort_strides].
    pose proof (stride_of_pos k) as Hpos. pose proof (stride_of_pos (S k)) as Hpos'.
    destruct (Z.eqb_spec (stride_of (S k)) 0) as [Hz|_]; [lia|].
    rewrite to_int_id by (unfold SORT_MAX, INT_MAX in *; lia).
    rewrite sort_pass_id; try assumption; try lia.
    cbn [res_bind]. rewrite stride_quot.
    apply IH; try assumption; try lia.
    change (stride_of (S k)) with (3 * stride_of k + 1) in Hk. lia.
Qed.

(** groups_sort either has nothing to do or runs the passes from the largest
    stride below the size of the set. *)
Lemma groups_sort_unfold fuel gi :
  ngroups gi <= SORT_MAX -> (Z.to_nat (ngroups gi) < fuel)%nat ->
  (ngroups gi <= 1 /\ groups_sort fuel gi = Done gi) \/
  (exists k, stride_of k < ngroups gi /\ (S k < fuel)%nat /\
     groups_sort fuel gi = sort_strides fuel fuel (ngroups gi) (stride_of k) gi).
Proof.
  intros Hmax Hfuel. unfold groups_sort.
  destruct (sort_first_stride_spec fuel (ngroups gi) 0 Hmax) as (k' & _ & Hrun & Hstop & Hbelow).
  { simpl. lia. }
  change (stride_of 0) with 1 in Hrun. rewrite Hrun. cbn [res_bind].
  destruct k' as [|k].
  - left. simpl in Hstop. split; [lia|].
    change (Z.quot (stride_of 0) 3) with 0.
    destruct fuel as [|fuel]; [lia | reflexivity].
  - right. exists k. rewrite stride_quot.
    assert (stride_of k < ngroups gi) as Hk by (apply Hbelow; lia).
    split; [exact Hk|]. split; [|reflexivity].
    pose proof (stride_of_ge k). lia.
Qed.

End Sort.

Lemma groups_sort_fixed `{PlatformOk} (fuel : nat) (g : group_info) :
  group_info_wf g -> ngroups g <= SORT_MAX -> (Z.to_nat (ngroups g) < fuel)%nat ->
  Sorted Z.le (gids g) -> groups_sort fuel g = Done g.
Proof.
  intros Hg Hgm Hgf Hgs.
  destruct (groups_sort_unfold fuel g Hgm Hgf) as [[_ Hrun] | (k & Hk & Hkf & Hrun)];
    [exact Hrun|].
  rewrite Hrun. apply sort_strides_id; try assumption.
  apply ascending_sorted_to, Sorted_ascending, Hgs.
Qed.

Lemma groups_sort_spec `{PlatformOk} (fuel : nat) (gi : group_info) :
  group_info_wf gi -> ngroups gi <= SORT_MAX -> (Z.to_nat (ngroups gi) < fuel)%nat ->
  exists gi',
    groups_sort fuel gi = Done gi' /\ group_info_wf gi' /\ same_frame gi gi' /\
    Sorted Z.le (gids gi') /\ Permutation (gids gi') (gids gi).
Proof.
  intros Hwf Hmax Hfuel.
  destruct (groups_sort_unfold fuel gi Hmax Hfuel) as [[Hsmall Hrun] | (k & Hk & Hkf & Hrun)].
  - exists gi. split; [exact Hrun|]. split; [exact Hwf|]. split; [apply same_frame_refl|].
    split; [|reflexivity].
    apply ascending_Sorted, sorted_to_ascending.
    intros i j Hi Hij Hj. replace j with i by lia. lia.
  - destruct (sort_strides_spec fuel k fuel gi Hwf Hmax Hk Hkf Hfuel)
      as (gi' & Hrun' & Hwf' & Hfr & Hp & Hs).
    exists gi'. rewrite Hrun. split; [exact Hrun'|]. split; [exact Hwf'|].
    split; [exact Hfr|]. split; [|exact Hp].
    apply ascending_Sorted, sorted_to_ascending.
    destruct Hfr as (_ & Hn & _). rewrite Hn. exact Hs.
Qed.

(** C4: groups_sort rearranges the identifiers of a set in place (same
    structure, same count, same pages) into a non-decreasing sequence that is
    a permutation of the input, and it is idempotent: sorting the result
    again, or sorting any set that is already in order, leaves the set as it
    is.  The size bound is the one under which the stride computation stays
    within [int]. *)
Theorem groups_sort_correct `{PlatformOk} (fuel : nat) (gi : group_info) :
  group_info_wf gi -> ngroups gi <= SORT_MAX -> (Z.to_nat (ngroups gi) < fuel)%nat ->
  exists gi',
    groups_sort fuel gi = Done gi' /\
    group_info_wf gi' /\ same_frame gi gi' /\
    Sorted Z.le (gids gi') /\ Permutation (gids gi') (gids gi) /\
    groups_sort fuel gi' = Done gi' /\
    (Sorted Z.le (gids gi) -> gi' = gi).
Proof.
  intros Hwf Hmax Hfuel.
  destruct (groups_sort_spec fuel gi Hwf Hmax Hfuel) as (gi' & Hrun & Hwf' & Hfr & Hs & Hp).
  exists gi'. split; [exact Hrun|]. split; [exact Hwf'|]. split; [exact Hfr|].
  split; [exact Hs|]. split; [exact Hp|].
  pose proof Hfr as (_ & Hn & _). split.
  - apply groups_sort_fixed; try assumption; rewrite Hn; assumption.
  - intros Hsorted. rewrite (groups_sort_fixed fuel gi Hwf Hmax Hfuel Hsorted) in Hrun.
    congruence.
Qed.

Lemma groups_sort_correct_witness :
  let gi := @group_info_of tiny_platform 1 [5; 3; 9; 1; 7; 2; 8; 2; 0; 11] in
  (@group_info_wf tiny_platform gi /\ ngroups gi <= SORT_MAX /\
   (Z.to_nat (ngroups gi) < 11)%nat) /\
  exists gi',
    @groups_sort tiny_platform 11 gi = Done gi' /\
    @group_info_wf tiny_platform gi' /\ same_frame gi gi' /\
    Sorted Z.le (@gids tiny_platform gi') /\
    Permutation (@gids tiny_platform gi') (@gids tiny_platform gi) /\
    @groups_sort tiny_platform 11 gi' = Done gi' /\
    (Sorted Z.le (@gids tiny_platform gi) -> gi' = gi).
Proof.
  intros gi.
  assert (@group_info_wf tiny_platform gi) as Hwf by concrete_wf.
  assert (ngroups gi <= SORT_MAX) as Hmax by (vm_compute; discriminate).
  assert (Z.to_nat (ngroups gi) < 11)%nat as Hfuel by (vm_compute; lia).
  split; [auto|].
  exact (@groups_sort_correct tiny_platform tiny_platform_ok 11 gi Hwf Hmax Hfuel).
Defined.

(** ** is_subset *)

Section Subset.
Context `{PlatformOk}.

Lemma cell_of_in_gids gi k : 0 <= k < ngroups gi -> cell_of gi k ∈ gids gi.
Proof. intros Hk. eapply list_elem_of_lookup_2. apply gids_lookup. exact Hk. Qed.

Lemma in_gids_cell gi x : x ∈ gids gi -> exists k, 0 <= k < ngroups gi /\ cell_of gi k = x.
Proof.
  intros Hin. apply list_elem_of_lookup_1 in Hin as [k Hk].
  pose proof (lookup_lt_Some _ _ _ Hk) as Hlen. rewrite gids_length in Hlen.
  exists (Z.of_nat k). split; [lia|].
  pose proof (gids_lookup gi (Z.of_nat k) ltac:(lia)) as Hc.
  rewrite Nat2Z.id in Hc. congruence.
Qed.

(** The inner scan stops at the first identifier of [g2], from [j] on, that
    is not below [gid1], or at the end of [g2]. *)
Lemma subset_scan_spec g2 gid1 : forall fuel j gid2,
  group_info_wf g2 -> 0 <= j <= ngroups g2 ->
  (Z.to_nat (ngroups g2 - j) < fuel)%nat ->
  exists j1 g,
    subset_scan fuel g2 gid1 j gid2 = Done (j1, g) /\
    j <= j1 <= ngroups g2 /\
    (forall k, j <= k < j1 -> cell_of g2 k < gid1) /\
    (j1 < ngroups g2 -> g = Some (cell_of g2 j1) /\ gid1 <= cell_of g2 j1).
Proof.
  induction fuel as [|fuel IH]; intros j gid2 Hwf Hj Hfuel; [lia|].
  pose proof (wf_count _ Hwf) as Hc.
  simpl. rewrite to_uint_int by exact Hc.
  destruct (Z.ltb_spec j (ngroups g2)) as [Hlt|Hge].
  - rewrite (GROUP_AT_cell g2 j Hwf) by lia. simpl. unfold gid_lte.
    destruct (Z.leb_spec gid1 (cell_of g2 j)) as [Hle|Hgt].
    + exists j, (Some (cell_of g2 j)). split; [reflexivity|]. split; [lia|].
      split; [intros k Hk; lia|]. intros _. split; [reflexivity | exact Hle].
    + rewrite to_uint_id by (unfold INT_MAX, UINT_MOD in *; lia).
      destruct (IH (j + 1) (Some (cell_of g2 j)) Hwf) as (j1 & g & Hrun & Hj1 & Hbelow & Hstop);
        try lia.
      exists j1, g. split; [exact Hrun|]. split; [lia|]. split; [|exact Hstop].
      intros k Hk. destruct (Z.eq_dec k j) as [->|Hne]; [lia|]. apply Hbelow. lia.
  - exists j, gid2. split; [reflexivity|]. split; [lia|]. split; [intros k Hk; lia | lia].
Qed.

(** The test always returns, and it answers true only when every identifier
    of the first set occurs in the second. *)
Lemma subset_loop_sound g1 g2 budget : forall fuel i j,
  group_info_wf g1 -> group_info_wf g2 ->
  0 <= i <= ngroups g1 -> 0 <= j <= ngroups g2 ->
  (Z.to_nat (ngroups g1 - i) < fuel)%nat -> (Z.to_nat (ngroups g2) < budget)%nat ->
  exists b,
    subset_loop fuel budget g1 g2 i j = Done b /\
    (b = true -> forall k, i <= k < ngroups g1 -> cell_of g1 k ∈ gids g2).
Proof.
  induction fuel as [|fuel IH]; intros i j Hwf1 Hwf2 Hi Hj Hfuel Hbudget; [lia|].
  pose proof (wf_count _ Hwf1) as Hc1. pose proof (wf_count _ Hwf2) as Hc2.
  simpl. rewrite !to_uint_int by assumption.
  destruct (Z.ltb_spec i (ngroups g1)) as [Hlt|Hge].
  - rewrite (GROUP_AT_cell g1 i Hwf1) by lia. simpl.
    destruct (subset_scan_spec g2 (cell_of g1 i) budget j None Hwf2 Hj)
      as (j1 & g & Hrun & Hj1 & Hbelow & Hstop); [lia|].
    rewrite Hrun. simpl.
    destruct (Z.leb_spec (ngroups g2) j1) as [Hend|Hin].
    + exists false. split; [reflexivity | discriminate].
    + destruct (Hstop Hin) as [-> Hle]. unfold gid_eq.
      destruct (Z.eqb_spec (cell_of g1 i) (cell_of g2 j1)) as [Heq|Hne]; simpl.
      * rewrite !to_uint_id by (unfold INT_MAX, UINT_MOD in *; lia).
        destruct (IH (i + 1) (j1 + 1) Hwf1 Hwf2) as (b & Hrun' & Hsound); try lia.
        exists b. split; [exact Hrun'|]. intros Hb k Hk.
        destruct (Z.eq_dec k i) as [->|Hki].
        -- rewrite Heq. apply cell_of_in_gids. lia.
        -- apply Hsound; [exact Hb | lia].
      * exists false. split; [reflexivity | discriminate].
  - exists true. split; [reflexivity|]. intros _ k Hk. lia.
Qed.

(** A sorted set is a subset of itself. *)
Lemma subset_loop_refl g budget : forall fuel i,
  group_info_wf g -> sorted_to (cell_of g) (ngroups g - 1) ->
  0 <= i <= ngroups g ->
  (Z.to_nat (ngroups g - i) < fuel)%nat -> (0 < budget)%nat ->
  subset_loop fuel budget g g i i = Done true.
Proof.
  induction fuel as [|fuel IH]; intros i Hwf Hs Hi Hfuel Hbudget; [lia|].
  pose proof (wf_count _ Hwf) as Hc.
  simpl. rewrite !to_uint_int by assumption.
  destruct (Z.ltb_spec i (ngroups g)) as [Hlt|Hge]; [|reflexivity].
  rewrite (GROUP_AT_cell g i Hwf) by lia. simpl.
  destruct budget as [|budget]; [lia|]. simpl.
  rewrite to_uint_int by assumption.
  destruct (Z.ltb_spec i (ngroups g)); [|lia].
  rewrite (GROUP_AT_cell g i Hwf) by lia. simpl. unfold gid_lte, gid_eq.
  rewrite Z.leb_refl. simpl.
  destruct (Z.leb_spec (ngroups g) i); [lia|].
  rewrite Z.eqb_refl. simpl.
  rewrite !to_uint_id by (unfold INT_MAX, UINT_MOD in *; lia).
  apply IH; try assumption; lia.
Qed.

(** On a first set without duplicates the test decides inclusion. *)
Lemma subset_loop_strict g1 g2 budget : forall fuel i j,
  group_info_wf g1 -> group_info_wf g2 ->
  strictly_ascending (gids g1) -> ascending (gids g2) ->
  0 <= i <= ngroups g1 -> 0 <= j <= ngroups g2 ->
  (Z.to_nat (ngroups g1 - i) < fuel)%nat -> (Z.to_nat (ngroups g2) < budget)%nat ->
  (i < ngroups g1 -> forall k, 0 <= k < j -> cell_of g2 k < cell_of g1 i) ->
  exists b,
    subset_loop fuel budget g1 g2 i j = Done b /\
    (b = true <-> forall k, i <= k < ngroups g1 -> cell_of g1 k ∈ gids g2).
Proof.
  induction fuel as [|fuel IH]; intros i j Hwf1 Hwf2 Hs1 Hs2 Hi Hj Hfuel Hbudget Hlow; [lia|].
  pose proof (wf_count _ Hwf1) as Hc1. pose proof (wf_count _ Hwf2) as Hc2.
  simpl. rewrite !to_uint_int by assumption.
  destruct (Z.ltb_spec i (ngroups g1)) as [Hlt|Hge].
  - specialize (Hlow Hlt).
    rewrite (GROUP_AT_cell g1 i Hwf1) by lia. simpl.
    destruct (subset_scan_spec g2 (cell_of g1 i) budget j None Hwf2 Hj)
      as (j1 & g & Hrun & Hj1 & Hbelow & Hstop); [lia|].
    rewrite Hrun. simpl.
    assert (forall k, 0 <= k < j1 -> cell_of g2 k < cell_of g1 i) as Hbefore.
    { intros k Hk. destruct (Z.lt_ge_cases k j) as [Hkj|Hkj]; [apply Hlow | apply Hbelow]; lia. }
    assert ((forall k, j1 <= k < ngroups g2 -> cell_of g1 i < cell_of g2 k) ->
            cell_of g1 i ∉ gids g2) as Hmiss.
    { intros Hafter Hin. apply in_gids_cell in Hin as (k & Hk & Hck).
      destruct (Z.lt_ge_cases k j1) as [Hkj|Hkj].
      - specialize (Hbefore k ltac:(lia)). lia.
      - specialize (Hafter k ltac:(lia)). lia. }
    destruct (Z.leb_spec (ngroups g2) j1) as [Hend|Hin].
    + exists false. split; [reflexivity|]. split; [discriminate|]. intros Hall.
      exfalso. apply Hmiss; [intros k Hk; lia | apply Hall; lia].
    + destruct (Hstop Hin) as [-> Hle]. unfold gid_eq.
      destruct (Z.eqb_spec (cell_of g1 i) (cell_of g2 j1)) as [Heq|Hne]; simpl.
      * rewrite !to_uint_id by (unfold INT_MAX, UINT_MOD in *; lia).
        destruct (IH (i + 1) (j1 + 1)) as (b & Hrun' & Hiff); try assumption; try lia.
        { intros Hlt' k Hk.
          assert (cell_of g1 i < cell_of g1 (i + 1)) as Hstep.
          { apply (Hs1 (Z.to_nat i) (Z.to_nat (i + 1))); [lia | |];
              apply gids_lookup; lia. }
          destruct (Z.eq_dec k j1) as [->|Hkj]; [lia|].
          specialize (Hbefore k ltac:(lia)). lia. }
        exists b. split; [exact Hrun'|]. rewrite Hiff. split.
        -- intros Hall k Hk. destruct (Z.eq_dec k i) as [->|Hki].
           ++ rewrite Heq. apply cell_of_in_gids. lia.
           ++ apply Hall. lia.
        -- intros Hall k Hk. apply Hall. lia.
      * exists false. split; [reflexivity|]. split; [discriminate|]. intros Hall.
        exfalso. apply Hmiss; [|apply Hall; lia].
        intros k Hk.
        pose proof (Hs2 (Z.to_nat j1) (Z.to_nat k) (cell_of g2 j1) (cell_of g2 k)
                      ltac:(lia) (gids_lookup g2 j1 ltac:(lia)) (gids_lookup g2 k ltac:(lia))).
        lia.
  - exists true. split; [reflexivity|]. split; [|reflexivity]. intros _ k Hk. lia.
Qed.

End Subset.

Lemma is_subset_sound `{PlatformOk} fuel g1 g2 :
  group_info_wf g1 -> group_info_wf g2 ->
  (Z.to_nat (ngroups g1) < fuel)%nat -> (Z.to_nat (ngroups g2) < fuel)%nat ->
  exists b, is_subset fuel g1 g2 = Done b /\
            (b = true -> forall x, x ∈ gids g1 -> x ∈ gids g2).
Proof.
  intros Hwf1 Hwf2 Hf1 Hf2.
  pose proof (wf_count _ Hwf1) as Hc1. pose proof (wf_count _ Hwf2) as Hc2.
  destruct (subset_loop_sound g1 g2 fuel fuel 0 0 Hwf1 Hwf2) as (b & Hrun & Hsound); try lia.
  exists b. split; [exact Hrun|]. intros Hb x Hx.
  apply in_gids_cell in Hx as (k & Hk & <-). apply Hsound; [exact Hb | lia].
Qed.

Lemma is_subset_refl `{PlatformOk} fuel g :
  group_info_wf g -> Sorted Z.le (gids g) -> (Z.to_nat (ngroups g) < fuel)%nat ->
  is_subset fuel g g = Done true.
Proof.
  intros Hwf Hs Hfuel. pose proof (wf_count _ Hwf) as Hc.
  apply subset_loop_refl; try assumption; try lia.
  apply ascending_sorted_to, Sorted_ascending, Hs.
Qed.

Lemma is_subset_nil `{Platform} fuel g1 g2 :
  ngroups g1 = 0 -> (0 < fuel)%nat -> is_subset fuel g1 g2 = Done true.
Proof.
  intros Hn Hfuel. destruct fuel as [|fuel]; [lia|].
  unfold is_subset. simpl. rewrite Hn. reflexivity.
Qed.

(** When the first set is sorted and free of duplicates and the second is
    sorted, is_subset answers true exactly when every identifier of the first
    occurs in the second. *)
Theorem is_subset_without_duplicates `{PlatformOk} fuel g1 g2 :
  group_info_wf g1 -> group_info_wf g2 ->
  strictly_ascending (gids g1) -> Sorted Z.le (gids g2) ->
  (Z.to_nat (ngroups g1) < fuel)%nat -> (Z.to_nat (ngroups g2) < fuel)%nat ->
  exists b, is_subset fuel g1 g2 = Done b /\
            (b = true <-> forall x, x ∈ gids g1 -> x ∈ gids g2).
Proof.
  intros Hwf1 Hwf2 Hs1 Hs2 Hf1 Hf2.
  pose proof (wf_count _ Hwf1) as Hc1. pose proof (wf_count _ Hwf2) as Hc2.
  destruct (subset_loop_strict g1 g2 fuel fuel 0 0 Hwf1 Hwf2 Hs1) as (b & Hrun & Hiff);
    try lia.
  { apply Sorted_ascending, Hs2. }
  exists b. split; [exact Hrun|]. rewrite Hiff. split.
  - intros Hall x Hx. apply in_gids_cell in Hx as (k & Hk & <-). apply Hall. lia.
  - intros Hall k Hk. apply Hall, cell_of_in_gids. lia.
Qed.

Lemma is_subset_without_duplicates_witness :
  let g1 := @group_info_of linux_platform 1 [100; 300] in
  let g2 := @group_info_of linux_platform 1 [100; 200; 300] in
  (@group_info_wf linux_platform g1 /\ @group_info_wf linux_platform g2 /\
   strictly_ascending (@gids linux_platform g1) /\ Sorted Z.le (@gids linux_platform g2) /\
   (Z.to_nat (ngroups g1) < 4)%nat /\ (Z.to_nat (ngroups g2) < 4)%nat) /\
  @is_subset linux_platform 4 g1 g2 = Done true /\
  (forall x, x ∈ @gids linux_platform g1 -> x ∈ @gids linux_platform g2).
Proof.
  intros g1 g2.
  assert (@group_info_wf linux_platform g1) as H1 by concrete_wf.
  assert (@group_info_wf linux_platform g2) as H2 by concrete_wf.
  assert (strictly_ascending (@gids linux_platform g1)) as H3.
  { change (@gids linux_platform g1) with [100; 300]. intros i j x y Hij Hi Hj.
    destruct i as [|[|i]]; destruct j as [|[|j]]; simpl in Hi, Hj;
      try lia; try discriminate.
    injection Hi as <-. injection Hj as <-. lia. }
  assert (Sorted Z.le (@gids linux_platform g2)) as H4.
  { vm_compute. repeat constructor; discriminate. }
  assert (Z.to_nat (ngroups g1) < 4)%nat as H5 by (vm_compute; lia).
  assert (Z.to_nat (ngroups g2) < 4)%nat as H6 by (vm_compute; lia).
  split; [repeat (split; [assumption|]); assumption|].
  destruct (@is_subset_without_duplicates linux_platform linux_platform_ok 4 g1 g2
              H1 H2 H3 H4 H5 H6) as (b & Hrun & Hiff).
  assert (b = true) as ->.
  { vm_compute in Hrun. now injection Hrun as <-. }
  split; [exact Hrun | now apply Hiff].
Defined.

(** is_subset of a sorted set in itself is true, with or without
    duplicates, and so is is_subset of an empty set in any set. *)
Theorem is_subset_reflexive_and_empty `{PlatformOk} fuel g g2 :
  group_info_wf g -> Sorted Z.le (gids g) -> (Z.to_nat (ngroups g) < fuel)%nat ->
  is_subset fuel g g = Done true /\
  (ngroups g = 0 -> is_subset fuel g g2 = Done true).
Proof.
  intros Hwf Hs Hfuel. split.
  - now apply is_subset_refl.
  - intros Hn. apply is_subset_nil; [exact Hn | lia].
Qed.

Lemma is_subset_reflexive_and_empty_witness :
  let g := @group_info_of linux_platform 1 [5; 5] in
  let e := @group_info_of linux_platform 1 [] in
  (@group_info_wf linux_platform g /\ Sorted Z.le (@gids linux_platform g) /\
   (Z.to_nat (ngroups g) < 3)%nat) /\
  @is_subset linux_platform 3 g g = Done true /\
  @is_subset linux_platform 3 e g = Done true.
Proof.
  intros g e.
  assert (@group_info_wf linux_platform g) as H1 by concrete_wf.
  assert (Sorted Z.le (@gids linux_platform g)) as H2.
  { vm_compute. repeat constructor. discriminate. }
  assert (Z.to_nat (ngroups g) < 3)%nat as H3 by (vm_compute; lia).
  assert (@group_info_wf linux_platform e) as H4 by concrete_wf.
  assert (Sorted Z.le (@gids linux_platform e)) as H5 by (vm_compute; constructor).
  assert (Z.to_nat (ngroups e) < 3)%nat as H6 by (vm_compute; lia).
  split; [split; [exact H1 | split; [exact H2 | exact H3]]|]. split.
  - exact (proj1 (@is_subset_reflexive_and_empty linux_platform linux_platform_ok 3 g g
                    H1 H2 H3)).
  - exact (proj2 (@is_subset_reflexive_and_empty linux_platform linux_platform_ok 3 e g
                    H4 H5 H6) eq_refl).
Defined.

(** C2 (where the code departs from it): both sets below are sorted and the
    one identifier of the first occurs in the second, yet is_subset answers
    false, because each match consumes one identifier of the second set and
    the duplicate finds none left. *)
Theorem is_subset_duplicate_refused :
  let g1 := @group_info_of linux_platform 1 [5; 5] in
  let g2 := @group_info_of linux_platform 1 [5] in
  Sorted Z.le (@gids linux_platform g1) /\ Sorted Z.le (@gids linux_platform g2) /\
  (forall x, x ∈ @gids linux_platform g1 -> x ∈ @gids linux_platform g2) /\
  @is_subset linux_platform 3 g1 g2 = Done false.
Proof.
  intros g1 g2. split; [|split; [|split]].
  - vm_compute. repeat constructor. discriminate.
  - vm_compute. repeat constructor.
  - change (@gids linux_platform g1) with [5; 5].
    change (@gids linux_platform g2) with [5].
    intros x Hx. apply list_elem_of_In in Hx. simpl in Hx.
    destruct Hx as [<-|[<-|[]]]; constructor.
  - vm_compute. reflexivity.
Qed.

(** ** Membership queries *)

Section Membership.
Context `{Platform}.

Lemma load_opt_some p gi s :
  p <> 0 -> k_objs s !! p = Some gi -> load_opt p s = Done (Some gi, s).
Proof.
  intros Hp Hgi. unfold load_opt. destruct (Z.eqb_spec p 0); [contradiction|].
  unfold kbind, load, kret. now rewrite Hgi.
Qed.

Lemma load_opt_null s : load_opt 0 s = Done (None, s).
Proof. reflexivity. Qed.

Lemma in_egroup_p_fast fuel grp s :
  grp = egid (k_cred s) -> in_egroup_p fuel grp s = Done (1, s).
Proof.
  intros ->. unfold in_egroup_p, kbind, current_cred, gid_eq.
  now rewrite Z.eqb_refl.
Qed.

Lemma in_egroup_p_search fuel grp s gi :
  grp <> egid (k_cred s) ->
  load_opt (cred_group_info (k_cred s)) s = Done (gi, s) ->
  in_egroup_p fuel grp s = lift (groups_search fuel gi grp) s.
Proof.
  intros Hne Hld. unfold in_egroup_p, kbind, current_cred, gid_eq.
  destruct (Z.eqb_spec grp (egid (k_cred s))); [contradiction|]. simpl.
  now rewrite Hld.
Qed.

Lemma in_group_p_dump fuel grp s :
  k_dumpTsk s = k_current s -> grp = AID_SDCARD_RW \/ grp = AID_SDCARD_R ->
  in_group_p fuel grp s = Done (1, s).
Proof.
  intros Hd Hg. unfold in_group_p, kbind, current_cred.
  rewrite Hd, Z.eqb_refl. destruct Hg as [-> | ->]; reflexivity.
Qed.

Lemma in_group_p_normal fuel grp s :
  k_dumpTsk s <> k_current s \/ (grp <> AID_SDCARD_RW /\ grp <> AID_SDCARD_R) ->
  in_group_p fuel grp s =
  if gid_eq grp (fsgid (k_cred s)) then Done (1, s)
  else kbind (load_opt (cred_group_info (k_cred s)))
         (fun gi => lift (groups_search fuel gi grp)) s.
Proof.
  intros Hn. unfold in_group_p, kbind at 1 2 3, current_cred.
  assert ((k_dumpTsk s =? k_current s) &&
          ((grp =? AID_SDCARD_RW) || (grp =? AID_SDCARD_R)) = false) as ->.
  { destruct Hn as [Hn | [Hrw Hr]].
    - apply Z.eqb_neq in Hn. now rewrite Hn.
    - apply Z.eqb_neq in Hrw, Hr. rewrite Hrw, Hr. apply andb_false_r. }
  destruct (gid_eq grp (fsgid (k_cred s))); reflexivity.
Qed.

End Membership.

(** C9: for the coredump task in_group_p answers 1 for the identifiers 1015
    and 1028 whatever the credentials hold; for every other identifier, and
    for every task that is not the coredump task, it answers 1 when the
    identifier is the credentials' fsgid and otherwise what the search of the
    group set answers, which on a sorted set is membership. *)
Theorem in_group_p_coredump `{PlatformOk} (fuel : nat) (grp : Z) (s : kstate) :
  (k_dumpTsk s = k_current s -> grp = AID_SDCARD_RW \/ grp = AID_SDCARD_R ->
   in_group_p fuel grp s = Done (1, s)) /\
  (k_dumpTsk s <> k_current s \/ (grp <> AID_SDCARD_RW /\ grp <> AID_SDCARD_R) ->
   (grp = fsgid (k_cred s) -> in_group_p fuel grp s = Done (1, s)) /\
   (forall gi,
      grp <> fsgid (k_cred s) ->
      cred_group_info (k_cred s) <> 0 ->
      k_objs s !! cred_group_info (k_cred s) = Some gi ->
      in_group_p fuel grp s = lift (groups_search fuel (Some gi) grp) s /\
      (group_info_wf gi -> Sorted Z.le (gids gi) -> (Z.to_nat (ngroups gi) < fuel)%nat ->
       in_group_p fuel grp s = Done (if bool_decide (grp ∈ gids gi) then 1 else 0, s)))).
Proof.
  split; [apply in_group_p_dump|].
  intros Hn. pose proof (in_group_p_normal fuel grp s Hn) as Hrun. unfold gid_eq in Hrun.
  split.
  - intros Heq. rewrite Hrun. apply Z.eqb_eq in Heq. now rewrite Heq.
  - intros gi Hne Hp Hgi. apply Z.eqb_neq in Hne. rewrite Hne in Hrun.
    unfold kbind in Hrun. rewrite (load_opt_some _ gi s Hp Hgi) in Hrun.
    split; [exact Hrun|]. intros Hwf Hs Hfuel. rewrite Hrun.
    rewrite (groups_search_member fuel gi grp Hwf Hs Hfuel). reflexivity.
Qed.

Lemma in_group_p_coredump_witness :
  (k_dumpTsk demo_dump_state = k_current demo_dump_state /\
   (1015 = AID_SDCARD_RW \/ 1015 = AID_SDCARD_R)) /\
  @in_group_p linux_platform 4 1015 demo_dump_state = Done (1, demo_dump_state) /\
  @in_group_p linux_platform 4 1015 demo_state = Done (0, demo_state) /\
  @in_group_p linux_platform 4 200 demo_dump_state = Done (1, demo_dump_state) /\
  @in_group_p linux_platform 4 1000 demo_state = Done (1, demo_state).
Proof.
  set (gi := @group_info_of linux_platform 1 [100; 200; 300]).
  assert (@group_info_wf linux_platform gi) as Hwf by concrete_wf.
  assert (Sorted Z.le (@gids linux_platform gi)) as Hs
    by (vm_compute; repeat constructor; discriminate).
  assert (Z.to_nat (ngroups gi) < 4)%nat as Hfuel by (vm_compute; lia).
  split; [split; [reflexivity | left; reflexivity]|].
  split.
  { destruct (@in_group_p_coredump linux_platform linux_platform_ok 4 1015 demo_dump_state)
      as [Hdump _].
    apply Hdump; [reflexivity | left; reflexivity]. }
  split.
  { destruct (@in_group_p_coredump linux_platform linux_platform_ok 4 1015 demo_state)
      as [_ Hnormal].
    destruct Hnormal as [_ Hsearch]; [left; discriminate|].
    destruct (Hsearch gi) as [_ Hmember]; [discriminate | discriminate | reflexivity|].
    exact (Hmember Hwf Hs Hfuel). }
  split.
  { destruct (@in_group_p_coredump linux_platform linux_platform_ok 4 200 demo_dump_state)
      as [_ Hnormal].
    destruct Hnormal as [_ Hsearch]; [right; split; discriminate|].
    destruct (Hsearch gi) as [_ Hmember]; [discriminate | discriminate | reflexivity|].
    exact (Hmember Hwf Hs Hfuel). }
  destruct (@in_group_p_coredump linux_platform linux_platform_ok 4 1000 demo_state)
    as [_ Hnormal].
  destruct Hnormal as [Hfast _]; [left; discriminate|].
  apply Hfast. reflexivity.
Defined.

(** C8 as stated fails: for the coredump task in_group_p answers 1 for 1015
    although 1015 is none of the task's primary group ids and the search of
    its group set answers 0. *)
Lemma membership_coredump_counterexample :
  1015 <> gid (k_cred demo_dump_state) /\
  1015 <> egid (k_cred demo_dump_state) /\
  1015 <> fsgid (k_cred demo_dump_state) /\
  @groups_search linux_platform 4
    (k_objs demo_dump_state !! cred_group_info (k_cred demo_dump_state)) 1015 = Done 0 /\
  @in_group_p linux_platform 4 1015 demo_dump_state = Done (1, demo_dump_state).
Proof. repeat split; try discriminate; vm_compute; reflexivity. Qed.

(** The fast path of in_group_p compares with the filesystem group id: a
    task whose real group id differs from its fsgid is not a member of its
    real group unless the group set holds it. *)
Lemma in_group_p_real_gid_is_searched :
  let s := set_cred (mk_cred 1000 2000 2000 16) demo_state in
  gid (k_cred s) = 1000 /\ @in_group_p linux_platform 4 1000 s = Done (0, s).
Proof. split; vm_compute; reflexivity. Qed.

(** C8, amended: in_egroup_p answers 1 without searching when the identifier
    is the credentials' egid, in_group_p when it is the credentials' fsgid
    (the filesystem group id, not the real one); otherwise each answers
    exactly what groups_search answers on the credentials' group set, except
    that in_group_p answers 1 for 1015 and 1028 in the coredump task. *)
Theorem membership_queries `{Platform} (fuel : nat) (grp : Z) (s : kstate) :
  (grp = egid (k_cred s) -> in_egroup_p fuel grp s = Done (1, s)) /\
  (grp = fsgid (k_cred s) -> in_group_p fuel grp s = Done (1, s)) /\
  (forall gi, cred_groups s gi ->
     (grp <> egid (k_cred s) ->
      in_egroup_p fuel grp s = lift (groups_search fuel gi grp) s) /\
     (grp <> fsgid (k_cred s) ->
      in_group_p fuel grp s =
      if (k_dumpTsk s =? k_current s) && ((grp =? AID_SDCARD_RW) || (grp =? AID_SDCARD_R))
      then Done (1, s)
      else lift (groups_search fuel gi grp) s)).
Proof.
  split; [apply in_egroup_p_fast|]. split.
  - intros ->. unfold in_group_p, kbind, current_cred, gid_eq.
    rewrite Z.eqb_refl. simpl.
    destruct ((k_dumpTsk s =? k_current s) &&
              ((fsgid (k_cred s) =? AID_SDCARD_RW) || (fsgid (k_cred s) =? AID_SDCARD_R)));
      reflexivity.
  - intros gi Hgi.
    assert (load_opt (cred_group_info (k_cred s)) s = Done (gi, s)) as Hld.
    { destruct Hgi as [[-> ->] | [Hp (g & -> & Hg)]];
        [apply load_opt_null | now apply load_opt_some]. }
    split; [intros Hne; now apply in_egroup_p_search|].
    intros Hne.
    destruct ((k_dumpTsk s =? k_current s) &&
              ((grp =? AID_SDCARD_RW) || (grp =? AID_SDCARD_R))) eqn:Hdump.
    + unfold in_group_p, kbind, current_cred. now rewrite Hdump.
    + unfold in_group_p, kbind, current_cred, gid_eq. rewrite Hdump.
      apply Z.eqb_neq in Hne. rewrite Hne. simpl. now rewrite Hld.
Qed.

Lemma membership_queries_witness :
  let gi := @group_info_of linux_platform 1 [100; 200; 300] in
  cred_groups demo_state (Some gi) /\
  @in_egroup_p linux_platform 4 1000 demo_state = Done (1, demo_state) /\
  @in_group_p linux_platform 4 1000 demo_state = Done (1, demo_state) /\
  @in_egroup_p linux_platform 4 300 demo_state =
    lift (@groups_search linux_platform 4 (Some gi) 300) demo_state /\
  @in_group_p linux_platform 4 400 demo_state =
    lift (@groups_search linux_platform 4 (Some gi) 400) demo_state.
Proof.
  intros gi.
  assert (cred_groups demo_state (Some gi)) as Hgi.
  { right. split; [discriminate|]. exists gi. split; reflexivity. }
  split; [exact Hgi|].
  destruct (@membership_queries linux_platform 4 1000 demo_state) as (He & Hf & _).
  split; [apply He; reflexivity|]. split; [apply Hf; reflexivity|].
  split.
  - destruct (@membership_queries linux_platform 4 300 demo_state) as (_ & _ & Hs).
    destruct (Hs (Some gi) Hgi) as [Hes _]. apply Hes. discriminate.
  - destruct (@membership_queries linux_platform 4 400 demo_state) as (_ & _ & Hs).
    destruct (Hs (Some gi) Hgi) as [_ Hgs]. apply Hgs. discriminate.
Defined.

(** ** The kernel heap: loads, stores and reference counts *)

Section Heap.
Context `{PlatformOk}.

Lemma kbind_done {A B} (m : kern A) (k : A -> kern B) s a s1 :
  m s = Done (a, s1) -> kbind m k s = k a s1.
Proof. intros Hm. unfold kbind. now rewrite Hm. Qed.

Lemma load_eq p g s : k_objs s !! p = Some g -> load p s = Done (g, s).
Proof. intros Hg. unfold load. now rewrite Hg. Qed.

Lemma store_eq p g0 g s :
  k_objs s !! p = Some g0 -> store p g s = Done (tt, set_objs (insert p g) s).
Proof. intros Hg. unfold store. now rewrite Hg. Qed.

Lemma kfree_eq p g s : k_objs s !! p = Some g -> kfree p s = Done (tt, set_objs (delete p) s).
Proof. intros Hg. unfold kfree. now rewrite Hg. Qed.

Lemma block_at_eq p g i b s :
  k_objs s !! p = Some g -> 0 <= i -> blocks g !! Z.to_nat i = Some b ->
  block_at p i s = Done (b, s).
Proof.
  intros Hg Hi Hb. unfold block_at. rewrite (kbind_done _ _ s g s (load_eq p g s Hg)).
  destruct (Z.ltb_spec i 0); [lia|]. now rewrite Hb.
Qed.

Lemma free_page_eq a cells s :
  a ∈ k_pages s ->
  free_page (InPage a cells) s = Done (tt, set_pages (fun live => live ∖ {[a]}) s).
Proof. intros Ha. unfold free_page. now rewrite decide_True. Qed.

Lemma set_pages_twice f g s : set_pages f (set_pages g s) = set_pages (fun l => f (g l)) s.
Proof. reflexivity. Qed.

Lemma set_pages_ext f g s : f (k_pages s) = g (k_pages s) -> set_pages f s = set_pages g s.
Proof. intros Hfg. unfold set_pages. now rewrite Hfg. Qed.

Lemma set_pages_id f s : f (k_pages s) = k_pages s -> set_pages f s = s.
Proof. intros Hf. unfold set_pages. rewrite Hf. destruct s; reflexivity. Qed.

Lemma set_objs_id f s : f (k_objs s) = k_objs s -> set_objs f s = s.
Proof. intros Hf. unfold set_objs. rewrite Hf. destruct s; reflexivity. Qed.

Lemma get_group_info_spec p g s :
  k_objs s !! p = Some g -> usage g < INT_MAX -> - INT_MAX <= usage g ->
  get_group_info p s = Done (p, set_objs (insert p (with_usage (usage g + 1) g)) s).
Proof.
  intros Hg Hu Hl. unfold get_group_info, kbind. rewrite (load_eq p g s Hg).
  rewrite (store_eq p g _ s Hg). unfold kret.
  rewrite to_int_id by (unfold INT_MAX in *; lia). reflexivity.
Qed.

(** The loop of groups_free releases the pages of the slots from [i] on. *)
Lemma free_blocks_spec p g : forall rest done fuel s,
  k_objs s !! p = Some g -> blocks g = done ++ rest ->
  Forall paged_block rest -> Z.of_nat (length (blocks g)) <= INT_MAX ->
  NoDup (block_addrs rest) ->
  (forall a, a ∈ block_addrs rest -> a ∈ k_pages s) ->
  (length rest < fuel)%nat ->
  free_blocks fuel p (Z.of_nat (length (blocks g))) (Z.of_nat (length done)) s =
  Done (tt, set_pages (fun live => live ∖ list_to_set (block_addrs rest)) s).
Proof.
  unfold block_addrs.
  induction rest as [|b rest IH]; intros done fuel s Hg Hsplit Hall Hlen Hnd Hlive Hfuel;
    (destruct fuel as [|fuel]; [simpl in Hfuel; lia|]).
  - simpl. rewrite Hsplit, length_app. simpl.
    destruct (Z.ltb_spec (Z.of_nat (length done)) (Z.of_nat (length done + 0))); [lia|].
    unfold kret. f_equal. f_equal. symmetry. apply set_pages_id. set_solver.
  - simpl in Hfuel. cbn [free_blocks].
    assert (Z.of_nat (length done) < Z.of_nat (length (blocks g))) as Hlt.
    { rewrite Hsplit, length_app. simpl. lia. }
    destruct (Z.ltb_spec (Z.of_nat (length done)) (Z.of_nat (length (blocks g)))); [|lia].
    apply Forall_cons in Hall as [(a & cells & -> & Hcells) Hall].
    simpl in Hnd, Hlive. apply NoDup_cons in Hnd as [Hfresh Hnd].
    rewrite (kbind_done _ _ s (InPage a cells) s).
    2:{ apply (block_at_eq p g); [exact Hg | lia |].
        rewrite Nat2Z.id, Hsplit, lookup_app_r, Nat.sub_diag by lia. reflexivity. }
    rewrite (kbind_done _ _ s tt _ (free_page_eq a cells s (Hlive a ltac:(left)))).
    rewrite to_int_id by (unfold INT_MAX in *; lia).
    replace (Z.of_nat (length done) + 1) with (Z.of_nat (length (done ++ [InPage a cells])))
      by (rewrite length_app; simpl; lia).
    rewrite (IH (done ++ [InPage a cells]) fuel); try assumption; try lia.
    + rewrite set_pages_twice. f_equal. f_equal. apply set_pages_ext. set_solver.
    + rewrite Hsplit, <- app_assoc. reflexivity.
    + intros a' Ha'. simpl. apply elem_of_difference. split; [apply Hlive; now right|].
      intros Heq. apply elem_of_singleton in Heq as ->. contradiction.
Qed.

(** groups_free releases every page of the set and then the structure. *)
Lemma groups_free_spec fuel p g s :
  k_objs s !! p = Some g -> group_info_wf g -> pages_live s g ->
  (Z.to_nat (nblocks g) < fuel)%nat ->
  groups_free fuel p s =
  Done (tt, set_objs (delete p)
              (set_pages (fun live => live ∖ list_to_set (page_addrs g)) s)).
Proof.
  intros Hg [Hc Hn Hnb Hl] [Hnd Hlive] Hfuel. unfold groups_free.
  destruct Hl as [(Hb & _) | (Hall & _)].
  - rewrite (kbind_done _ _ s InSmall s).
    2:{ apply (block_at_eq p g); [exact Hg | lia | now rewrite Hb]. }
    rewrite (kbind_done _ _ s tt s eq_refl).
    rewrite (kfree_eq p g s Hg). f_equal. f_equal. f_equal.
    symmetry. apply set_pages_id. unfold page_addrs. rewrite Hb. simpl. set_solver.
  - assert (free_blocks fuel p (nblocks g) 0 s =
            Done (tt, set_pages (fun live => live ∖ list_to_set (page_addrs g)) s)) as Hfree.
    { rewrite Hn. change 0 with (Z.of_nat (length (@nil block))).
      apply (free_blocks_spec p g (blocks g) []).
      - exact Hg.
      - reflexivity.
      - exact Hall.
      - lia.
      - exact Hnd.
      - exact Hlive.
      - lia. }
    destruct (blocks g) as [|b0 bl] eqn:Hbl; [simpl in Hn; lia|].
    apply Forall_cons in Hall as [(a & cells & -> & _) _].
    rewrite (kbind_done _ _ s (InPage a cells) s).
    2:{ apply (block_at_eq p g); [exact Hg | lia | now rewrite Hbl]. }
    rewrite (kbind_done _ _ s tt (set_pages (fun live => live ∖ list_to_set (page_addrs g)) s)).
    + apply (kfree_eq p g). exact Hg.
    + rewrite (kbind_done _ _ s g s (load_eq p g s Hg)). exact Hfree.
Qed.

(** Dropping a reference that is not the last one only decrements the
    counter. *)
Lemma put_group_info_keep fuel p g s :
  k_objs s !! p = Some g -> 1 < usage g <= INT_MAX ->
  put_group_info fuel p s = Done (tt, set_objs (insert p (with_usage (usage g - 1) g)) s).
Proof.
  intros Hg Hu. unfold put_group_info.
  rewrite (kbind_done _ _ s g s (load_eq p g s Hg)).
  rewrite to_int_id by (unfold INT_MAX in *; lia).
  rewrite (kbind_done _ _ s tt _ (store_eq p g _ s Hg)).
  destruct (Z.eqb_spec (usage g - 1) 0); [lia | reflexivity].
Qed.

(** Dropping the last reference frees the set. *)
Lemma put_group_info_last fuel p g s :
  k_objs s !! p = Some g -> usage g = 1 -> group_info_wf g -> pages_live s g ->
  (Z.to_nat (nblocks g) < fuel)%nat ->
  put_group_info fuel p s =
  Done (tt, set_objs (delete p)
              (set_pages (fun live => live ∖ list_to_set (page_addrs g)) s)).
Proof.
  intros Hg Hu Hwf Hlive Hfuel. unfold put_group_info.
  rewrite (kbind_done _ _ s g s (load_eq p g s Hg)).
  rewrite Hu. change (to_int (1 - 1)) with 0.
  rewrite (kbind_done _ _ s tt _ (store_eq p g _ s Hg)). simpl.
  rewrite (groups_free_spec fuel p (with_usage 0 g)).
  - unfold set_objs, set_pages. simpl. rewrite delete_insert_eq. reflexivity.
  - simpl. apply lookup_insert_eq.
  - destruct Hwf. constructor; assumption.
  - exact Hlive.
  - exact Hfuel.
Qed.

Lemma heap_only_refl s : heap_only s s.
Proof. unfold heap_only. repeat split. Qed.

Lemma heap_only_trans s1 s2 s3 : heap_only s1 s2 -> heap_only s2 s3 -> heap_only s1 s3.
Proof.
  unfold heap_only. intros (?&?&?&?&?&?) (?&?&?&?&?&?). repeat split; congruence.
Qed.

(** put_group_info in one statement. *)
Lemma put_group_info_spec fuel q g s :
  k_objs s !! q = Some g -> releasable fuel s g ->
  exists s',
    put_group_info fuel q s = Done (tt, s') /\ heap_only s s' /\
    k_objs s' = objs_after_put q g (k_objs s) /\
    k_pages s' = pages_after_put g (k_pages s).
Proof.
  intros Hg [Hu Hlast]. unfold objs_after_put, pages_after_put.
  destruct (decide (usage g = 1)) as [H1|H1].
  - destruct (Hlast H1) as (Hwf & Hlive & Hfuel).
    eexists. split; [apply (put_group_info_last fuel q g); assumption|].
    split; [repeat split | split; reflexivity].
  - eexists. split; [apply (put_group_info_keep fuel q g); [assumption | lia]|].
    split; [repeat split | split; reflexivity].
Qed.

Lemma get_group_info_state p g s :
  k_objs s !! p = Some g -> 1 <= usage g < INT_MAX ->
  exists s',
    get_group_info p s = Done (p, s') /\ heap_only s s' /\
    k_objs s' = <[p := with_usage (usage g + 1) g]> (k_objs s) /\
    k_pages s' = k_pages s.
Proof.
  intros Hg Hu. eexists. split.
  - apply (get_group_info_spec p g); [assumption | lia | unfold INT_MAX in *; lia].
  - split; [repeat split | split; reflexivity].
Qed.

Lemma groups_sort_at_spec fuel p gi s :
  k_objs s !! p = Some gi -> group_info_wf gi -> ngroups gi <= SORT_MAX ->
  (Z.to_nat (ngroups gi) < fuel)%nat ->
  exists gi',
    groups_sort_at fuel p s = Done (tt, set_objs (insert p gi') s) /\
    group_info_wf gi' /\ same_frame gi gi' /\
    Sorted Z.le (gids gi') /\ Permutation (gids gi') (gids gi) /\
    (Sorted Z.le (gids gi) -> gi' = gi) /\
    groups_sort fuel gi = Done gi'.
Proof.
  intros Hg Hwf Hmax Hfuel.
  destruct (groups_sort_spec fuel gi Hwf Hmax Hfuel) as (gi' & Hrun & Hwf' & Hfr & Hs & Hp).
  exists gi'. split.
  - unfold groups_sort_at. rewrite (kbind_done _ _ s gi s (load_eq p gi s Hg)).
    rewrite (kbind_done _ _ s gi' s); [|unfold lift; now rewrite Hrun].
    apply (store_eq p gi). exact Hg.
  - repeat (split; [assumption|]). split; [|exact Hrun].
    intros Hsorted. rewrite (groups_sort_fixed fuel gi Hwf Hmax Hfuel Hsorted) in Hrun.
    congruence.
Qed.

Lemma with_usage_twice u v g : with_usage u (with_usage v g) = with_usage u g.
Proof. reflexivity. Qed.

Lemma with_usage_same g : with_usage (usage g) g = g.
Proof. destruct g; reflexivity. Qed.

(** set_groups_sorted: the draft gives up its reference to the old set and
    takes one to the new set. *)
Lemma set_groups_sorted_spec fuel new p s gi go :
  k_objs s !! p = Some gi -> k_objs s !! cred_group_info new = Some go ->
  1 <= usage gi <= INT_MAX -> (cred_group_info new <> p -> usage gi < INT_MAX) ->
  releasable fuel s go ->
  (cred_group_info new = p -> 2 <= usage gi) ->
  exists s',
    set_groups_sorted fuel new p s = Done (mk_cred (gid new) (egid new) (fsgid new) p, s') /\
    heap_only s s' /\
    (if decide (cred_group_info new = p)
     then k_objs s' = k_objs s /\ k_pages s' = k_pages s
     else k_objs s' = <[p := with_usage (usage gi + 1) gi]>
                        (objs_after_put (cred_group_info new) go (k_objs s)) /\
          k_pages s' = pages_after_put go (k_pages s)).
Proof.
  intros Hp Hold Hu Hu' Hrel Hsame. unfold set_groups_sorted.
  destruct (put_group_info_spec fuel (cred_group_info new) go s Hold Hrel)
    as (s1 & Hput & Hh1 & Ho1 & Hp1).
  rewrite (kbind_done _ _ s tt s1 Hput).
  destruct (decide (cred_group_info new = p)) as [Heq|Hne].
  - assert (go = gi) as -> by congruence. specialize (Hsame Heq).
    unfold objs_after_put, pages_after_put in Ho1, Hp1.
    destruct (decide (usage gi = 1)); [lia|].
    assert (k_objs s1 !! p = Some (with_usage (usage gi - 1) gi)) as Hp1'.
    { rewrite Ho1, Heq. apply lookup_insert_eq. }
    destruct (get_group_info_state p _ s1 Hp1') as (s2 & Hget & Hh2 & Ho2 & Hp2);
      [simpl; lia|].
    rewrite (kbind_done _ _ s1 p s2 Hget). exists s2. split; [reflexivity|].
    split; [eapply heap_only_trans; eassumption|]. split; [|congruence].
    rewrite Ho2, Ho1, Heq. simpl. rewrite insert_insert_eq.
    replace (usage gi - 1 + 1) with (usage gi) by lia.
    rewrite with_usage_twice, with_usage_same. apply insert_id. exact Hp.
  - assert (k_objs s1 !! p = Some gi) as Hp1'.
    { rewrite Ho1. unfold objs_after_put. destruct (decide (usage go = 1)).
      - rewrite lookup_delete_ne by exact Hne. exact Hp.
      - rewrite lookup_insert_ne by exact Hne. exact Hp. }
    destruct (get_group_info_state p gi s1 Hp1') as (s2 & Hget & Hh2 & Ho2 & Hp2);
      [specialize (Hu' Hne); lia|].
    rewrite (kbind_done _ _ s1 p s2 Hget). exists s2. split; [reflexivity|].
    split; [eapply heap_only_trans; eassumption|]. split; congruence.
Qed.

End Heap.

Lemma releasable_heap `{Platform} fuel s s' g :
  k_pages s' = k_pages s -> releasable fuel s g -> releasable fuel s' g.
Proof.
  intros Hp [Hu Hlast]. split; [exact Hu|]. intros H1.
  destruct (Hlast H1) as (Hwf & [Hnd Hlive] & Hfuel).
  split; [exact Hwf|]. split; [|exact Hfuel]. split; [exact Hnd|].
  intros a Ha. rewrite Hp. now apply Hlive.
Qed.

(** C10: set_groups consults neither the capability nor the subset test.
    Whatever the credentials draft and the group set (any state [s], so any
    value of [k_setgid s], and any relation between the two sets), it sorts
    the set in place, drops the draft's reference to its previous set
    (freeing that set when it was the last reference), takes a reference to
    the new set, stores it in the draft and returns 0. *)
Theorem set_groups_always_installs `{PlatformOk}
    (fuel : nat) (new : cred) (p : Z) (s : kstate) (gi go : group_info) :
  k_objs s !! p = Some gi -> group_info_wf gi -> ngroups gi <= SORT_MAX ->
  (Z.to_nat (ngroups gi) < fuel)%nat -> 1 <= usage gi < INT_MAX ->
  k_objs s !! cred_group_info new = Some go -> releasable fuel s go ->
  (cred_group_info new = p -> 2 <= usage gi) ->
  exists gi' s',
    set_groups fuel new p s =
      Done ((0, mk_cred (gid new) (egid new) (fsgid new) p), s') /\
    same_frame gi gi' /\ Sorted Z.le (gids gi') /\ Permutation (gids gi') (gids gi) /\
    heap_only s s' /\
    (if decide (cred_group_info new = p)
     then k_objs s' = <[p := gi']> (k_objs s) /\ k_pages s' = k_pages s
     else k_objs s' = <[p := with_usage (usage gi + 1) gi']>
                        (objs_after_put (cred_group_info new) go (k_objs s)) /\
          k_pages s' = pages_after_put go (k_pages s)).
Proof.
  intros Hp Hwf Hmax Hfuel Hu Hold Hrel Hsame.
  destruct (groups_sort_at_spec fuel p gi s Hp Hwf Hmax Hfuel)
    as (gi' & Hsort & Hwf' & Hfr & Hs & Hperm & _ & _).
  pose proof Hfr as (Hu' & _).
  set (s1 := set_objs (insert p gi') s) in *.
  assert (k_objs s1 !! p = Some gi') as Hp1 by apply lookup_insert_eq.
  unfold set_groups. rewrite (kbind_done _ _ s tt s1 Hsort).
  destruct (decide (cred_group_info new = p)) as [Heq|Hne].
  - destruct (set_groups_sorted_spec fuel new p s1 gi' gi') as (s' & Hrun & Hh & Hobs);
      try assumption; try (rewrite Hu'; auto; lia).
    { now rewrite Heq. }
    { split; [rewrite Hu'; specialize (Hsame Heq); unfold INT_MAX in *; lia|].
      intros H1. rewrite Hu' in H1. specialize (Hsame Heq). lia. }
    rewrite decide_True in Hobs by exact Heq. destruct Hobs as [Ho Hpg].
    rewrite (kbind_done _ _ s1 _ s' Hrun). exists gi', s'.
    split; [reflexivity|]. split; [exact Hfr|]. split; [exact Hs|]. split; [exact Hperm|].
    split; [exact Hh|]. split; [exact Ho | exact Hpg].
  - destruct (set_groups_sorted_spec fuel new p s1 gi' go) as (s' & Hrun & Hh & Hobs);
      try assumption; try (rewrite Hu'; auto; lia).
    { unfold s1. simpl. rewrite lookup_insert_ne by auto. exact Hold. }
    rewrite decide_False in Hobs by exact Hne. destruct Hobs as [Ho Hpg].
    rewrite (kbind_done _ _ s1 _ s' Hrun). exists gi', s'.
    split; [reflexivity|]. split; [exact Hfr|]. split; [exact Hs|]. split; [exact Hperm|].
    split; [exact Hh|]. split; [|exact Hpg].
    rewrite Ho, Hu'. unfold s1, objs_after_put. simpl.
    apply map_eq. intros q.
    destruct (decide (q = p)) as [->|Hqp]; [now rewrite !lookup_insert_eq|].
    rewrite !(lookup_insert_ne _ p q) by auto.
    destruct (decide (usage go = 1)), (decide (q = cred_group_info new)) as [->|Hqo].
    + now rewrite !lookup_delete_eq.
    + rewrite !lookup_delete_ne by auto. now rewrite lookup_insert_ne by auto.
    + now rewrite !lookup_insert_eq.
    + rewrite !(lookup_insert_ne _ (cred_group_info new) q) by auto.
      now rewrite lookup_insert_ne by auto.
Qed.

Lemma set_groups_always_installs_witness :
  let new := k_cred demo_request_state in
  let gi := @group_info_of linux_platform 1 [400; 100] in
  let go := @group_info_of linux_platform 1 [100; 200; 300] in
  (k_objs demo_request_state !! 32 = Some gi /\ @group_info_wf linux_platform gi /\
   ngroups gi <= SORT_MAX /\ (Z.to_nat (ngroups gi) < 4)%nat /\ 1 <= usage gi < INT_MAX /\
   k_objs demo_request_state !! cred_group_info new = Some go /\
   @releasable linux_platform 4 demo_request_state go /\
   (cred_group_info new = 32 -> 2 <= usage gi)) /\
  k_setgid demo_request_state = false /\
  exists gi' s',
    @set_groups linux_platform 4 new 32 demo_request_state =
      Done ((0, mk_cred (gid new) (egid new) (fsgid new) 32), s') /\
    same_frame gi gi' /\ Sorted Z.le (@gids linux_platform gi') /\
    Permutation (@gids linux_platform gi') (@gids linux_platform gi) /\
    heap_only demo_request_state s' /\
    (if decide (cred_group_info new = 32)
     then k_objs s' = <[32 := gi']> (k_objs demo_request_state) /\
          k_pages s' = k_pages demo_request_state
     else k_objs s' = <[32 := with_usage (usage gi + 1) gi']>
                        (objs_after_put (cred_group_info new) go (k_objs demo_request_state)) /\
          k_pages s' = pages_after_put go (k_pages demo_request_state)).
Proof.
  intros new gi go.
  assert (k_objs demo_request_state !! 32 = Some gi) as H1 by reflexivity.
  assert (@group_info_wf linux_platform gi) as H2 by concrete_wf.
  assert (ngroups gi <= SORT_MAX) as H3 by (vm_compute; discriminate).
  assert (Z.to_nat (ngroups gi) < 4)%nat as H4 by (vm_compute; lia).
  assert (1 <= usage gi < INT_MAX) as H5 by (vm_compute; split; [discriminate | reflexivity]).
  assert (k_objs demo_request_state !! cred_group_info new = Some go) as H6 by reflexivity.
  assert (@releasable linux_platform 4 demo_request_state go) as H7.
  { split; [vm_compute; split; discriminate|]. intros _.
    split; [concrete_wf|]. split; [|vm_compute; lia].
    split; [constructor | intros a Ha; inversion Ha]. }
  assert (cred_group_info new = 32 -> 2 <= usage gi) as H8 by (intros Hx; discriminate Hx).
  split; [repeat (split; [assumption|]); assumption|].
  split; [reflexivity|].
  exact (@set_groups_always_installs linux_platform linux_platform_ok 4 new 32
           demo_request_state gi go H1 H2 H3 H4 H5 H6 H7 H8).
Defined.

(** ** The privilege gate *)

Section Gate.
Context `{PlatformOk}.

Lemma attempt_eq s : attempt s = Done (hd true (k_plan s), set_plan (tail (k_plan s)) s).
Proof.
  unfold attempt. destruct (k_plan s) as [|b rest] eqn:Hplan; [|reflexivity].
  simpl. f_equal. f_equal. unfold set_plan. rewrite <- Hplan. destruct s; reflexivity.
Qed.

Lemma prepare_creds_fails s :
  hd true (k_plan s) = false ->
  prepare_creds s = Done (None, set_plan (tail (k_plan s)) s).
Proof.
  intros Hno. unfold prepare_creds.
  rewrite (kbind_done _ _ s _ _ (attempt_eq s)). now rewrite Hno.
Qed.

Lemma prepare_creds_draft s go :
  hd true (k_plan s) = true ->
  k_objs s !! cred_group_info (k_cred s) = Some go -> 1 <= usage go < INT_MAX ->
  prepare_creds s =
  Done (Some (k_cred s),
        set_objs (insert (cred_group_info (k_cred s)) (with_usage (usage go + 1) go))
          (set_plan (tail (k_plan s)) s)).
Proof.
  intros Hyes Hgo Hu. unfold prepare_creds.
  rewrite (kbind_done _ _ s _ _ (attempt_eq s)). rewrite Hyes.
  set (s1 := set_plan (tail (k_plan s)) s).
  rewrite (kbind_done _ _ s1 (k_cred s) s1 eq_refl).
  rewrite (kbind_done _ _ s1 (cred_group_info (k_cred s))
             (set_objs (insert (cred_group_info (k_cred s)) (with_usage (usage go + 1) go)) s1)).
  - reflexivity.
  - apply get_group_info_spec; [exact Hgo | lia | unfold INT_MAX in *; lia].
Qed.

(** The subset test does not look at reference counts. *)
Lemma GROUP_AT_with_usage u g i : GROUP_AT (with_usage u g) i = GROUP_AT g i.
Proof. reflexivity. Qed.

Lemma subset_scan_with_usage u g2 gid1 : forall fuel j gid2,
  subset_scan fuel (with_usage u g2) gid1 j gid2 = subset_scan fuel g2 gid1 j gid2.
Proof.
  induction fuel as [|fuel IH]; intros j gid2; [reflexivity|].
  simpl. rewrite GROUP_AT_with_usage.
  destruct (j <? to_uint (ngroups g2)); [|reflexivity].
  destruct (GROUP_AT g2 j); simpl; try reflexivity.
  destruct (gid_lte gid1 a); [reflexivity | apply IH].
Qed.

Lemma subset_loop_with_usage u v g1 g2 budget : forall fuel i j,
  subset_loop fuel budget (with_usage u g1) (with_usage v g2) i j =
  subset_loop fuel budget g1 g2 i j.
Proof.
  induction fuel as [|fuel IH]; intros i j; [reflexivity|].
  simpl. rewrite GROUP_AT_with_usage.
  destruct (i <? to_uint (ngroups g1)); [|reflexivity].
  destruct (GROUP_AT g1 i); simpl; try reflexivity.
  rewrite subset_scan_with_usage.
  destruct (subset_scan budget g2 a j None) as [[j1 gid2]| |]; simpl; try reflexivity.
  destruct (to_uint (ngroups g2) <=? j1); [reflexivity|].
  destruct gid2 as [x|]; [|reflexivity].
  destruct (negb (gid_eq a x)); [reflexivity | apply IH].
Qed.

Lemma is_subset_with_usage u v fuel g1 g2 :
  is_subset fuel (with_usage u g1) (with_usage v g2) = is_subset fuel g1 g2.
Proof. apply subset_loop_with_usage. Qed.

(** The test of the gate: nothing is refused to a capable caller, and
    otherwise the answer of is_subset decides. *)
Lemma gate_test fuel p oldp g1 g2 sub s (K : bool -> kern Z) :
  k_objs s !! p = Some g1 -> k_objs s !! oldp = Some g2 ->
  is_subset fuel g1 g2 = Done sub ->
  kbind ns_capable_setgid (fun capable =>
    kbind (if negb capable then
             kbind (load p) (fun g1 =>
             kbind (load oldp) (fun g2 =>
             kbind (lift (is_subset fuel g1 g2)) (fun sub => kret (negb sub))))
           else kret false) K) s =
  K (negb (k_setgid s) && negb sub) s.
Proof.
  intros Hp Hold Hsub.
  rewrite (kbind_done _ _ s (k_setgid s) s eq_refl).
  destruct (k_setgid s); simpl.
  - now rewrite (kbind_done _ _ s false s eq_refl).
  - rewrite (kbind_done _ _ s (negb sub) s); [reflexivity|].
    rewrite (kbind_done _ _ s g1 s (load_eq p g1 s Hp)).
    rewrite (kbind_done _ _ s g2 s (load_eq oldp g2 s Hold)).
    rewrite (kbind_done _ _ s sub s); [reflexivity|].
    unfold lift. now rewrite Hsub.
Qed.

Lemma commit_creds_spec fuel new s go :
  k_objs s !! cred_group_info (k_cred s) = Some go -> releasable fuel s go ->
  exists s',
    commit_creds fuel new s = Done (0, s') /\
    k_cred s' = new /\
    k_objs s' = objs_after_put (cred_group_info (k_cred s)) go (k_objs s) /\
    k_pages s' = pages_after_put go (k_pages s) /\
    k_plan s' = k_plan s /\ k_user s' = k_user s /\ k_setgid s' = k_setgid s /\
    k_current s' = k_current s /\ k_dumpTsk s' = k_dumpTsk s.
Proof.
  intros Hgo Hrel. unfold commit_creds.
  rewrite (kbind_done _ _ s (k_cred s) s eq_refl).
  rewrite (kbind_done _ _ s tt (set_cred new s) eq_refl).
  destruct (put_group_info_spec fuel (cred_group_info (k_cred s)) go (set_cred new s))
    as (s' & Hput & (Hpl & Hus & Hcr & Hsg & Hcu & Hdu) & Ho & Hpg).
  { exact Hgo. }
  { apply (releasable_heap fuel s); [reflexivity | exact Hrel]. }
  rewrite (kbind_done _ _ _ tt s' Hput). exists s'.
  split; [reflexivity|]. repeat (split; [assumption|]). assumption.
Qed.

End Gate.

(** When no draft can be had, set_current_groups has only sorted the set. *)
Lemma set_current_groups_no_draft `{PlatformOk} fuel p s gi :
  k_objs s !! p = Some gi -> group_info_wf gi -> ngroups gi <= SORT_MAX ->
  (Z.to_nat (ngroups gi) < fuel)%nat -> hd true (k_plan s) = false ->
  exists gi',
    groups_sort fuel gi = Done gi' /\
    set_current_groups fuel p s =
      Done (- ENOMEM, set_plan (tail (k_plan s)) (set_objs (insert p gi') s)).
Proof.
  intros Hp Hwf Hmax Hfuel Hno.
  destruct (groups_sort_at_spec fuel p gi s Hp Hwf Hmax Hfuel)
    as (gi' & Hsort & _ & _ & _ & _ & _ & Hrun).
  exists gi'. split; [exact Hrun|]. unfold set_current_groups.
  rewrite (kbind_done _ _ s tt _ Hsort).
  rewrite (kbind_done _ _ _ None _ (prepare_creds_fails (set_objs (insert p gi') s) Hno)).
  reflexivity.
Qed.

(** With a draft: refusal leaves everything but the sorted request as it
    was, anything else installs and commits. *)
Lemma set_current_groups_with_draft `{PlatformOk}
    (fuel : nat) (p : Z) (s : kstate) (gi go : group_info) :
  let oldp := cred_group_info (k_cred s) in
  k_objs s !! p = Some gi -> group_info_wf gi -> ngroups gi <= SORT_MAX ->
  (Z.to_nat (ngroups gi) < fuel)%nat -> 1 <= usage gi < INT_MAX ->
  k_objs s !! oldp = Some go -> group_info_wf go ->
  (Z.to_nat (ngroups go) < fuel)%nat -> releasable fuel s go -> usage go < INT_MAX ->
  hd true (k_plan s) = true ->
  exists gi' sub,
    groups_sort fuel gi = Done gi' /\ Sorted Z.le (gids gi') /\
    Permutation (gids gi') (gids gi) /\
    is_subset fuel gi' (if decide (oldp = p) then gi' else go) = Done sub /\
    if negb (k_setgid s) && negb sub
    then
      set_current_groups fuel p s = Done (- EPERM, sorted_and_tried p gi' s) /\
      k_cred (sorted_and_tried p gi' s) = k_cred s /\
      k_objs (sorted_and_tried p gi' s) !! oldp = Some go /\
      k_pages (sorted_and_tried p gi' s) = k_pages s
    else
      exists s',
        set_current_groups fuel p s = Done (0, s') /\
        k_cred s' = mk_cred (gid (k_cred s)) (egid (k_cred s)) (fsgid (k_cred s)) p /\
        (if decide (oldp = p)
         then k_objs s' = <[p := gi']> (k_objs s) /\ k_pages s' = k_pages s
         else k_objs s' = <[p := with_usage (usage gi + 1) gi']>
                            (objs_after_put oldp go (k_objs s)) /\
              k_pages s' = pages_after_put go (k_pages s)) /\
        k_plan s' = tail (k_plan s) /\ k_user s' = k_user s /\
        k_setgid s' = k_setgid s /\ k_current s' = k_current s /\
        k_dumpTsk s' = k_dumpTsk s.
Proof.
  intros oldp Hp Hwf Hmax Hfuel Hu Hold Hwfo Hfuelo Hrel Huo Hyes.
  destruct (groups_sort_at_spec fuel p gi s Hp Hwf Hmax Hfuel)
    as (gi' & Hsort & Hwf' & Hfr & Hs & Hperm & _ & Hrun).
  pose proof Hfr as (Hu' & Hn' & _).
  set (s1 := set_objs (insert p gi') s) in *.
  remember (if decide (oldp = p) then gi' else go) as cur eqn:Hcur.
  assert (oldp = p -> cur = gi' /\ go = gi) as Hcur_eq.
  { intros Heq. rewrite decide_True in Hcur by exact Heq. split; [exact Hcur|].
    unfold oldp in *. rewrite Heq in Hold. congruence. }
  assert (oldp <> p -> cur = go) as Hcur_ne.
  { intros Hne. now rewrite decide_False in Hcur by exact Hne. }
  clear Hcur.
  assert (k_objs s1 !! p = Some gi') as Hp1 by apply lookup_insert_eq.
  assert (k_objs s1 !! oldp = Some cur) as Hold1.
  { unfold s1. simpl. destruct (decide (oldp = p)) as [Heq|Hne].
    - destruct (Hcur_eq Heq) as [-> _]. rewrite Heq. apply lookup_insert_eq.
    - rewrite (Hcur_ne Hne), lookup_insert_ne by auto. exact Hold. }
  assert (usage cur = usage go) as Hucur.
  { destruct (decide (oldp = p)) as [Heq|Hne].
    - destruct (Hcur_eq Heq) as [-> ->]. exact Hu'.
    - now rewrite (Hcur_ne Hne). }
  assert (group_info_wf cur /\ (Z.to_nat (ngroups cur) < fuel)%nat) as [Hwfc Hfuelc].
  { destruct (decide (oldp = p)) as [Heq|Hne].
    - destruct (Hcur_eq Heq) as [-> _]. split; [exact Hwf'|]. now rewrite Hn'.
    - rewrite (Hcur_ne Hne). now split. }
  destruct Hrel as [Hrange Hlast].
  set (s2 := set_objs (insert oldp (with_usage (usage cur + 1) cur))
               (set_plan (tail (k_plan s)) s1)).
  assert (prepare_creds s1 = Done (Some (k_cred s), s2)) as Hprep.
  { apply (prepare_creds_draft s1 cur); [exact Hyes | exact Hold1 | lia]. }
  destruct (is_subset_sound fuel gi' cur Hwf' Hwfc) as (sub & Hsub & _);
    [now rewrite Hn' | exact Hfuelc |].
  exists gi', sub. split; [exact Hrun|]. split; [exact Hs|]. split; [exact Hperm|].
  split.
  { destruct (decide (oldp = p)) as [Heq|Hne].
    - destruct (Hcur_eq Heq) as [<- _]. exact Hsub.
    - rewrite <- (Hcur_ne Hne). exact Hsub. }
  assert (k_objs s2 !! oldp = Some (with_usage (usage cur + 1) cur)) as Hold2
    by apply lookup_insert_eq.
  assert (exists g1, k_objs s2 !! p = Some g1 /\
                     is_subset fuel g1 (with_usage (usage cur + 1) cur) = Done sub /\
                     usage g1 = (if decide (oldp = p) then usage gi + 1 else usage gi) /\
                     with_usage (usage gi) g1 = gi')
    as (g1 & Hp2 & Hsub2 & Hug1 & Hg1).
  { destruct (decide (oldp = p)) as [Heq|Hne].
    - destruct (Hcur_eq Heq) as [-> ->].
      exists (with_usage (usage gi' + 1) gi'). split; [rewrite <- Heq; exact Hold2|].
      split; [|split].
      + rewrite <- (with_usage_same gi') in Hsub.
        rewrite <- (is_subset_with_usage (usage gi' + 1) (usage gi' + 1)) in Hsub.
        rewrite !with_usage_twice in Hsub. exact Hsub.
      + simpl. now rewrite Hu'.
      + rewrite with_usage_twice, <- Hu'. apply with_usage_same.
    - exists gi'. split; [|split; [|split]].
      + unfold s2. simpl. rewrite lookup_insert_ne by auto. exact Hp1.
      + rewrite <- (with_usage_same gi') at 1. rewrite is_subset_with_usage. exact Hsub.
      + exact Hu'.
      + rewrite <- Hu'. apply with_usage_same. }
  unfold set_current_groups.
  rewrite (kbind_done _ _ s tt s1 Hsort).
  rewrite (kbind_done _ _ s1 _ s2 Hprep).
  rewrite (gate_test fuel p oldp g1 _ sub s2 _ Hp2 Hold2 Hsub2).
  change (k_setgid s2) with (k_setgid s).
  destruct (negb (k_setgid s) && negb sub) eqn:Hrefused.
  - (* refused: the draft is aborted *)
    assert (oldp <> p) as Hne.
    { intros Heq. apply andb_prop in Hrefused as [_ Hnsub].
      destruct (Hcur_eq Heq) as [-> _].
      rewrite (is_subset_refl fuel gi' Hwf' Hs) in Hsub by (now rewrite Hn').
      injection Hsub as <-. discriminate. }
    split; [|split; [reflexivity|]; split; [|reflexivity];
             unfold sorted_and_tried; simpl; now rewrite lookup_insert_ne by auto].
    unfold abort_creds, sorted_and_tried. change (cred_group_info (k_cred s)) with oldp.
    rewrite (kbind_done _ _ s2 tt (set_plan (tail (k_plan s)) s1)); [reflexivity|].
    rewrite (put_group_info_keep fuel oldp _ s2 Hold2) by (simpl; lia).
    f_equal. f_equal. unfold s2, set_objs. simpl.
    replace (usage cur + 1 - 1) with (usage cur) by lia.
    rewrite with_usage_twice, with_usage_same, insert_insert_eq.
    rewrite insert_id by exact Hold1. reflexivity.
  - (* allowed: install and commit *)
    destruct (set_groups_sorted_spec fuel (k_cred s) p s2 g1 (with_usage (usage cur + 1) cur))
      as (s3 & Hinst & (Hpl3 & Hus3 & Hcr3 & Hsg3 & Hcu3 & Hdu3) & Hobs3).
    { exact Hp2. }
    { exact Hold2. }
    { rewrite Hug1. destruct (decide (oldp = p)) as [Heq|_]; lia. }
    { intros Hne. fold oldp in Hne. rewrite Hug1, decide_False by exact Hne. lia. }
    { split; [simpl; lia|]. simpl. intros Hx. lia. }
    { intros Heq. fold oldp in Heq. rewrite Hug1, decide_True by exact Heq. lia. }
    rewrite (kbind_done _ _ s2 _ s3 Hinst).
    unfold s2, s1 in Hpl3, Hus3, Hcr3, Hsg3, Hcu3, Hdu3.
    simpl in Hpl3, Hus3, Hcr3, Hsg3, Hcu3, Hdu3.
    fold oldp in Hobs3.
    assert (exists last, k_objs s3 !! oldp = Some last /\ k_pages s3 = k_pages s /\
              (oldp = p -> last = with_usage (usage gi + 1) gi') /\
              (oldp <> p -> last = go)) as (last & Hold3 & Hpg3 & Hlast_eq & Hlast_ne).
    { destruct (decide (oldp = p)) as [Heq|Hne]; destruct Hobs3 as [Ho3 Hpg3].
      - destruct (Hcur_eq Heq) as [-> ->].
        eexists. split; [rewrite Ho3; exact Hold2|]. split; [exact Hpg3|].
        split; [intros _; now rewrite Hu' | contradiction].
      - rewrite (Hcur_ne Hne) in *. exists go. split; [|split; [|split]].
        + rewrite Ho3. rewrite lookup_insert_ne by auto.
          unfold objs_after_put. simpl. rewrite decide_False by lia.
          rewrite lookup_insert_eq. f_equal.
          replace (usage go + 1 - 1) with (usage go) by lia.
          now rewrite with_usage_twice, with_usage_same.
        + rewrite Hpg3. unfold pages_after_put. simpl. now rewrite decide_False by lia.
        + contradiction.
        + reflexivity. }
    destruct (commit_creds_spec fuel
                (mk_cred (gid (k_cred s)) (egid (k_cred s)) (fsgid (k_cred s)) p) s3 last)
      as (s4 & Hcommit & Hcr4 & Ho4 & Hpg4 & Hpl4 & Hus4 & Hsg4 & Hcu4 & Hdu4).
    { rewrite Hcr3. exact Hold3. }
    { destruct (decide (oldp = p)) as [Heq|Hne].
      - rewrite (Hlast_eq Heq). split; [simpl; lia|]. simpl. intros Hx. lia.
      - rewrite (Hlast_ne Hne). split; [exact Hrange|].
        intros H1. destruct (Hlast H1) as (Hw & [Hnd Hlive] & Hf).
        split; [exact Hw|]. split; [|exact Hf]. split; [exact Hnd|].
        intros a Ha. rewrite Hpg3. now apply Hlive. }
    exists s4. split; [exact Hcommit|]. split; [exact Hcr4|].
    split; [|repeat split; congruence].
    rewrite Hcr3 in Ho4. fold oldp in Ho4.
    destruct (decide (oldp = p)) as [Heq|Hne]; destruct Hobs3 as [Ho3 Hpg3'].
    + destruct (Hcur_eq Heq) as [-> ->]. rewrite (Hlast_eq Heq) in *.
      split; [|rewrite Hpg4; unfold pages_after_put; simpl;
               rewrite decide_False by lia; exact Hpg3].
      rewrite Ho4, Ho3. unfold objs_after_put. simpl. rewrite decide_False by lia.
      unfold s2, s1. simpl. rewrite Heq.
      rewrite !insert_insert_eq. f_equal.
      replace (usage gi + 1 - 1) with (usage gi) by lia.
      rewrite with_usage_twice, <- Hu'. apply with_usage_same.
    + rewrite (Hcur_ne Hne), (Hlast_ne Hne) in *. split.
      * rewrite Ho4, Ho3, Hug1. simpl.
        assert (with_usage (usage gi + 1) g1 = with_usage (usage gi + 1) gi') as ->.
        { rewrite <- Hg1. now rewrite with_usage_twice. }
        unfold objs_after_put. simpl.
        rewrite (decide_False (P := usage go + 1 = 1)) by lia. unfold s2, s1. simpl.
        apply map_eq. intros q.
        destruct (decide (usage go = 1)); destruct (decide (q = oldp)) as [Hqo|Hqo];
          destruct (decide (q = p)) as [Hqp|Hqp]; try congruence;
          try rewrite Hqo; try rewrite Hqp; simplify_map_eq; reflexivity.
      * rewrite Hpg4, Hpg3. reflexivity.
Qed.



(** ** groups_alloc and groups_free *)

Section Alloc.
Context `{PlatformOk}.

Lemma same_process_refl s : same_process s s.
Proof. unfold same_process. repeat split. Qed.

Lemma same_process_trans s1 s2 s3 :
  same_process s1 s2 -> same_process s2 s3 -> same_process s1 s3.
Proof.
  unfold same_process. intros (?&?&?&?&?) (?&?&?&?&?). repeat split; congruence.
Qed.

Lemma get_free_page_spec s :
  exists a s',
    get_free_page s = Done (a, s') /\ k_objs s' = k_objs s /\ same_process s s' /\
    ((a = 0 /\ k_pages s' = k_pages s) \/
     (a <> 0 /\ (a ∉ k_pages s) /\ k_pages s' = {[a]} ∪ k_pages s)).
Proof.
  unfold get_free_page. rewrite (kbind_done _ _ s _ _ (attempt_eq s)).
  destruct (hd true (k_plan s)).
  - eexists _, _. split; [reflexivity|]. split; [reflexivity|].
    split; [repeat split|]. right. simpl.
    pose proof (is_fresh ({[0]} ∪ k_pages s)) as Hfresh.
    split; [|split; [|reflexivity]]; set_solver.
  - eexists 0, _. split; [reflexivity|]. split; [reflexivity|].
    split; [repeat split|]. left. split; reflexivity.
Qed.

Lemma kmalloc_group_info_spec n s :
  exists p s',
    kmalloc_group_info n s = Done (p, s') /\ k_pages s' = k_pages s /\ same_process s s' /\
    ((p = 0 /\ k_objs s' = k_objs s) \/
     (p <> 0 /\ k_objs s !! p = None /\
      k_objs s' = <[p := mk_group_info 0 0 0 (replicate (Z.to_nat NGROUPS_SMALL) 0)
                           (replicate (Z.to_nat n) Unset)]> (k_objs s))).
Proof.
  unfold kmalloc_group_info. rewrite (kbind_done _ _ s _ _ (attempt_eq s)).
  destruct (hd true (k_plan s)).
  - eexists _, _. split; [reflexivity|]. split; [reflexivity|].
    split; [repeat split|]. right. simpl.
    pose proof (is_fresh ({[0]} ∪ dom (k_objs s))) as Hfresh.
    split; [|split; [|reflexivity]].
    + set_solver.
    + apply not_elem_of_dom. set_solver.
  - eexists 0, _. split; [reflexivity|]. split; [reflexivity|].
    split; [repeat split|]. left. split; reflexivity.
Qed.

Lemma block_set_eq p g i b s :
  k_objs s !! p = Some g -> 0 <= i < Z.of_nat (length (blocks g)) ->
  block_set p i b s =
  Done (tt, set_objs (insert p (with_blocks (<[Z.to_nat i := b]> (blocks g)) g)) s).
Proof.
  intros Hg Hi. unfold block_set. rewrite (kbind_done _ _ s g s (load_eq p g s Hg)).
  destruct (Z.ltb_spec i 0); [lia|].
  destruct (Z.leb_spec (Z.of_nat (length (blocks g))) i); [lia|]. simpl.
  apply (store_eq p g). exact Hg.
Qed.

Lemma block_addrs_app l1 l2 : block_addrs (l1 ++ l2) = block_addrs l1 ++ block_addrs l2.
Proof. unfold block_addrs. apply omap_app. Qed.

(** The allocation loop keeps what it builds in the [building] shape and
    stops either with every slot filled or at the first page it is denied. *)
Lemma alloc_blocks_spec base p hdr : forall rest done fuel s,
  building base p hdr done rest s ->
  Z.of_nat (length (done ++ rest)) <= INT_MAX -> (length rest < fuel)%nat ->
  exists out done' rest' s',
    alloc_blocks fuel p (Z.of_nat (length (done ++ rest))) (Z.of_nat (length done)) s =
      Done (out, s') /\
    building base p hdr done' rest' s' /\
    length (done' ++ rest') = length (done ++ rest) /\
    same_process s s' /\
    (forall q, q <> p -> k_objs s' !! q = k_objs s !! q) /\
    match out with
    | None => rest' = []
    | Some j => j = Z.of_nat (length done')
    end.
Proof.
  induction rest as [|r rest IH]; intros done fuel s Hb Hlen Hfuel;
    (destruct fuel as [|fuel]; [simpl in Hfuel; lia|]); cbn [alloc_blocks].
  - rewrite app_nil_r in *.
    destruct (Z.ltb_spec (Z.of_nat (length done)) (Z.of_nat (length done))); [lia|].
    exists None, done, [], s. rewrite app_nil_r.
    split; [reflexivity|]. split; [exact Hb|]. split; [reflexivity|].
    split; [apply same_process_refl|]. split; [reflexivity | reflexivity].
  - rewrite length_app in *. simpl in Hlen, Hfuel |- *.
    destruct (Z.ltb_spec (Z.of_nat (length done)) (Z.of_nat (length done + S (length rest))));
      [|lia].
    destruct Hb as (Hobj & Hall & Hnd & Hnew & Hpages).
    destruct (get_free_page_spec s) as (a & s1 & Hget & Ho1 & Hsp1 & Hcase).
    rewrite (kbind_done _ _ s a s1 Hget).
    destruct Hcase as [[-> Hp1] | (Ha0 & Hafresh & Hp1)].
    + simpl. exists (Some (Z.of_nat (length done))), done, (r :: rest), s1.
      split; [reflexivity|]. split.
      { split; [rewrite Ho1; exact Hobj|]. repeat (split; [assumption|]). congruence. }
      split; [rewrite length_app; reflexivity|]. split; [exact Hsp1|].
      split; [intros q _; now rewrite Ho1 | reflexivity].
    + destruct (Z.eqb_spec a 0) as [|_]; [contradiction|].
      set (b := InPage a (replicate (Z.to_nat NGROUPS_PER_BLOCK) 0)).
      set (s2 := set_objs (insert p (with_blocks ((done ++ [b]) ++ rest) hdr)) s1).
      assert (block_set p (Z.of_nat (length done)) b s1 = Done (tt, s2)) as Hset.
      { rewrite (block_set_eq p _ _ b s1 ltac:(rewrite Ho1; exact Hobj)).
        2:{ simpl. rewrite length_app. simpl. lia. }
        unfold s2. f_equal. f_equal. f_equal. f_equal. unfold with_blocks. simpl.
        f_equal. rewrite Nat2Z.id, <- app_assoc. simpl.
        rewrite insert_app_r_alt by lia. rewrite Nat.sub_diag. reflexivity. }
      rewrite (kbind_done _ _ s1 tt s2 Hset).
      rewrite to_int_id by (unfold INT_MAX in *; lia).
      assert (building base p hdr (done ++ [b]) rest s2) as Hb2.
      { split; [apply lookup_insert_eq|]. split.
        - apply Forall_app. split; [exact Hall|]. constructor; [|constructor].
          exists a, (replicate (Z.to_nat NGROUPS_PER_BLOCK) 0). split; [reflexivity|].
          rewrite length_replicate. pose proof per_block_pos. lia.
        - rewrite block_addrs_app. simpl. split; [|split].
          + apply NoDup_app. split; [exact Hnd|]. split; [|apply NoDup_singleton].
            intros x Hx Hxa. apply list_elem_of_singleton in Hxa as ->.
            apply Hafresh. rewrite Hpages. set_solver.
          + intros x Hx. apply elem_of_app in Hx as [Hx | Hx]; [now apply Hnew|].
            apply list_elem_of_singleton in Hx as ->.
            intros Hbase. apply Hafresh. rewrite Hpages. set_solver.
          + change (k_pages s2) with (k_pages s1). rewrite Hp1, Hpages.
            rewrite list_to_set_app_L. simpl. set_solver. }
      replace (Z.of_nat (length done) + 1) with (Z.of_nat (length (done ++ [b])))
        by (rewrite length_app; simpl; lia).
      replace (Z.of_nat (length done + S (length rest)))
        with (Z.of_nat (length ((done ++ [b]) ++ rest)))
        by (rewrite !length_app; simpl; lia).
      destruct (IH (done ++ [b]) fuel s2 Hb2) as (out & done' & rest' & s' & Hrun & Hb' & Hl' & Hsp' & Hel & Hout).
      { rewrite !length_app. simpl. lia. }
      { lia. }
      exists out, done', rest', s'. split; [exact Hrun|]. split; [exact Hb'|].
      split; [rewrite Hl', !length_app; simpl; lia|].
      split; [eapply same_process_trans; [exact Hsp1|]; exact Hsp'|].
      split; [|exact Hout].
      intros q Hq. rewrite (Hel q Hq). unfold s2. simpl.
      rewrite lookup_insert_ne by auto. now rewrite Ho1.
Qed.

(** The undo loop gives back every page taken so far, last one first. *)
Lemma undo_partial_alloc_spec base p hdr : forall done rest fuel s,
  building base p hdr done rest s ->
  Z.of_nat (length done) <= INT_MAX -> (length done < fuel)%nat ->
  undo_partial_alloc fuel p (Z.of_nat (length done)) s =
  Done (tt, set_pages (fun _ => base) s).
Proof.
  induction done as [|b done IH] using rev_ind; intros rest fuel s Hb Hlen Hfuel;
    (destruct fuel as [|fuel]; [simpl in Hfuel; lia|]); cbn [undo_partial_alloc].
  - simpl. change (to_int (0 - 1)) with (-1). simpl.
    destruct Hb as (_ & _ & _ & _ & Hpages).
    unfold kret. f_equal. f_equal. symmetry. apply set_pages_id.
    rewrite Hpages. simpl. set_solver.
  - rewrite length_app in *. simpl in Hlen, Hfuel |- *.
    rewrite to_int_id by (unfold INT_MAX in *; lia).
    replace (Z.of_nat (length done + 1) - 1) with (Z.of_nat (length done)) by lia.
    destruct (Z.leb_spec 0 (Z.of_nat (length done))); [|lia].
    destruct Hb as (Hobj & Hall & Hnd & Hnew & Hpages).
    apply Forall_app in Hall as [Hall Hb]. apply Forall_cons in Hb as [(a & cells & -> & Hcells) _].
    rewrite block_addrs_app in Hnd, Hnew, Hpages. simpl in Hnd, Hnew, Hpages.
    apply NoDup_app in Hnd as (Hnd & Hdisj & _).
    rewrite (kbind_done _ _ s (InPage a cells) s).
    2:{ eapply block_at_eq; [exact Hobj | lia |].
        simpl. rewrite Nat2Z.id, <- app_assoc, lookup_app_r, Nat.sub_diag by lia. reflexivity. }
    assert (a ∈ k_pages s) as Halive by (rewrite Hpages, list_to_set_app_L; set_solver).
    rewrite (kbind_done _ _ s tt _ (free_page_eq a cells s Halive)).
    rewrite (IH (InPage a cells :: rest) fuel); [reflexivity | | lia | lia].
    split; [simpl; rewrite <- app_assoc in Hobj; exact Hobj|].
    split; [exact Hall|]. split; [exact Hnd|].
    split; [intros x Hx; apply Hnew, elem_of_app; now left|].
    simpl. rewrite Hpages, list_to_set_app_L. simpl.
    assert (a ∉ base) as Hab by (apply Hnew, elem_of_app; right; left).
    assert (a ∉ block_addrs done) as Had by (intros Hin; apply (Hdisj a Hin); left).
    set_solver.
Qed.

Lemma blocks_for_bounds k :
  0 <= k <= INT_MAX ->
  1 <= blocks_for k <= INT_MAX /\ k <= NGROUPS_PER_BLOCK * blocks_for k /\
  (blocks_for k = 1 \/ NGROUPS_PER_BLOCK * (blocks_for k - 1) < k).
Proof.
  intros Hk. pose proof per_block_pos as Hp. pose proof per_block_int as Hpi.
  unfold blocks_for.
  set (q := (k + NGROUPS_PER_BLOCK - 1) / NGROUPS_PER_BLOCK).
  assert (NGROUPS_PER_BLOCK * q <= k + NGROUPS_PER_BLOCK - 1 < NGROUPS_PER_BLOCK * (q + 1))
    as [Hlo Hhi].
  { unfold q. pose proof (Z.mul_div_le (k + NGROUPS_PER_BLOCK - 1) NGROUPS_PER_BLOCK Hp).
    pose proof (Z.mul_succ_div_gt (k + NGROUPS_PER_BLOCK - 1) NGROUPS_PER_BLOCK Hp). lia. }
  assert (0 <= q) by (unfold q; apply Z.div_pos; lia).
  assert (q <= k) by nia.
  unfold INT_MAX in *. split; [lia|]. split; [nia|].
  destruct (Z.eq_dec (Z.max 1 q) 1) as [?|Hne]; [now left|right]. nia.
Qed.

(** The block count as the code computes it, in unsigned arithmetic. *)
Lemma nblocks_computed k :
  0 <= k <= INT_MAX ->
  (let n := to_int (to_uint (k + NGROUPS_PER_BLOCK - 1) / NGROUPS_PER_BLOCK) in
   if n =? 0 then 1 else n) = blocks_for k.
Proof.
  intros Hk. pose proof per_block_pos as Hp. pose proof per_block_int as Hpi.
  unfold INT_MAX in *.
  rewrite to_uint_id by (unfold UINT_MOD; lia).
  set (q := (k + NGROUPS_PER_BLOCK - 1) / NGROUPS_PER_BLOCK).
  assert (0 <= q) by (unfold q; apply Z.div_pos; lia).
  assert (q <= k + NGROUPS_PER_BLOCK - 1).
  { unfold q. apply Z.div_le_upper_bound; nia. }
  assert (q <= INT_MAX) as Hq.
  { destruct (blocks_for_bounds k) as ((_ & Hb) & _); [unfold INT_MAX; lia|].
    unfold blocks_for in Hb. fold q in Hb. lia. }
  unfold INT_MAX in Hq. cbv zeta. rewrite to_int_id by (unfold INT_MAX; lia).
  unfold blocks_for. fold q. destruct (Z.eqb_spec q 0); lia.
Qed.

(** groups_alloc: NULL with the heap as it was, or a fresh well-formed
    structure whose pages are new, distinct and live. *)
Lemma groups_alloc_spec fuel k s :
  0 <= k <= INT_MAX -> (Z.to_nat (blocks_for k) < fuel)%nat ->
  exists p s',
    groups_alloc fuel k s = Done (p, s') /\ same_process s s' /\
    ((p = 0 /\ k_objs s' = k_objs s /\ k_pages s' = k_pages s) \/
     (p <> 0 /\ k_objs s !! p = None /\
      exists gi,
        k_objs s' = <[p := gi]> (k_objs s) /\
        usage gi = 1 /\ ngroups gi = k /\ nblocks gi = blocks_for k /\
        group_info_wf gi /\ NoDup (page_addrs gi) /\
        (forall a, a ∈ page_addrs gi -> a ∉ k_pages s) /\
        k_pages s' = k_pages s ∪ list_to_set (page_addrs gi))).
Proof.
  intros Hk Hfuel.
  pose proof (nblocks_computed k Hk) as Hn. cbv zeta in Hn.
  destruct (blocks_for_bounds k Hk) as (Hnb & Hcover & Hleast).
  pose proof small_in_block as Hsmall. pose proof per_block_pos as Hp.
  unfold groups_alloc. cbv zeta. rewrite Hn. set (n := blocks_for k) in *.
  destruct (kmalloc_group_info_spec n s) as (p & s1 & Hk1 & Hpg1 & Hsp1 & Hcase).
  rewrite (kbind_done _ _ s p s1 Hk1).
  destruct Hcase as [[-> Ho1] | (Hp0 & Hfresh & Ho1)].
  { exists 0, s1. split; [reflexivity|]. split; [exact Hsp1|]. left. auto. }
  destruct (Z.eqb_spec p 0) as [|_]; [contradiction|].
  set (blank := mk_group_info 0 0 0 (replicate (Z.to_nat NGROUPS_SMALL) 0)
                  (replicate (Z.to_nat n) Unset)) in *.
  assert (k_objs s1 !! p = Some blank) as Hblank by (rewrite Ho1; apply lookup_insert_eq).
  rewrite (kbind_done _ _ s1 blank s1 (load_eq p blank s1 Hblank)).
  set (hdr := mk_group_info 1 k n (replicate (Z.to_nat NGROUPS_SMALL) 0)
                (replicate (Z.to_nat n) Unset)).
  set (s2 := set_objs (insert p hdr) s1).
  rewrite (kbind_done _ _ s1 tt s2 (store_eq p blank hdr s1 Hblank)).
  assert (k_objs s2 !! p = Some hdr) as Hhdr by apply lookup_insert_eq.
  assert (forall g, <[p := g]> (k_objs s2) = <[p := g]> (k_objs s)) as Hins.
  { intros g. unfold s2. simpl. rewrite Ho1, !insert_insert_eq. reflexivity. }
  destruct (Z.leb_spec k NGROUPS_SMALL) as [Hks|Hks].
  - (* the inline block *)
    assert (n = 1) as Hn1 by (destruct Hleast as [?|?]; [assumption | nia]).
    rewrite (kbind_done _ _ s2 tt _ (block_set_eq p hdr 0 InSmall s2 Hhdr
               ltac:(simpl; rewrite length_replicate; lia))).
    eexists p, _. split; [reflexivity|]. split; [exact Hsp1|]. right.
    split; [exact Hp0|]. split; [exact Hfresh|].
    eexists. split; [simpl; apply Hins|].
    simpl. rewrite Hn1. simpl.
    split; [reflexivity|]. split; [reflexivity|]. split; [reflexivity|].
    split; [|split; [constructor|split; [intros a Ha; inversion Ha|]]].
    + constructor; simpl; unfold INT_MAX in *; try lia.
      left. split; [reflexivity|]. rewrite length_replicate. lia.
    + rewrite Hpg1. unfold page_addrs. simpl. set_solver.
  - (* pages *)
    assert (building (k_pages s) p hdr [] (replicate (Z.to_nat n) Unset) s2) as Hb.
    { split; [exact Hhdr|]. split; [constructor|]. split; [constructor|].
      split; [intros a Ha; inversion Ha|]. simpl. rewrite Hpg1. set_solver. }
    destruct (alloc_blocks_spec (k_pages s) p hdr (replicate (Z.to_nat n) Unset) [] fuel s2 Hb)
      as (out & done & rest & s3 & Hrun & Hb3 & Hlen3 & Hsp3 & Hel3 & Hout).
    { simpl. rewrite length_replicate. lia. }
    { rewrite length_replicate. exact Hfuel. }
    simpl in Hrun, Hlen3. rewrite length_replicate in Hrun, Hlen3.
    rewrite Z2Nat.id in Hrun by lia.
    rewrite (kbind_done _ _ s2 out s3 Hrun).
    assert (same_process s s3) as Hsp.
    { eapply same_process_trans; [exact Hsp1|]. exact Hsp3. }
    destruct Hb3 as (Hobj3 & Hall3 & Hnd3 & Hnew3 & Hpg3).
    destruct out as [j|].
    + (* a page was denied: undo *)
      subst j.
      rewrite (kbind_done _ _ s3 tt _
                 (undo_partial_alloc_spec (k_pages s) p hdr done rest fuel s3
                    ltac:(repeat split; assumption)
                    ltac:(rewrite length_app in Hlen3; lia)
                    ltac:(rewrite length_app in Hlen3; lia))).
      rewrite (kbind_done _ _ _ tt _ (kfree_eq p _ (set_pages (fun _ => k_pages s) s3) Hobj3)).
      eexists 0, _. split; [reflexivity|]. split; [exact Hsp|]. left.
      split; [reflexivity|]. split; [|reflexivity]. simpl.
      apply map_eq. intros q. destruct (decide (q = p)) as [->|Hq].
      * now rewrite lookup_delete_eq.
      * rewrite lookup_delete_ne by auto. rewrite (Hel3 q Hq). unfold s2. simpl.
        rewrite lookup_insert_ne by auto. rewrite Ho1. now rewrite lookup_insert_ne by auto.
    + (* every page was had *)
      subst rest. rewrite app_nil_r in *.
      exists p, s3. split; [reflexivity|]. split; [exact Hsp|]. right.
      split; [exact Hp0|]. split; [exact Hfresh|].
      exists (with_blocks done hdr). split.
      { apply map_eq. intros q. destruct (decide (q = p)) as [->|Hq].
        - now rewrite lookup_insert_eq.
        - rewrite lookup_insert_ne by auto. rewrite (Hel3 q Hq). unfold s2. simpl.
          rewrite lookup_insert_ne by auto. rewrite Ho1. now rewrite lookup_insert_ne by auto. }
      split; [reflexivity|]. split; [reflexivity|]. split; [reflexivity|].
      split; [|split; [exact Hnd3|split; [exact Hnew3 | exact Hpg3]]].
      constructor; simpl; unfold INT_MAX in *; try lia.
      right. split; [exact Hall3|]. rewrite Hlen3. rewrite Z2Nat.id by lia. exact Hcover.
Qed.

End Alloc.

(** Releasing the one reference of a structure groups_alloc has just built
    gives back the structure and every page. *)
Lemma put_after_alloc `{PlatformOk} fuel p gi s s' :
  k_objs s !! p = None -> k_objs s' = <[p := gi]> (k_objs s) ->
  usage gi = 1 -> group_info_wf gi -> NoDup (page_addrs gi) ->
  (forall a, a ∈ page_addrs gi -> a ∉ k_pages s) ->
  k_pages s' = k_pages s ∪ list_to_set (page_addrs gi) ->
  (Z.to_nat (nblocks gi) < fuel)%nat ->
  exists s'',
    put_group_info fuel p s' = Done (tt, s'') /\ same_process s' s'' /\
    k_plan s'' = k_plan s' /\
    k_objs s'' = k_objs s /\ k_pages s'' = k_pages s.
Proof.
  intros Hfresh Ho Hu Hwf Hnd Hnew Hpg Hfuel.
  eexists. split.
  - apply (put_group_info_last fuel p gi); try assumption.
    + rewrite Ho. apply lookup_insert_eq.
    + split; [exact Hnd|]. intros a Ha. rewrite Hpg. set_solver.
  - split; [repeat split|]. split; [reflexivity|]. simpl. split.
    + rewrite Ho, delete_insert_eq. now apply delete_id.
    + rewrite Hpg. apply set_eq. intros a.
      rewrite elem_of_difference, elem_of_union, elem_of_list_to_set.
      split; [intros [[?|?] ?]; [assumption | contradiction]|].
      intros Ha. split; [now left|]. intros Hin. exact (Hnew a Hin Ha).
Qed.

(** C7: for every size [k] an [int] can hold, groups_alloc either returns a
    structure for [k] identifiers with the least number of blocks (at least
    one) that holds them and reference count 1, or returns NULL with every
    structure and page it had taken released again; and releasing the
    structure it returned brings the set of live structures and pages back
    to what it was before the allocation. *)
Theorem groups_alloc_release `{PlatformOk} (fuel : nat) (k : Z) (s : kstate) :
  0 <= k <= INT_MAX -> (Z.to_nat (blocks_for k) < fuel)%nat ->
  exists p s',
    groups_alloc fuel k s = Done (p, s') /\
    ((p = 0 /\ k_objs s' = k_objs s /\ k_pages s' = k_pages s) \/
     (p <> 0 /\ k_objs s !! p = None /\
      exists gi,
        k_objs s' !! p = Some gi /\
        ngroups gi = k /\ usage gi = 1 /\
        nblocks gi = Z.of_nat (length (blocks gi)) /\
        nblocks gi = blocks_for k /\
        1 <= nblocks gi /\ k <= NGROUPS_PER_BLOCK * nblocks gi /\
        (nblocks gi = 1 \/ NGROUPS_PER_BLOCK * (nblocks gi - 1) < k) /\
        exists s'',
          put_group_info fuel p s' = Done (tt, s'') /\
          k_objs s'' = k_objs s /\ k_pages s'' = k_pages s)).
Proof.
  intros Hk Hfuel.
  destruct (groups_alloc_spec fuel k s Hk Hfuel) as (p & s' & Hrun & _ & Hcase).
  destruct (blocks_for_bounds k Hk) as (Hnb & Hcover & Hleast).
  exists p, s'. split; [exact Hrun|].
  destruct Hcase as [Hnull | (Hp0 & Hfresh & gi & Ho & Hu & Hn & Hb & Hwf & Hnd & Hnew & Hpg)];
    [left; exact Hnull | right].
  split; [exact Hp0|]. split; [exact Hfresh|]. exists gi.
  split; [rewrite Ho; apply lookup_insert_eq|].
  split; [exact Hn|]. split; [exact Hu|]. split; [apply (wf_nblocks _ Hwf)|].
  split; [exact Hb|]. rewrite Hb. split; [lia|]. split; [exact Hcover|]. split; [exact Hleast|].
  destruct (put_after_alloc fuel p gi s s' Hfresh Ho Hu Hwf Hnd Hnew Hpg)
    as (s'' & Hput & _ & _ & Ho'' & Hpg''); [now rewrite Hb|].
  exists s''. auto.
Qed.

Lemma groups_alloc_release_witness :
  let s := set_plan [true; true; true; false] demo_state in
  (0 <= 9 <= INT_MAX /\ (Z.to_nat (@blocks_for tiny_platform 9) < 5)%nat) /\
  (exists s', @groups_alloc tiny_platform 5 9 s = Done (0, s') /\
              k_objs s' = k_objs s /\ k_pages s' = k_pages s) /\
  (exists p s' gi s'',
     @groups_alloc tiny_platform 5 9 demo_state = Done (p, s') /\ p <> 0 /\
     k_objs s' !! p = Some gi /\ ngroups gi = 9 /\ nblocks gi = 3 /\ usage gi = 1 /\
     put_group_info 5 p s' = Done (tt, s'') /\
     k_objs s'' = k_objs demo_state /\ k_pages s'' = k_pages demo_state).
Proof.
  intros s.
  assert (0 <= 9 <= INT_MAX) as Hk by (unfold INT_MAX; lia).
  assert (Z.to_nat (@blocks_for tiny_platform 9) < 5)%nat as Hfuel by (vm_compute; lia).
  split; [split; assumption|]. split.
  - destruct (@groups_alloc_release tiny_platform tiny_platform_ok 5 9 s Hk Hfuel)
      as (p & s' & Hrun & Hcase).
    vm_compute in Hrun. injection Hrun as <- <-.
    eexists. split; [vm_compute; reflexivity|].
    destruct Hcase as [(_ & Ho & Hpg) | (Hp0 & _)]; [|contradiction].
    split; [exact Ho | exact Hpg].
  - destruct (@groups_alloc_release tiny_platform tiny_platform_ok 5 9 demo_state Hk Hfuel)
      as (p & s' & Hrun & Hcase).
    destruct Hcase as [(Hp0 & _) | (Hp0 & _ & gi & Hgi & Hn & Hu & _ & Hnb & _ & _ & _ & s'' & Hput & Ho & Hpg)].
    + exfalso. subst p. vm_compute in Hrun. discriminate Hrun.
    + exists p, s', gi, s''. repeat (split; [assumption|]). assumption.
Defined.

(** ** getgroups *)

Section GetGroups.
Context `{PlatformOk}.

Lemma put_user_mapped v addr s :
  is_Some (k_user s !! addr) ->
  put_user v addr s = Done (false, set_user (insert addr v) s).
Proof. intros [x Hx]. unfold put_user. now rewrite Hx. Qed.

Lemma put_user_unmapped v addr s :
  k_user s !! addr = None -> put_user v addr s = Done (true, s).
Proof. intros Hx. unfold put_user. now rewrite Hx. Qed.

Lemma gids_drop gi i :
  0 <= i < ngroups gi ->
  drop (Z.to_nat i) (gids gi) = cell_of gi i :: drop (Z.to_nat (i + 1)) (gids gi).
Proof.
  intros Hi. replace (Z.to_nat (i + 1)) with (S (Z.to_nat i)) by lia.
  apply drop_S. apply gids_lookup. exact Hi.
Qed.

Lemma user_only_refl s : user_only s s.
Proof. unfold user_only. repeat split. Qed.

(** Every destination cell is mapped: all identifiers are written. *)
Lemma to_user_loop_ok grouplist gi : forall fuel i s,
  group_info_wf gi -> 0 <= i <= ngroups gi ->
  (Z.to_nat (ngroups gi - i) < fuel)%nat ->
  (forall j, i <= j < ngroups gi -> is_Some (k_user s !! (grouplist + j))) ->
  to_user_loop fuel grouplist gi (ngroups gi) i s =
  Done (0, set_user (store_gids (grouplist + i)
                       (map from_kgid_munged (drop (Z.to_nat i) (gids gi)))) s).
Proof.
  induction fuel as [|fuel IH]; intros i s Hwf Hi Hfuel Hmapped; [lia|].
  pose proof (wf_count _ Hwf) as Hc. unfold INT_MAX in Hc.
  simpl. rewrite to_uint_id by (unfold UINT_MOD; lia).
  destruct (Z.ltb_spec i (ngroups gi)) as [Hlt|Hge].
  - rewrite (kbind_done _ _ s (cell_of gi i) s).
    2:{ unfold lift. rewrite (GROUP_AT_cell gi i Hwf) by lia. reflexivity. }
    rewrite (kbind_done _ _ s false _
               (put_user_mapped _ _ s (Hmapped i ltac:(lia)))).
    rewrite to_int_id by (unfold INT_MAX; lia).
    rewrite IH; try assumption; try lia.
    + rewrite (gids_drop gi i) by lia. simpl.
      replace (grouplist + (i + 1)) with (grouplist + i + 1) by lia. reflexivity.
    + intros j Hj. simpl. rewrite lookup_insert_ne by lia. apply Hmapped. lia.
  - assert (i = ngroups gi) as -> by lia.
    rewrite drop_ge by (rewrite gids_length; lia). simpl.
    unfold kret. f_equal. f_equal. unfold set_user. destruct s; reflexivity.
Qed.

(** Some destination cell is not mapped: the transfer fails, and only user
    memory may have changed. *)
Lemma to_user_loop_fault grouplist gi : forall fuel i s,
  group_info_wf gi -> 0 <= i <= ngroups gi ->
  (Z.to_nat (ngroups gi - i) < fuel)%nat ->
  (exists j, i <= j < ngroups gi /\ k_user s !! (grouplist + j) = None) ->
  exists s',
    to_user_loop fuel grouplist gi (ngroups gi) i s = Done (- EFAULT, s') /\
    user_only s s'.
Proof.
  induction fuel as [|fuel IH]; intros i s Hwf Hi Hfuel (j & Hj & Hnone); [lia|].
  pose proof (wf_count _ Hwf) as Hc. unfold INT_MAX in Hc.
  simpl. rewrite to_uint_id by (unfold UINT_MOD; lia).
  destruct (Z.ltb_spec i (ngroups gi)) as [Hlt|Hge]; [|lia].
  rewrite (kbind_done _ _ s (cell_of gi i) s).
  2:{ unfold lift. rewrite (GROUP_AT_cell gi i Hwf) by lia. reflexivity. }
  destruct (k_user s !! (grouplist + i)) as [x|] eqn:Hcell.
  - rewrite (kbind_done _ _ s false _ (put_user_mapped _ _ s ltac:(rewrite Hcell; eauto))).
    rewrite to_int_id by (unfold INT_MAX; lia).
    assert (j <> i) as Hji by (intros ->; congruence).
    destruct (IH (i + 1) (set_user (insert (grouplist + i)
                 (from_kgid_munged (cell_of gi i))) s)) as (s' & Hrun & Huo);
      try assumption; try lia.
    { exists j. split; [lia|]. simpl. rewrite lookup_insert_ne by lia. exact Hnone. }
    exists s'. split; [exact Hrun|].
    destruct Huo as (?&?&?&?&?&?&?). repeat split; assumption.
  - rewrite (kbind_done _ _ s true s (put_user_unmapped _ _ s Hcell)).
    exists s. split; [reflexivity | apply user_only_refl].
Qed.

End GetGroups.

(** A negative capacity is refused before anything is looked at. *)
Lemma sys_getgroups_negative `{Platform} fuel n grouplist s :
  n < 0 -> sys_getgroups fuel n grouplist s = Done (- EINVAL, s).
Proof.
  intros Hn. unfold sys_getgroups.
  rewrite (kbind_done _ _ s (k_cred s) s eq_refl).
  destruct (Z.ltb_spec n 0); [reflexivity | lia].
Qed.

Lemma sys_getgroups_negative_witness :
  - 1 < 0 /\
  @sys_getgroups linux_platform 4 (- 1) 64 demo_state = Done (- EINVAL, demo_state).
Proof.
  split; [lia|]. apply (@sys_getgroups_negative linux_platform 4 (- 1) 64 demo_state). lia.
Defined.

Lemma groups_to_user_run `{PlatformOk} fuel grouplist p gi s :
  k_objs s !! p = Some gi -> group_info_wf gi ->
  groups_to_user fuel grouplist p s = to_user_loop fuel grouplist gi (ngroups gi) 0 s.
Proof.
  intros Hgi Hwf. pose proof (wf_count _ Hwf) as Hc. unfold groups_to_user.
  rewrite (kbind_done _ _ s gi s (load_eq p gi s Hgi)).
  now rewrite to_uint_int by exact Hc.
Qed.

(** C6: with a buffer of capacity [n], getgroups returns the number of
    identifiers in the caller's group set; a capacity of 0 only asks for that
    number and nothing is written; a positive capacity below the number is
    refused with -EINVAL and nothing is written; otherwise exactly that many
    identifiers, translated for the caller's namespace, are written to the
    consecutive cells of the buffer, unless one of these cells cannot be
    written, in which case the call fails with -EFAULT. *)
Theorem sys_getgroups_spec `{PlatformOk}
    (fuel : nat) (n grouplist : Z) (s : kstate) (gi : group_info) :
  k_objs s !! cred_group_info (k_cred s) = Some gi -> group_info_wf gi ->
  (Z.to_nat (ngroups gi) < fuel)%nat ->
  (n = 0 -> sys_getgroups fuel n grouplist s = Done (ngroups gi, s)) /\
  (0 < n -> n < ngroups gi -> sys_getgroups fuel n grouplist s = Done (- EINVAL, s)) /\
  (0 < n -> ngroups gi <= n ->
   (forall j, 0 <= j < ngroups gi -> is_Some (k_user s !! (grouplist + j))) ->
   sys_getgroups fuel n grouplist s =
     Done (ngroups gi,
           set_user (store_gids grouplist (map from_kgid_munged (gids gi))) s)) /\
  (0 < n -> ngroups gi <= n ->
   (exists j, 0 <= j < ngroups gi /\ k_user s !! (grouplist + j) = None) ->
   exists s', sys_getgroups fuel n grouplist s = Done (- EFAULT, s') /\ user_only s s').
Proof.
  intros Hgi Hwf Hfuel. pose proof (wf_count _ Hwf) as Hc.
  pose proof (groups_to_user_run fuel grouplist _ gi s Hgi Hwf) as Hrun.
  split; [|split; [|split]].
  - intros ->. unfold sys_getgroups.
    rewrite (kbind_done _ _ s (k_cred s) s eq_refl). simpl.
    now rewrite (kbind_done _ _ s gi s (load_eq _ gi s Hgi)).
  - intros Hpos Hsmall. unfold sys_getgroups.
    rewrite (kbind_done _ _ s (k_cred s) s eq_refl).
    destruct (Z.ltb_spec n 0); [lia|].
    rewrite (kbind_done _ _ s gi s (load_eq _ gi s Hgi)).
    destruct (Z.eqb_spec n 0); [lia|]. simpl.
    destruct (Z.ltb_spec n (ngroups gi)); [reflexivity | lia].
  - intros Hpos Hroom Hmapped. unfold sys_getgroups.
    rewrite (kbind_done _ _ s (k_cred s) s eq_refl).
    destruct (Z.ltb_spec n 0); [lia|].
    rewrite (kbind_done _ _ s gi s (load_eq _ gi s Hgi)).
    destruct (Z.eqb_spec n 0); [lia|]. simpl.
    destruct (Z.ltb_spec n (ngroups gi)); [lia|].
    rewrite (kbind_done _ _ s 0
               (set_user (store_gids grouplist (map from_kgid_munged (gids gi))) s)).
    + reflexivity.
    + rewrite Hrun, (to_user_loop_ok grouplist gi fuel 0 s Hwf); try lia.
      * now rewrite Z.add_0_r.
      * intros j Hj. apply Hmapped. lia.
  - intros Hpos Hroom (j & Hj & Hnone). unfold sys_getgroups.
    rewrite (kbind_done _ _ s (k_cred s) s eq_refl).
    destruct (Z.ltb_spec n 0); [lia|].
    rewrite (kbind_done _ _ s gi s (load_eq _ gi s Hgi)).
    destruct (Z.eqb_spec n 0); [lia|]. simpl.
    destruct (Z.ltb_spec n (ngroups gi)); [lia|].
    destruct (to_user_loop_fault grouplist gi fuel 0 s Hwf) as (s' & Hloop & Huo); try lia.
    { exists j. split; [lia | exact Hnone]. }
    exists s'. split; [|exact Huo].
    rewrite (kbind_done _ _ s (- EFAULT) s'); [reflexivity|].
    now rewrite Hrun.
Qed.

Lemma sys_getgroups_spec_witness :
  let gi := @group_info_of linux_platform 1 [100; 200; 300] in
  (k_objs demo_state !! cred_group_info (k_cred demo_state) = Some gi /\
   @group_info_wf linux_platform gi /\ (Z.to_nat (ngroups gi) < 4)%nat) /\
  @sys_getgroups linux_platform 4 0 64 demo_state = Done (3, demo_state) /\
  @sys_getgroups linux_platform 4 2 64 demo_state = Done (- EINVAL, demo_state) /\
  @sys_getgroups linux_platform 4 3 64 demo_state =
    Done (3, set_user (store_gids 64 [100; 200; 300]) demo_state) /\
  (exists s', @sys_getgroups linux_platform 4 3 66 demo_state = Done (- EFAULT, s') /\
              user_only demo_state s').
Proof.
  intros gi.
  assert (k_objs demo_state !! cred_group_info (k_cred demo_state) = Some gi) as H1
    by reflexivity.
  assert (@group_info_wf linux_platform gi) as H2 by concrete_wf.
  assert (Z.to_nat (ngroups gi) < 4)%nat as H3 by (vm_compute; lia).
  split; [split; [exact H1 | split; [exact H2 | exact H3]]|].
  split.
  { destruct (@sys_getgroups_spec linux_platform linux_platform_ok 4 0 64 demo_state gi H1 H2 H3)
      as (Hzero & _). apply Hzero. reflexivity. }
  split.
  { destruct (@sys_getgroups_spec linux_platform linux_platform_ok 4 2 64 demo_state gi H1 H2 H3)
      as (_ & Hsmall & _). apply Hsmall; [lia | vm_compute; reflexivity]. }
  split.
  { destruct (@sys_getgroups_spec linux_platform linux_platform_ok 4 3 64 demo_state gi H1 H2 H3)
      as (_ & _ & Hwrite & _).
    apply Hwrite; [lia | vm_compute; discriminate |].
    intros j Hj. change (ngroups gi) with 3 in Hj.
    assert (j = 0 \/ j = 1 \/ j = 2) as [-> | [-> | ->]] by lia; vm_compute; eauto. }
  destruct (@sys_getgroups_spec linux_platform linux_platform_ok 4 3 66 demo_state gi H1 H2 H3)
    as (_ & _ & _ & Hfault).
  apply Hfault; [lia | vm_compute; discriminate |].
  exists 2. split; [change (ngroups gi) with 3; lia | vm_compute; reflexivity].
Defined.

(** ** setgroups *)

Section SetGroups.
Context `{PlatformOk}.

Lemma block_addrs_ptr bl : block_addrs (map block_ptr bl) = block_addrs bl.
Proof.
  unfold block_addrs. induction bl as [|[|a cells|] bl IH]; simpl;
    [reflexivity | exact IH | f_equal; exact IH | exact IH].
Qed.

Lemma same_frame_pages g g' : same_frame g g' -> page_addrs g' = page_addrs g.
Proof.
  intros (_ & _ & _ & Hl). unfold page_addrs, layout in *.
  rewrite <- (block_addrs_ptr (blocks g')), Hl. apply block_addrs_ptr.
Qed.

(** The import loop fills the structure at [p] cell by cell; it stops with
    -EFAULT at the first source cell that is not mapped and with -EINVAL at
    the first value that does not resolve to a valid identifier. *)
Lemma from_user_loop_spec p grouplist : forall fuel i s g,
  k_objs s !! p = Some g -> group_info_wf g -> 0 <= i <= ngroups g ->
  (Z.to_nat (ngroups g - i) < fuel)%nat ->
  exists r g',
    from_user_loop fuel p grouplist (ngroups g) i s = Done (r, set_objs (insert p g') s) /\
    group_info_wf g' /\ same_frame g g' /\
    (forall j, 0 <= j < i -> cell_of g' j = cell_of g j) /\
    ((r = 0 /\
      forall j, i <= j < ngroups g ->
        exists v, k_user s !! (grouplist + j) = Some v /\
                  gid_valid (make_kgid v) = true /\ cell_of g' j = make_kgid v) \/
     ((r = - EFAULT \/ r = - EINVAL) /\
      exists j, i <= j < ngroups g /\
        (k_user s !! (grouplist + j) = None \/
         exists v, k_user s !! (grouplist + j) = Some v /\
                   gid_valid (make_kgid v) = false))).
Proof.
  induction fuel as [|fuel IH]; intros i s g Hg Hwf Hi Hfuel; [lia|].
  pose proof (wf_count _ Hwf) as Hc. unfold INT_MAX in Hc.
  assert (set_objs (insert p g) s = s) as Hsame.
  { apply set_objs_id. now apply insert_id. }
  simpl. rewrite to_uint_id by (unfold UINT_MOD; lia).
  destruct (Z.ltb_spec i (ngroups g)) as [Hlt|Hge].
  - rewrite (kbind_done _ _ s (k_user s !! (grouplist + i)) s eq_refl).
    destruct (k_user s !! (grouplist + i)) as [v|] eqn:Hcell.
    + destruct (gid_valid (make_kgid v)) eqn:Hvalid; simpl.
      * rewrite (kbind_done _ _ s g s (load_eq p g s Hg)).
        destruct (GROUP_AT_set_full g i (make_kgid v) Hwf ltac:(lia))
          as (g1 & Hset & Hwf1 & Hfr1 & _ & Hc1).
        rewrite (kbind_done _ _ s g1 s); [|unfold lift; now rewrite Hset].
        rewrite (kbind_done _ _ s tt _ (store_eq p g g1 s Hg)).
        rewrite to_int_id by (unfold INT_MAX; lia).
        pose proof Hfr1 as (_ & Hn1 & _).
        set (s1 := set_objs (insert p g1) s).
        destruct (IH (i + 1) s1 g1) as (r & g' & Hrun & Hwf' & Hfr' & Hkeep & Hres);
          try assumption; try (rewrite Hn1; lia).
        { apply lookup_insert_eq. }
        rewrite Hn1 in Hrun, Hres.
        exists r, g'. split.
        { rewrite Hrun. f_equal. f_equal. unfold s1, set_objs. simpl.
          now rewrite insert_insert_eq. }
        split; [exact Hwf'|]. split; [eapply same_frame_trans; eassumption|].
        split.
        { intros j Hj. rewrite Hkeep by lia. rewrite Hc1 by lia.
          destruct (Z.eqb_spec j i); [lia | reflexivity]. }
        destruct Hres as [[-> Hall] | [Hr Hbad]]; [left | right].
        -- split; [reflexivity|]. intros j Hj.
           destruct (Z.eq_dec j i) as [->|Hji].
           ++ exists v. split; [exact Hcell|]. split; [exact Hvalid|].
              rewrite Hkeep by lia. rewrite Hc1 by lia. now rewrite Z.eqb_refl.
           ++ apply Hall. lia.
        -- split; [exact Hr|]. destruct Hbad as (j & Hj & Hjbad).
           exists j. split; [lia | exact Hjbad].
      * exists (- EINVAL), g. rewrite Hsame. split; [reflexivity|].
        split; [exact Hwf|]. split; [apply same_frame_refl|]. split; [reflexivity|].
        right. split; [now right|]. exists i. split; [lia|]. right. eauto.
    + exists (- EFAULT), g. rewrite Hsame. split; [reflexivity|].
      split; [exact Hwf|]. split; [apply same_frame_refl|]. split; [reflexivity|].
      right. split; [now left|]. exists i. split; [lia|]. now left.
  - exists 0, g. rewrite Hsame. split; [reflexivity|].
    split; [exact Hwf|]. split; [apply same_frame_refl|]. split; [reflexivity|].
    left. split; [reflexivity|]. intros j Hj. lia.
Qed.

Lemma groups_from_user_spec fuel p grouplist s g :
  k_objs s !! p = Some g -> group_info_wf g -> (Z.to_nat (ngroups g) < fuel)%nat ->
  exists r g',
    groups_from_user fuel p grouplist s = Done (r, set_objs (insert p g') s) /\
    group_info_wf g' /\ same_frame g g' /\
    ((r = 0 /\ import_ok s grouplist (ngroups g) /\
      gids g' = imported s grouplist (ngroups g)) \/
     ((r = - EFAULT \/ r = - EINVAL) /\ ~ import_ok s grouplist (ngroups g))).
Proof.
  intros Hg Hwf Hfuel. pose proof (wf_count _ Hwf) as Hc.
  destruct (from_user_loop_spec p grouplist fuel 0 s g Hg Hwf)
    as (r & g' & Hrun & Hwf' & Hfr & _ & Hres); try lia.
  exists r, g'. split.
  - unfold groups_from_user. rewrite (kbind_done _ _ s g s (load_eq p g s Hg)).
    rewrite to_uint_int by exact Hc. exact Hrun.
  - split; [exact Hwf'|]. split; [exact Hfr|].
    pose proof Hfr as (_ & Hn & _).
    destruct Hres as [[-> Hall] | [Hr (j & Hj & Hbad)]]; [left | right].
    + split; [reflexivity|]. split.
      * intros j Hj. destruct (Hall j Hj) as (v & Hv & Hok & _). eauto.
      * unfold gids, imported. rewrite Hn. apply map_ext_in. intros j Hj.
        apply list_elem_of_In, elem_of_seqZ in Hj.
        destruct (Hall j ltac:(lia)) as (v & Hv & _ & Hcell).
        rewrite Hcell, Hv. reflexivity.
    + split; [exact Hr|]. intros Hok. destruct (Hok j Hj) as (v & Hv & Hvalid).
      destruct Hbad as [Hnone | (v' & Hv' & Hinvalid)]; congruence.
Qed.

Lemma releasable_more_pages fuel s s' g :
  (forall a, a ∈ k_pages s -> a ∈ k_pages s') -> releasable fuel s g -> releasable fuel s' g.
Proof.
  intros Hsub [Hu Hlast]. split; [exact Hu|]. intros H1.
  destruct (Hlast H1) as (Hwf & [Hnd Hlive] & Hfuel).
  split; [exact Hwf|]. split; [|exact Hfuel]. split; [exact Hnd|].
  intros a Ha. apply Hsub, Hlive, Ha.
Qed.

Lemma blocks_for_le n : 0 <= n <= INT_MAX -> blocks_for n <= Z.max 1 n.
Proof.
  intros Hn. destruct (blocks_for_bounds n Hn) as (Hb & Hcover & Hleast).
  pose proof per_block_pos. destruct Hleast as [->|Hleast]; [lia | nia].
Qed.

Lemma import_ok_user s s' grouplist n :
  k_user s' = k_user s -> import_ok s' grouplist n <-> import_ok s grouplist n.
Proof. intros Hu. unfold import_ok. now rewrite Hu. Qed.

Lemma imported_user s s' grouplist n :
  k_user s' = k_user s -> imported s' grouplist n = imported s grouplist n.
Proof. intros Hu. unfold imported. now rewrite Hu. Qed.

Lemma gids_with_usage u g : gids (with_usage u g) = gids g.
Proof. reflexivity. Qed.

(** What setgroups does once the structure is allocated and filled: the
    gate runs, and the reference taken by groups_alloc is dropped. *)
Lemma setgroups_install fuel p s s2 g go :
  k_setgid s2 = true ->
  k_objs s !! p = None -> k_objs s2 = <[p := g]> (k_objs s) ->
  k_pages s2 = k_pages s ∪ list_to_set (page_addrs g) ->
  same_process s s2 ->
  usage g = 1 -> group_info_wf g -> ngroups g <= SORT_MAX ->
  NoDup (page_addrs g) -> (forall a, a ∈ page_addrs g -> a ∉ k_pages s) ->
  (Z.to_nat (ngroups g) < fuel)%nat -> (Z.to_nat (nblocks g) < fuel)%nat ->
  k_objs s !! cred_group_info (k_cred s) = Some go -> group_info_wf go ->
  releasable fuel s go -> usage go < INT_MAX -> (Z.to_nat (ngroups go) < fuel)%nat ->
  exists r s',
    kbind (set_current_groups fuel p)
      (fun retval => kbind (put_group_info fuel p) (fun _ => kret retval)) s2 = Done (r, s') /\
    k_user s' = k_user s /\
    ((r = - ENOMEM /\ k_cred s' = k_cred s /\ k_objs s' = k_objs s /\ k_pages s' = k_pages s) \/
     (r = 0 /\
      exists gi',
        k_cred s' = mk_cred (gid (k_cred s)) (egid (k_cred s)) (fsgid (k_cred s)) p /\
        k_objs s' = <[p := gi']> (objs_after_put (cred_group_info (k_cred s)) go (k_objs s)) /\
        usage gi' = 1 /\ same_frame g gi' /\
        Sorted Z.le (gids gi') /\ Permutation (gids gi') (gids g) /\
        k_pages s' = pages_after_put go (k_pages s ∪ list_to_set (page_addrs g)))).
Proof.
  intros Hcap Hfresh Ho2 Hpg2 (Hus2 & Hcr2 & Hsg2 & Hcu2 & Hdu2)
         Hu Hwf Hmax Hnd Hnew Hfuel Hfuelb Hold Hwfo Hrel Huo Hfuelo.
  set (oldp := cred_group_info (k_cred s)) in *.
  assert (oldp <> p) as Hne by (intros Heq; rewrite Heq in Hold; congruence).
  assert (k_objs s2 !! p = Some g) as Hp2 by (rewrite Ho2; apply lookup_insert_eq).
  destruct (groups_sort_spec fuel g Hwf Hmax Hfuel) as (gs & Hsort & Hwfs & Hfrs & Hss & Hperm).
  pose proof Hfrs as (Hus & Hns & Hnbs & _).
  pose proof (same_frame_pages _ _ Hfrs) as Hpas.
  destruct (bool_decide (hd true (k_plan s2) = true)) eqn:Hplan.
  - (* a draft is had: install, commit, drop the caller's reference *)
    apply bool_decide_eq_true in Hplan.
    assert (1 <= usage g < INT_MAX) as Hu2 by (rewrite Hu; unfold INT_MAX; lia).
    assert (k_objs s2 !! cred_group_info (k_cred s2) = Some go) as Hold2.
    { rewrite Hcr2, Ho2. fold oldp. rewrite lookup_insert_ne by auto. exact Hold. }
    assert (releasable fuel s2 go) as Hrel2.
    { apply (releasable_more_pages fuel s); [|exact Hrel].
      intros a Ha. rewrite Hpg2. set_solver. }
    destruct (set_current_groups_with_draft fuel p s2 g go
                Hp2 Hwf Hmax Hfuel Hu2 Hold2 Hwfo Hfuelo Hrel2 Huo Hplan) as
      (gs' & sub & Hsort' & _ & _ & _ & Hgate).
    assert (gs' = gs) as -> by congruence.
    rewrite Hcap in Hgate. simpl in Hgate.
    destruct Hgate as (s3 & Hrun & Hcr3 & Hobs & Hpl3 & Hus3 & Hsg3 & Hcu3 & Hdu3).
    rewrite Hcr2 in Hobs, Hcr3. fold oldp in Hobs. rewrite decide_False in Hobs by exact Hne.
    destruct Hobs as [Ho3 Hpg3].
    rewrite (kbind_done _ _ s2 0 s3 Hrun).
    assert (k_objs s3 !! p = Some (with_usage (usage g + 1) gs)) as Hp3
      by (rewrite Ho3; apply lookup_insert_eq).
    rewrite (kbind_done _ _ s3 tt _
               (put_group_info_keep fuel p _ s3 Hp3 ltac:(simpl; unfold INT_MAX; lia))).
    eexists 0, _. split; [reflexivity|]. split; [simpl; congruence|]. right.
    split; [reflexivity|]. exists (with_usage 1 gs).
    split; [exact Hcr3|]. split.
    { simpl. rewrite Ho3, Ho2, Hu. simpl. rewrite insert_insert_eq.
      unfold objs_after_put. apply map_eq. intros q.
      destruct (decide (q = p)) as [->|Hqp]; [now rewrite !lookup_insert_eq|].
      rewrite !(lookup_insert_ne _ p q) by auto.
      destruct (decide (usage go = 1)); destruct (decide (q = oldp)) as [->|Hqo].
      - now rewrite !lookup_delete_eq.
      - rewrite !lookup_delete_ne by auto. now rewrite lookup_insert_ne by auto.
      - now rewrite !lookup_insert_eq.
      - rewrite !(lookup_insert_ne _ oldp q) by auto. now rewrite lookup_insert_ne by auto. }
    split; [reflexivity|].
    split.
    { destruct Hfrs as (_ & Hn' & Hnb' & Hl'). unfold same_frame.
      split; [simpl; now rewrite Hu|]. split; [exact Hn'|]. split; [exact Hnb' | exact Hl']. }
    split; [exact Hss|]. split; [exact Hperm|].
    simpl. rewrite Hpg3, Hpg2. reflexivity.
  - (* no draft: -ENOMEM, and the structure is freed *)
    apply bool_decide_eq_false in Hplan.
    assert (hd true (k_plan s2) = false) as Hno by (destruct (hd true (k_plan s2)); congruence).
    destruct (set_current_groups_no_draft fuel p s2 g Hp2 Hwf Hmax Hfuel Hno)
      as (gs' & Hsort' & Hrun).
    assert (gs' = gs) as -> by congruence.
    rewrite (kbind_done _ _ s2 _ _ Hrun).
    destruct (put_after_alloc fuel p gs s (set_plan (tail (k_plan s2)) (set_objs (insert p gs) s2)))
      as (s4 & Hput & (Hus4 & Hcr4 & _) & _ & Ho4 & Hpg4); try assumption.
    { simpl. rewrite Ho2. apply insert_insert_eq. }
    { congruence. }
    { now rewrite Hpas. }
    { intros a Ha. rewrite Hpas in Ha. now apply Hnew. }
    { simpl. now rewrite Hpas. }
    { now rewrite Hnbs. }
    rewrite (kbind_done _ _ _ tt s4 Hput).
    exists (- ENOMEM), s4. split; [reflexivity|].
    split; [rewrite Hus4; exact Hus2|]. left.
    split; [reflexivity|]. split; [rewrite Hcr4; exact Hcr2|]. split; assumption.
Qed.

End SetGroups.

(** C5: setgroups fails with -EPERM for a caller without CAP_SETGID and
    with -EINVAL for a size above NGROUPS_MAX (a negative size included,
    since the comparison is unsigned).  Otherwise it allocates a group set,
    imports the user's list into it and runs the privilege gate.  Whatever
    comes of that, its own reference to the allocated set is dropped before
    it returns: after a failure (no memory, or an import that faults or meets
    an invalid identifier) the live structures and pages are exactly those
    from before the call, and after a success the new set, sorted, is held
    by the caller's credentials alone (reference count 1). *)
Theorem sys_setgroups_spec `{PlatformOk}
    (fuel : nat) (n grouplist : Z) (s : kstate) (go : group_info) :
  - 2147483648 <= n <= INT_MAX ->
  (k_setgid s = false -> sys_setgroups fuel n grouplist s = Done (- EPERM, s)) /\
  (k_setgid s = true -> n < 0 \/ NGROUPS_MAX < n ->
   sys_setgroups fuel n grouplist s = Done (- EINVAL, s)) /\
  (k_setgid s = true -> 0 <= n <= NGROUPS_MAX ->
   k_objs s !! cred_group_info (k_cred s) = Some go -> group_info_wf go ->
   releasable fuel s go -> usage go < INT_MAX ->
   (Z.to_nat (ngroups go) < fuel)%nat -> (Z.to_nat (Z.max 1 n) < fuel)%nat ->
   exists r s',
     sys_setgroups fuel n grouplist s = Done (r, s') /\ k_user s' = k_user s /\
     (((r = - ENOMEM \/ ((r = - EFAULT \/ r = - EINVAL) /\ ~ import_ok s grouplist n)) /\
       k_cred s' = k_cred s /\ k_objs s' = k_objs s /\ k_pages s' = k_pages s) \/
      (r = 0 /\ import_ok s grouplist n /\
       exists p gi',
         p <> 0 /\ k_objs s !! p = None /\
         k_cred s' = mk_cred (gid (k_cred s)) (egid (k_cred s)) (fsgid (k_cred s)) p /\
         k_objs s' = <[p := gi']> (objs_after_put (cred_group_info (k_cred s)) go (k_objs s)) /\
         usage gi' = 1 /\ ngroups gi' = n /\ nblocks gi' = blocks_for n /\
         Sorted Z.le (gids gi') /\ Permutation (gids gi') (imported s grouplist n) /\
         (forall a, a ∈ page_addrs gi' -> a ∉ k_pages s) /\
         k_pages s' = pages_after_put go (k_pages s ∪ list_to_set (page_addrs gi'))))).
Proof.
  intros Hint. pose proof max_sortable as Hmaxs. unfold SORT_MAX in Hmaxs.
  unfold INT_MAX in Hint.
  split; [|split].
  - intros Hcap. unfold sys_setgroups, may_setgroups.
    rewrite (kbind_done _ _ s (k_setgid s) s eq_refl). now rewrite Hcap.
  - intros Hcap Hbig. unfold sys_setgroups, may_setgroups.
    rewrite (kbind_done _ _ s (k_setgid s) s eq_refl). rewrite Hcap. simpl.
    rewrite (to_uint_id NGROUPS_MAX) by (unfold UINT_MOD; lia).
    assert (NGROUPS_MAX < to_uint n) as Hlt.
    { destruct Hbig as [Hneg|Hpos].
      - unfold to_uint, UINT_MOD.
        replace n with (n + 4294967296 - 1 * 4294967296) by lia.
        rewrite Zminus_mod, Z_mod_mult, Z.sub_0_r, Z.mod_mod, Z.mod_small by lia. lia.
      - rewrite to_uint_id by (unfold UINT_MOD; lia). exact Hpos. }
    destruct (Z.ltb_spec NGROUPS_MAX (to_uint n)); [reflexivity | lia].
  - intros Hcap Hn Hold Hwfo Hrel Huo Hfuelo Hfueln.
    assert (0 <= n <= INT_MAX) as Hn' by (unfold INT_MAX; lia).
    pose proof (blocks_for_le n Hn') as Hbl.
    destruct (blocks_for_bounds n Hn') as (Hnb & _).
    unfold sys_setgroups, may_setgroups.
    rewrite (kbind_done _ _ s (k_setgid s) s eq_refl). rewrite Hcap. simpl.
    rewrite (to_uint_id NGROUPS_MAX) by (unfold UINT_MOD; lia).
    rewrite (to_uint_id n) by (unfold UINT_MOD; lia).
    destruct (Z.ltb_spec NGROUPS_MAX n); [lia|].
    destruct (groups_alloc_spec fuel n s Hn' ltac:(lia))
      as (p & s1 & Halloc & Hsp1 & Hcase).
    rewrite (kbind_done _ _ s p s1 Halloc).
    pose proof Hsp1 as (Hus1 & Hcr1 & Hsg1 & Hcu1 & Hdu1).
    destruct Hcase as [(-> & Ho1 & Hpg1) |
                       (Hp0 & Hfresh & g0 & Ho1 & Hu0 & Hn0 & Hnb0 & Hwf0 & Hnd0 & Hnew0 & Hpg1)].
    { exists (- ENOMEM), s1. split; [reflexivity|]. split; [exact Hus1|]. left.
      split; [now left|]. split; [exact Hcr1|]. split; assumption. }
    destruct (Z.eqb_spec p 0) as [|_]; [contradiction|].
    assert (k_objs s1 !! p = Some g0) as Hp1 by (rewrite Ho1; apply lookup_insert_eq).
    destruct (groups_from_user_spec fuel p grouplist s1 g0 Hp1 Hwf0 ltac:(rewrite Hn0; lia))
      as (r1 & g & Himp & Hwf & Hfr & Hres).
    rewrite (kbind_done _ _ s1 r1 _ Himp).
    set (s2 := set_objs (insert p g) s1) in *.
    pose proof Hfr as (Hu & Hng & Hnbg & _).
    pose proof (same_frame_pages _ _ Hfr) as Hpa.
    assert (k_objs s2 = <[p := g]> (k_objs s)) as Ho2.
    { unfold s2. simpl. rewrite Ho1. apply insert_insert_eq. }
    rewrite Hn0 in Hres.
    rewrite (import_ok_user s s1 grouplist n Hus1) in Hres.
    rewrite (imported_user s s1 grouplist n Hus1) in Hres.
    destruct Hres as [(-> & Hok & Hgids) | (Hr1 & Hbad)].
    + (* imported: run the gate *)
      simpl.
      destruct (setgroups_install fuel p s s2 g go) as (r & s' & Hrun & Hus' & Hout);
        try assumption; try congruence.
      { unfold s2. simpl. congruence. }
      { unfold s2. simpl. rewrite Hpg1, Hpa. reflexivity. }
      { unfold SORT_MAX. rewrite Hng, Hn0. lia. }
      { intros a Ha. rewrite Hpa in Ha. now apply Hnew0. }
      { rewrite Hng, Hn0. lia. }
      { rewrite Hnbg, Hnb0. lia. }
      exists r, s'. split; [exact Hrun|]. split; [exact Hus'|].
      destruct Hout as [(-> & Hcr' & Ho' & Hpg') |
                        (-> & gi' & Hcr' & Ho' & Hu' & Hfr' & Hs' & Hperm' & Hpg')].
      * left. split; [now left|]. split; [exact Hcr'|]. split; assumption.
      * right. split; [reflexivity|]. split; [exact Hok|]. exists p, gi'.
        pose proof Hfr' as (_ & Hn'' & Hnb'' & _).
        pose proof (same_frame_pages _ _ Hfr') as Hpa'.
        split; [exact Hp0|]. split; [exact Hfresh|]. split; [exact Hcr'|].
        split; [exact Ho'|]. split; [exact Hu'|]. split; [congruence|]. split; [congruence|].
        split; [exact Hs'|]. split; [now rewrite <- Hgids|].
        split; [intros a Ha; rewrite Hpa', Hpa in Ha; now apply Hnew0|].
        rewrite Hpg', Hpa'. reflexivity.
    + (* import failed: drop the structure *)
      assert (negb (r1 =? 0) = true) as ->.
      { destruct Hr1 as [-> | ->]; reflexivity. }
      destruct (put_after_alloc fuel p g s s2) as (s3 & Hput & (Hus3 & Hcr3 & _) & _ & Ho3 & Hpg3);
        try assumption; try congruence.
      { intros a Ha. rewrite Hpa in Ha. now apply Hnew0. }
      { unfold s2. simpl. rewrite Hpg1, Hpa. reflexivity. }
      { rewrite Hnbg, Hnb0. lia. }
      rewrite (kbind_done _ _ s2 tt s3 Hput).
      exists r1, s3. split; [reflexivity|].
      split; [rewrite Hus3; exact Hus1|]. left.
      split; [right; split; assumption|].
      split; [rewrite Hcr3; exact Hcr1|]. split; assumption.
Qed.

Lemma sys_setgroups_spec_witness :
  let s := demo_capable_state in
  let go := @group_info_of linux_platform 1 [100; 200; 300] in
  (- 2147483648 <= 2 <= INT_MAX /\ k_setgid s = true /\ 0 <= 2 <= @NGROUPS_MAX linux_platform /\
   k_objs s !! cred_group_info (k_cred s) = Some go /\ @group_info_wf linux_platform go /\
   @releasable linux_platform 4 s go /\ usage go < INT_MAX /\
   (Z.to_nat (ngroups go) < 4)%nat /\ (Z.to_nat (Z.max 1 2) < 4)%nat) /\
  @sys_setgroups linux_platform 4 2 64 demo_state = Done (- EPERM, demo_state) /\
  @sys_setgroups linux_platform 4 (- 1) 64 s = Done (- EINVAL, s) /\
  @sys_setgroups linux_platform 4 65537 64 s = Done (- EINVAL, s) /\
  (exists s', @sys_setgroups linux_platform 4 2 65 s = Done (- EINVAL, s') /\
     k_cred s' = k_cred s /\ k_objs s' = k_objs s /\ k_pages s' = k_pages s) /\
  (exists s' p gi',
     @sys_setgroups linux_platform 4 2 64 s = Done (0, s') /\
     cred_group_info (k_cred s') = p /\ k_objs s !! p = None /\
     k_objs s' = {[ p := gi' ]} /\ usage gi' = 1 /\
     Sorted Z.le (@gids linux_platform gi') /\
     Permutation (@gids linux_platform gi') [400; 100]).
Proof.
  intros s go.
  assert (- 2147483648 <= 2 <= INT_MAX) as H1 by (unfold INT_MAX; lia).
  assert (k_setgid s = true) as H2 by reflexivity.
  assert (0 <= 2 <= @NGROUPS_MAX linux_platform) as H3 by (simpl; lia).
  assert (k_objs s !! cred_group_info (k_cred s) = Some go) as H4 by reflexivity.
  assert (@group_info_wf linux_platform go) as H5 by concrete_wf.
  assert (@releasable linux_platform 4 s go) as H6.
  { split; [vm_compute; split; discriminate|]. intros _.
    split; [concrete_wf|]. split; [|vm_compute; lia].
    split; [constructor | intros a Ha; inversion Ha]. }
  assert (usage go < INT_MAX) as H7 by reflexivity.
  assert (Z.to_nat (ngroups go) < 4)%nat as H8 by (vm_compute; lia).
  assert (Z.to_nat (Z.max 1 2) < 4)%nat as H9 by lia.
  split; [repeat (split; [assumption|]); assumption|].
  split.
  { destruct (@sys_setgroups_spec linux_platform linux_platform_ok 4 2 64 demo_state go H1)
      as (Hperm & _). apply Hperm. reflexivity. }
  split.
  { destruct (@sys_setgroups_spec linux_platform linux_platform_ok 4 (- 1) 64 s go
                ltac:(unfold INT_MAX; lia)) as (_ & Hinval & _).
    apply Hinval; [reflexivity | left; lia]. }
  split.
  { destruct (@sys_setgroups_spec linux_platform linux_platform_ok 4 65537 64 s go
                ltac:(unfold INT_MAX; lia)) as (_ & Hinval & _).
    apply Hinval; [reflexivity | right; simpl; lia]. }
  split.
  { destruct (@sys_setgroups_spec linux_platform linux_platform_ok 4 2 65 s go H1)
      as (_ & _ & Hrun).
    destruct (Hrun H2 H3 H4 H5 H6 H7 H8 H9) as (r & s' & Hr & _ & Hcase).
    destruct Hcase as [(_ & Hcr & Ho & Hpg) | (Hr0 & _)].
    - exists s'. split; [|split; [exact Hcr | split; [exact Ho | exact Hpg]]].
      rewrite Hr. vm_compute in Hr. injection Hr as <- _. reflexivity.
    - exfalso. subst r. vm_compute in Hr. discriminate Hr. }
  destruct (@sys_setgroups_spec linux_platform linux_platform_ok 4 2 64 s go H1)
    as (_ & _ & Hrun).
  destruct (Hrun H2 H3 H4 H5 H6 H7 H8 H9) as (r & s' & Hr & _ & Hcase).
  destruct Hcase as [([Hr0 | [[Hr0 | Hr0] _]] & _) |
                     (-> & _ & p & gi' & _ & Hfresh & Hcr & Ho & Hu & _ & _ & Hs & Hp & _)].
  - exfalso. subst r. vm_compute in Hr. discriminate Hr.
  - exfalso. subst r. vm_compute in Hr. discriminate Hr.
  - exfalso. subst r. vm_compute in Hr. discriminate Hr.
  - exists s', p, gi'. split; [exact Hr|]. split; [now rewrite Hcr|].
    split; [exact Hfresh|]. split.
    + rewrite Ho. unfold objs_after_put. reflexivity.
    + split; [exact Hu|]. split; [exact Hs|]. exact Hp.
Defined.

(** * Further properties *)

(** ** is_subset as a subsequence test *)

Section Subsequence.
Context `{PlatformOk}.

Lemma gids_drop_all gi i : ngroups gi <= i -> drop (Z.to_nat i) (gids gi) = [].
Proof. intros Hi. apply drop_ge. rewrite gids_length. lia. Qed.

Lemma gids_drop_elem gi j x :
  0 <= j -> x ∈ drop (Z.to_nat j) (gids gi) ->
  exists k, j <= k < ngroups gi /\ cell_of gi k = x.
Proof.
  intros Hj Hin. apply list_elem_of_lookup_1 in Hin as [m Hm].
  rewrite lookup_drop in Hm.
  pose proof (lookup_lt_Some _ _ _ Hm) as Hlen. rewrite gids_length in Hlen.
  exists (j + Z.of_nat m). split; [lia|].
  pose proof (gids_lookup gi (j + Z.of_nat m) ltac:(lia)) as Hc.
  replace (Z.to_nat (j + Z.of_nat m)) with (Z.to_nat j + m)%nat in Hc by lia.
  congruence.
Qed.

(** Identifiers of the second set other than [x] can be skipped when [x] is
    the next one to match. *)
Lemma sublist_drop_skip g2 x r (d : nat) : forall j,
  0 <= j -> j + Z.of_nat d <= ngroups g2 ->
  (forall k, j <= k < j + Z.of_nat d -> cell_of g2 k <> x) ->
  (x :: r) `sublist_of` drop (Z.to_nat j) (gids g2) <->
  (x :: r) `sublist_of` drop (Z.to_nat (j + Z.of_nat d)) (gids g2).
Proof.
  induction d as [|d IH]; intros j Hj Hle Hne.
  - now replace (j + Z.of_nat 0) with j by lia.
  - rewrite (gids_drop g2 j) by lia. rewrite sublist_cons_r.
    replace (j + Z.of_nat (S d)) with ((j + 1) + Z.of_nat d) by lia.
    rewrite <- (IH (j + 1)) by (try lia; intros k Hk; apply Hne; lia).
    split; [|now left].
    intros [Hs | (l' & Heq & _)]; [exact Hs|].
    injection Heq as Hx _. exfalso. apply (Hne j); [lia | now symmetry].
Qed.

Lemma subset_loop_sublist g1 g2 budget : forall fuel i j,
  group_info_wf g1 -> group_info_wf g2 -> ascending (gids g2) ->
  0 <= i <= ngroups g1 -> 0 <= j <= ngroups g2 ->
  (Z.to_nat (ngroups g1 - i) < fuel)%nat -> (Z.to_nat (ngroups g2) < budget)%nat ->
  exists b,
    subset_loop fuel budget g1 g2 i j = Done b /\
    (b = true <->
     drop (Z.to_nat i) (gids g1) `sublist_of` drop (Z.to_nat j) (gids g2)).
Proof.
  induction fuel as [|fuel IH]; intros i j Hwf1 Hwf2 Hs2 Hi Hj Hfuel Hbudget; [lia|].
  pose proof (wf_count _ Hwf1) as Hc1. pose proof (wf_count _ Hwf2) as Hc2.
  simpl. rewrite !to_uint_int by assumption.
  destruct (Z.ltb_spec i (ngroups g1)) as [Hlt|Hge].
  - rewrite (GROUP_AT_cell g1 i Hwf1) by lia. simpl.
    rewrite (gids_drop g1 i) by lia.
    set (x := cell_of g1 i). set (r := drop (Z.to_nat (i + 1)) (gids g1)).
    destruct (subset_scan_spec g2 x budget j None Hwf2 Hj)
      as (j1 & g & Hrun & Hj1 & Hbelow & Hstop); [lia|].
    rewrite Hrun. simpl.
    assert ((x :: r) `sublist_of` drop (Z.to_nat j) (gids g2) <->
            (x :: r) `sublist_of` drop (Z.to_nat j1) (gids g2)) as Hskip.
    { pose proof (sublist_drop_skip g2 x r (Z.to_nat (j1 - j)) j) as Hskip.
      replace (j + Z.of_nat (Z.to_nat (j1 - j))) with j1 in Hskip by lia.
      apply Hskip; try lia. intros k Hk. specialize (Hbelow k Hk). lia. }
    destruct (Z.leb_spec (ngroups g2) j1) as [Hend|Hin].
    + exists false. split; [reflexivity|]. split; [discriminate|].
      rewrite Hskip, gids_drop_all by lia.
      intros Hsub. apply sublist_nil_r in Hsub. discriminate.
    + destruct (Hstop Hin) as [-> Hle]. unfold gid_eq.
      rewrite (gids_drop g2 j1) in Hskip by lia.
      destruct (Z.eqb_spec x (cell_of g2 j1)) as [Heq|Hne]; simpl.
      * rewrite !to_uint_id by (unfold INT_MAX, UINT_MOD in *; lia).
        destruct (IH (i + 1) (j1 + 1) Hwf1 Hwf2 Hs2) as (b & Hrun' & Hiff); try lia.
        exists b. split; [exact Hrun'|]. rewrite Hiff, Hskip. fold r. rewrite <- Heq. split.
        -- apply sublist_skip.
        -- intros Hsub. apply sublist_cons_r in Hsub as [Hs | (l' & Heq' & Hs)].
           ++ transitivity (x :: r); [apply sublist_cons; reflexivity | exact Hs].
           ++ now injection Heq' as <-.
      * exists false. split; [reflexivity|]. split; [discriminate|]. intros Hsub.
        apply Hskip in Hsub.
        apply sublist_cons_r in Hsub as [Hs | (l' & Heq' & _)];
          [|injection Heq' as Hx _; contradiction].
        apply sublist_cons_l in Hs as (k1 & k2 & Hk & _).
        assert (x ∈ drop (Z.to_nat (j1 + 1)) (gids g2)) as Hxin.
        { rewrite Hk. set_solver. }
        apply gids_drop_elem in Hxin as (k & Hkr & Hck); [|lia].
        pose proof (Hs2 (Z.to_nat j1) (Z.to_nat k) (cell_of g2 j1) (cell_of g2 k)
                      ltac:(lia) (gids_lookup g2 j1 ltac:(lia)) (gids_lookup g2 k ltac:(lia))).
        lia.
  - exists true. split; [reflexivity|]. split; [|reflexivity]. intros _.
    rewrite gids_drop_all by lia. apply sublist_nil_l.
Qed.

End Subsequence.

(** is_subset answers true exactly when the first list is a subsequence of
    the second, sorted one: each of its identifiers has to be matched by an
    occurrence of its own, so an identifier held once does not cover one
    asked for twice.  The first list need not be sorted for this. *)
Theorem is_subset_subsequence `{PlatformOk} fuel g1 g2 :
  group_info_wf g1 -> group_info_wf g2 -> Sorted Z.le (gids g2) ->
  (Z.to_nat (ngroups g1) < fuel)%nat -> (Z.to_nat (ngroups g2) < fuel)%nat ->
  exists b, is_subset fuel g1 g2 = Done b /\
            (b = true <-> gids g1 `sublist_of` gids g2).
Proof.
  intros Hwf1 Hwf2 Hs2 Hf1 Hf2.
  pose proof (wf_count _ Hwf1) as Hc1. pose proof (wf_count _ Hwf2) as Hc2.
  destruct (subset_loop_sublist g1 g2 fuel fuel 0 0 Hwf1 Hwf2) as (b & Hrun & Hiff);
    try lia.
  { apply Sorted_ascending, Hs2. }
  exists b. split; [exact Hrun | exact Hiff].
Qed.

Lemma is_subset_subsequence_witness :
  let g1 := @group_info_of linux_platform 1 [5; 5] in
  let g2 := @group_info_of linux_platform 1 [5] in
  (@group_info_wf linux_platform g1 /\ @group_info_wf linux_platform g2 /\
   Sorted Z.le (@gids linux_platform g2) /\
   (Z.to_nat (ngroups g1) < 3)%nat /\ (Z.to_nat (ngroups g2) < 3)%nat) /\
  @is_subset linux_platform 3 g1 g2 = Done false /\
  ~ @gids linux_platform g1 `sublist_of` @gids linux_platform g2.
Proof.
  intros g1 g2.
  assert (@group_info_wf linux_platform g1) as H1 by concrete_wf.
  assert (@group_info_wf linux_platform g2) as H2 by concrete_wf.
  assert (Sorted Z.le (@gids linux_platform g2)) as H3 by (vm_compute; repeat constructor).
  assert (Z.to_nat (ngroups g1) < 3)%nat as H4 by (vm_compute; lia).
  assert (Z.to_nat (ngroups g2) < 3)%nat as H5 by (vm_compute; lia).
  split; [repeat (split; [assumption|]); assumption|].
  destruct (@is_subset_subsequence linux_platform linux_platform_ok 3 g1 g2 H1 H2 H3 H4 H5)
    as (b & Hrun & Hiff).
  assert (b = false) as ->.
  { vm_compute in Hrun. now injection Hrun as <-. }
  split; [exact Hrun|]. intros Hsub. apply Hiff in Hsub. discriminate Hsub.
Defined.

(** ** groups_search on a list in any order *)

Section SearchAnyOrder.
Context `{PlatformOk}.

Lemma search_loop_sound fuel gi grp : forall left right,
  group_info_wf gi -> 0 <= left -> left <= right -> right <= ngroups gi ->
  (Z.to_nat (right - left) < fuel)%nat ->
  exists r, search_loop fuel gi grp left right = Done r /\
            (r = 0 \/ r = 1) /\ (r = 1 -> grp ∈ gids gi).
Proof.
  induction fuel as [|fuel IH]; intros left right Hwf Hl Hlr Hr Hfuel; [lia|].
  pose proof (wf_count _ Hwf) as Hc. unfold INT_MAX in Hc.
  simpl. destruct (Z.ltb_spec left right) as [Hlt|Hge].
  - rewrite to_uint_id by (unfold UINT_MOD; lia).
    set (mid := (left + right) / 2).
    assert (left <= mid < right) as Hmid.
    { unfold mid. split; [apply Z.div_le_lower_bound | apply Z.div_lt_upper_bound]; lia. }
    destruct (GROUP_AT_gids gi mid Hwf ltac:(lia)) as (x & Hx & Hgx).
    rewrite Hx. simpl. unfold gid_gt, gid_lt.
    destruct (Z.ltb_spec x grp) as [Hxg|Hxg].
    + rewrite to_uint_id by (unfold UINT_MOD; lia). apply IH; try assumption; lia.
    + destruct (Z.ltb_spec grp x) as [Hgx'|Hgx'].
      * apply IH; try assumption; lia.
      * assert (x = grp) as -> by lia.
        exists 1. split; [reflexivity|]. split; [now right|]. intros _.
        eapply list_elem_of_lookup_2. exact Hgx.
  - exists 0. split; [reflexivity|]. split; [now left | discriminate].
Qed.

End SearchAnyOrder.

(** On a set whose identifiers are in any order groups_search still returns,
    with 0 or 1, and it answers 1 only for an identifier the set holds: an
    unsorted set can hide a member, it cannot invent one. *)
Theorem groups_search_no_false_positive `{PlatformOk}
    (fuel : nat) (gi : group_info) (grp : Z) :
  group_info_wf gi -> (Z.to_nat (ngroups gi) < fuel)%nat ->
  exists r, groups_search fuel (Some gi) grp = Done r /\
            (r = 0 \/ r = 1) /\ (r = 1 -> grp ∈ gids gi).
Proof.
  intros Hwf Hfuel. pose proof (wf_count _ Hwf) as Hc.
  unfold groups_search. rewrite to_uint_int by exact Hc.
  apply search_loop_sound; try assumption; lia.
Qed.

Lemma groups_search_no_false_positive_witness :
  let gi := @group_info_of linux_platform 1 [300; 100; 200] in
  (@group_info_wf linux_platform gi /\ (Z.to_nat (ngroups gi) < 4)%nat) /\
  @groups_search linux_platform 4 (Some gi) 300 = Done 0 /\
  @groups_search linux_platform 4 (Some gi) 100 = Done 1 /\
  100 ∈ @gids linux_platform gi.
Proof.
  intros gi.
  assert (@group_info_wf linux_platform gi) as H1 by concrete_wf.
  assert (Z.to_nat (ngroups gi) < 4)%nat as H2 by (vm_compute; lia).
  split; [split; assumption|]. split; [vm_compute; reflexivity|].
  destruct (@groups_search_no_false_positive linux_platform linux_platform_ok 4 gi 100 H1 H2)
    as (r & Hrun & _ & Hmem).
  assert (r = 1) as ->.
  { vm_compute in Hrun. now injection Hrun as <-. }
  split; [exact Hrun | now apply Hmem].
Defined.

(** ** Sorting, then searching *)

Lemma groups_sort_wf `{PlatformOk} fuel gi gi' :
  group_info_wf gi -> ngroups gi <= SORT_MAX -> (Z.to_nat (ngroups gi) < fuel)%nat ->
  groups_sort fuel gi = Done gi' ->
  group_info_wf gi' /\ same_frame gi gi' /\ Sorted Z.le (gids gi') /\
  Permutation (gids gi') (gids gi).
Proof.
  intros Hwf Hmax Hfuel Hrun.
  destruct (groups_sort_spec fuel gi Hwf Hmax Hfuel) as (g & Hg & Hrest).
  rewrite Hrun in Hg. injection Hg as <-. exact Hrest.
Qed.

(** Whatever the order of the identifiers handed to groups_sort, the search
    of the sorted set answers 1 exactly for the identifiers that were handed
    in. *)
Theorem groups_sort_then_search `{PlatformOk} (fuel : nat) (gi : group_info) (grp : Z) :
  group_info_wf gi -> ngroups gi <= SORT_MAX -> (Z.to_nat (ngroups gi) < fuel)%nat ->
  exists gi',
    groups_sort fuel gi = Done gi' /\
    groups_search fuel (Some gi') grp =
      Done (if bool_decide (grp ∈ gids gi) then 1 else 0).
Proof.
  intros Hwf Hmax Hfuel.
  destruct (groups_sort_spec fuel gi Hwf Hmax Hfuel) as (gi' & Hrun & Hwf' & Hfr & Hs & Hperm).
  exists gi'. split; [exact Hrun|].
  destruct Hfr as (_ & Hn & _).
  rewrite (groups_search_member fuel gi' grp Hwf' Hs) by (rewrite Hn; exact Hfuel).
  assert (bool_decide (grp ∈ gids gi') = bool_decide (grp ∈ gids gi)) as ->
    by (apply bool_decide_ext; now rewrite Hperm).
  reflexivity.
Qed.

Lemma groups_sort_then_search_witness :
  let gi := @group_info_of linux_platform 1 [300; 100; 200] in
  (@group_info_wf linux_platform gi /\ ngroups gi <= SORT_MAX /\
   (Z.to_nat (ngroups gi) < 4)%nat) /\
  @groups_search linux_platform 4 (Some gi) 300 = Done 0 /\
  exists gi', @groups_sort linux_platform 4 gi = Done gi' /\
              @groups_search linux_platform 4 (Some gi') 300 = Done 1.
Proof.
  intros gi.
  assert (@group_info_wf linux_platform gi) as H1 by concrete_wf.
  assert (ngroups gi <= SORT_MAX) as H2 by (vm_compute; discriminate).
  assert (Z.to_nat (ngroups gi) < 4)%nat as H3 by (vm_compute; lia).
  split; [split; [exact H1 | split; [exact H2 | exact H3]]|].
  split; [vm_compute; reflexivity|].
  destruct (@groups_sort_then_search linux_platform linux_platform_ok 4 gi 300 H1 H2 H3)
    as (gi' & Hrun & Hfind).
  exists gi'. split; [exact Hrun|]. rewrite Hfind. reflexivity.
Defined.

(** ** What the gate lets through *)

(** A caller without CAP_SETGID never gains a group through
    set_current_groups: the call returns 0, -EPERM or -ENOMEM; when it
    returns 0 every identifier of the requested set was already in the set
    the credentials held, and when it does not the credentials are the ones
    from before the call. *)
Theorem set_current_groups_no_new_group `{PlatformOk}
    (fuel : nat) (p : Z) (s : kstate) (gi go : group_info) :
  k_objs s !! p = Some gi -> group_info_wf gi -> ngroups gi <= SORT_MAX ->
  (Z.to_nat (ngroups gi) < fuel)%nat -> 1 <= usage gi < INT_MAX ->
  k_objs s !! cred_group_info (k_cred s) = Some go -> group_info_wf go ->
  (Z.to_nat (ngroups go) < fuel)%nat -> releasable fuel s go -> usage go < INT_MAX ->
  k_setgid s = false ->
  exists r s',
    set_current_groups fuel p s = Done (r, s') /\
    (r = 0 \/ r = - EPERM \/ r = - ENOMEM) /\
    (r = 0 ->
     cred_group_info (k_cred s') = p /\ forall x, x ∈ gids gi -> x ∈ gids go) /\
    (r <> 0 -> k_cred s' = k_cred s).
Proof.
  intros Hp Hwf Hmax Hfuel Hu Hold Hwfo Hfuelo Hrel Huo Hcap.
  destruct (hd true (k_plan s)) eqn:Hplan.
  - pose proof (set_current_groups_with_draft fuel p s gi go) as Hgate. cbv zeta in Hgate.
    destruct (Hgate Hp Hwf Hmax Hfuel Hu Hold Hwfo Hfuelo Hrel Huo Hplan)
      as (gi' & sub & Hsort & _ & Hperm & Hsub & Hcase).
    destruct (groups_sort_wf fuel gi gi' Hwf Hmax Hfuel Hsort) as (Hwf' & Hfr & _ & _).
    destruct Hfr as (_ & Hn & _).
    rewrite Hcap in Hcase. simpl in Hcase. destruct sub; simpl in Hcase.
    + destruct Hcase as (s' & Hrun & Hcr & _).
      exists 0, s'. split; [exact Hrun|]. split; [now left|].
      split; [|intros Hne; contradiction]. intros _.
      split; [rewrite Hcr; reflexivity|]. intros x Hx.
      destruct (decide (cred_group_info (k_cred s) = p)) as [Heq|Hne].
      * rewrite Heq in Hold. congruence.
      * destruct (is_subset_sound fuel gi' go Hwf' Hwfo) as (b & Hb & Hsound);
          [rewrite Hn; exact Hfuel | exact Hfuelo |].
        rewrite Hsub in Hb. injection Hb as <-.
        apply Hsound; [reflexivity|]. now rewrite Hperm.
    + destruct Hcase as (Hrun & Hcr & _).
      exists (- EPERM), (sorted_and_tried p gi' s). split; [exact Hrun|].
      split; [right; now left|]. split; [discriminate|]. intros _. exact Hcr.
  - destruct (set_current_groups_no_draft fuel p s gi Hp Hwf Hmax Hfuel Hplan)
      as (gi' & _ & Hrun).
    eexists _, _. split; [exact Hrun|]. split; [right; now right|].
    split; [discriminate|]. intros _. reflexivity.
Qed.

Lemma set_current_groups_no_new_group_witness :
  let s := set_objs (insert 32 (@group_info_of linux_platform 1 [300; 100])) demo_state in
  let gi := @group_info_of linux_platform 1 [300; 100] in
  let go := @group_info_of linux_platform 1 [100; 200; 300] in
  (k_objs s !! 32 = Some gi /\ @group_info_wf linux_platform gi /\
   ngroups gi <= SORT_MAX /\ (Z.to_nat (ngroups gi) < 4)%nat /\ 1 <= usage gi < INT_MAX /\
   k_objs s !! cred_group_info (k_cred s) = Some go /\ @group_info_wf linux_platform go /\
   (Z.to_nat (ngroups go) < 4)%nat /\ @releasable linux_platform 4 s go /\
   usage go < INT_MAX /\ k_setgid s = false) /\
  exists s', @set_current_groups linux_platform 4 32 s = Done (0, s') /\
             cred_group_info (k_cred s') = 32 /\
             forall x, x ∈ @gids linux_platform gi -> x ∈ @gids linux_platform go.
Proof.
  intros s gi go.
  assert (k_objs s !! 32 = Some gi) as H1 by reflexivity.
  assert (@group_info_wf linux_platform gi) as H2 by concrete_wf.
  assert (ngroups gi <= SORT_MAX) as H3 by (vm_compute; discriminate).
  assert (Z.to_nat (ngroups gi) < 4)%nat as H4 by (vm_compute; lia).
  assert (1 <= usage gi < INT_MAX) as H5 by (vm_compute; split; [discriminate | reflexivity]).
  assert (k_objs s !! cred_group_info (k_cred s) = Some go) as H6 by reflexivity.
  assert (@group_info_wf linux_platform go) as H7 by concrete_wf.
  assert (Z.to_nat (ngroups go) < 4)%nat as H8 by (vm_compute; lia).
  assert (@releasable linux_platform 4 s go) as H9.
  { split; [vm_compute; split; discriminate|]. intros _.
    split; [concrete_wf|]. split; [|vm_compute; lia].
    split; [constructor | intros a Ha; inversion Ha]. }
  assert (usage go < INT_MAX) as H10 by reflexivity.
  assert (k_setgid s = false) as H11 by reflexivity.
  split; [repeat (split; [assumption|]); assumption|].
  destruct (@set_current_groups_no_new_group linux_platform linux_platform_ok 4 32 s gi go
              H1 H2 H3 H4 H5 H6 H7 H8 H9 H10 H11)
    as (r & s' & Hrun & _ & Hok & _).
  assert (r = 0) as ->.
  { vm_compute in Hrun. now injection Hrun as <- _. }
  exists s'. split; [exact Hrun|]. exact (Hok eq_refl).
Defined.

(** ** groups_alloc on small and on negative sizes *)

Section AllocInline.
Context `{PlatformOk}.

Lemma block_addrs_unset n : block_addrs (replicate n Unset) = [].
Proof. induction n as [|n IH]; [reflexivity | exact IH]. Qed.

(** The block count groups_alloc computes for a size the inline array can
    take; for a negative size the sum wraps around as an unsigned int. *)
Lemma nblocks_inline k :
  - 2147483648 <= k <= NGROUPS_SMALL -> 2 <= NGROUPS_PER_BLOCK ->
  let n := to_int (to_uint (k + NGROUPS_PER_BLOCK - 1) / NGROUPS_PER_BLOCK) in
  1 <= (if n =? 0 then 1 else n) <= INT_MAX /\
  (0 <= k -> (if n =? 0 then 1 else n) = 1).
Proof.
  intros Hk Hpb. pose proof per_block_int as Hpi. pose proof small_in_block as Hsm.
  unfold INT_MAX in *. cbv zeta.
  destruct (Z.le_gt_cases 0 (k + NGROUPS_PER_BLOCK - 1)) as [Hpos|Hneg].
  - rewrite to_uint_id by (unfold UINT_MOD; lia).
    set (q := (k + NGROUPS_PER_BLOCK - 1) / NGROUPS_PER_BLOCK).
    assert (0 <= q <= 1) as Hq.
    { unfold q. split; [apply Z.div_pos; lia|].
      apply Z.lt_succ_r. apply Z.div_lt_upper_bound; lia. }
    rewrite to_int_id by (unfold INT_MAX; lia).
    destruct (Z.eqb_spec q 0); lia.
  - assert (to_uint (k + NGROUPS_PER_BLOCK - 1) = k + NGROUPS_PER_BLOCK - 1 + 4294967296)
      as ->.
    { unfold to_uint, UINT_MOD. symmetry.
      apply (Z.mod_unique_pos _ _ (- 1)); lia. }
    set (q := (k + NGROUPS_PER_BLOCK - 1 + 4294967296) / NGROUPS_PER_BLOCK).
    assert (1 <= q <= 2147483647) as Hq.
    { unfold q. split.
      - apply Z.div_le_lower_bound; lia.
      - apply Z.lt_succ_r. apply Z.div_lt_upper_bound; lia. }
    rewrite to_int_id by (unfold INT_MAX; lia).
    destruct (Z.eqb_spec q 0); lia.
Qed.

End AllocInline.

(** For a size the inline array can take groups_alloc asks for no page: it
    returns NULL with the heap as it was, or a fresh structure with reference
    count 1 whose first block is the inline array and which owns no page.  A
    negative size is such a size: it is not refused, and the structure
    returned carries it as its count. *)
Theorem groups_alloc_inline `{PlatformOk} (fuel : nat) (k : Z) (s : kstate) :
  - 2147483648 <= k <= NGROUPS_SMALL -> 2 <= NGROUPS_PER_BLOCK ->
  exists p s',
    groups_alloc fuel k s = Done (p, s') /\ same_process s s' /\
    k_pages s' = k_pages s /\
    ((p = 0 /\ k_objs s' = k_objs s) \/
     (p <> 0 /\ k_objs s !! p = None /\
      exists gi,
        k_objs s' = <[p := gi]> (k_objs s) /\
        usage gi = 1 /\ ngroups gi = k /\ 1 <= nblocks gi /\
        (0 <= k -> nblocks gi = 1) /\
        head (blocks gi) = Some InSmall /\ page_addrs gi = [])).
Proof.
  intros Hk Hpb.
  pose proof (nblocks_inline k Hk Hpb) as Hn. cbv zeta in Hn.
  unfold groups_alloc. cbv zeta.
  set (n := if to_int (to_uint (k + NGROUPS_PER_BLOCK - 1) / NGROUPS_PER_BLOCK) =? 0
            then 1
            else to_int (to_uint (k + NGROUPS_PER_BLOCK - 1) / NGROUPS_PER_BLOCK)) in *.
  destruct Hn as (Hn1 & Hn0).
  destruct (kmalloc_group_info_spec n s) as (p & s1 & Hk1 & Hpg1 & Hsp1 & Hcase).
  rewrite (kbind_done _ _ s p s1 Hk1).
  destruct Hcase as [[-> Ho1] | (Hp0 & Hfresh & Ho1)].
  { exists 0, s1. split; [reflexivity|]. split; [exact Hsp1|]. split; [exact Hpg1|].
    left. auto. }
  destruct (Z.eqb_spec p 0) as [|_]; [contradiction|].
  set (blank := mk_group_info 0 0 0 (replicate (Z.to_nat NGROUPS_SMALL) 0)
                  (replicate (Z.to_nat n) Unset)) in *.
  assert (k_objs s1 !! p = Some blank) as Hblank by (rewrite Ho1; apply lookup_insert_eq).
  rewrite (kbind_done _ _ s1 blank s1 (load_eq p blank s1 Hblank)).
  set (hdr := mk_group_info 1 k n (replicate (Z.to_nat NGROUPS_SMALL) 0)
                (replicate (Z.to_nat n) Unset)).
  set (s2 := set_objs (insert p hdr) s1).
  rewrite (kbind_done _ _ s1 tt s2 (store_eq p blank hdr s1 Hblank)).
  assert (k_objs s2 !! p = Some hdr) as Hhdr by apply lookup_insert_eq.
  destruct (Z.leb_spec k NGROUPS_SMALL) as [_|Hks]; [|lia].
  rewrite (kbind_done _ _ s2 tt _ (block_set_eq p hdr 0 InSmall s2 Hhdr
             ltac:(simpl; rewrite length_replicate; lia))).
  eexists p, _. split; [reflexivity|]. split; [exact Hsp1|]. split; [exact Hpg1|].
  right. split; [exact Hp0|]. split; [exact Hfresh|].
  eexists. split.
  { unfold s2. simpl. rewrite Ho1, !insert_insert_eq. reflexivity. }
  simpl. split; [reflexivity|]. split; [reflexivity|]. split; [lia|].
  split; [exact Hn0|].
  destruct (Z.to_nat n) as [|m] eqn:Hm; [lia|]. simpl.
  split; [reflexivity|]. unfold page_addrs. simpl. apply block_addrs_unset.
Qed.

Lemma groups_alloc_inline_witness :
  (- 2147483648 <= - 1 <= @NGROUPS_SMALL linux_platform /\
   2 <= @NGROUPS_PER_BLOCK linux_platform) /\
  exists p s' gi,
    @groups_alloc linux_platform 0 (- 1) demo_state = Done (p, s') /\
    p <> 0 /\ k_objs s' !! p = Some gi /\ ngroups gi = - 1 /\ nblocks gi = 1 /\
    k_pages s' = k_pages demo_state.
Proof.
  assert (- 2147483648 <= - 1 <= @NGROUPS_SMALL linux_platform) as H1 by (simpl; lia).
  assert (2 <= @NGROUPS_PER_BLOCK linux_platform) as H2 by (simpl; lia).
  split; [split; assumption|].
  destruct (@groups_alloc_inline linux_platform linux_platform_ok 0 (- 1) demo_state H1 H2)
    as (p & s' & Hrun & _ & Hpg & Hcase).
  destruct Hcase as [(-> & _) | (Hp0 & _ & gi & Ho & _ & Hn & _ & _ & _ & _)].
  - exfalso. vm_compute in Hrun. discriminate Hrun.
  - assert (k_objs s' !! p = Some gi) as Hl by (rewrite Ho; apply lookup_insert_eq).
    exists p, s', gi. split; [exact Hrun|]. split; [exact Hp0|].
    split; [exact Hl|]. split; [exact Hn|]. split; [|exact Hpg].
    clear Ho Hpg Hn Hp0. vm_compute in Hrun. injection Hrun as Hp Hs. subst p s'.
    vm_compute in Hl. injection Hl as <-. reflexivity.
Defined.

(** ** groups_free and set_groups_sorted at the last reference *)

(** groups_free gives back exactly the pages the structure owns and the
    structure itself, and nothing else of the state changes; a structure on
    its inline block gives back no page. *)
Theorem groups_free_exact `{PlatformOk} (fuel : nat) (p : Z) (g : group_info) (s : kstate) :
  k_objs s !! p = Some g -> group_info_wf g -> pages_live s g ->
  (Z.to_nat (nblocks g) < fuel)%nat ->
  exists s',
    groups_free fuel p s = Done (tt, s') /\ heap_only s s' /\
    k_objs s' = delete p (k_objs s) /\
    k_pages s' = k_pages s ∖ list_to_set (page_addrs g) /\
    (blocks g = [InSmall] -> k_pages s' = k_pages s).
Proof.
  intros Hg Hwf Hlive Hfuel.
  eexists. split; [apply (groups_free_spec fuel p g s Hg Hwf Hlive Hfuel)|].
  split; [repeat split|]. split; [reflexivity|]. split; [reflexivity|].
  intros Hsmall. simpl. unfold page_addrs. rewrite Hsmall. simpl. set_solver.
Qed.

Lemma groups_free_exact_witness :
  let g := @group_info_of tiny_platform 1 [10; 20; 30; 40; 50] in
  let s := set_pages (fun _ => {[1; 2; 9]}) (set_objs (insert 32 g) demo_state) in
  (k_objs s !! 32 = Some g /\ @group_info_wf tiny_platform g /\ pages_live s g /\
   (Z.to_nat (nblocks g) < 3)%nat) /\
  exists s', groups_free 3 32 s = Done (tt, s') /\
             k_objs s' = k_objs demo_state /\ k_pages s' = {[9]}.
Proof.
  intros g s.
  assert (k_objs s !! 32 = Some g) as H1 by reflexivity.
  assert (@group_info_wf tiny_platform g) as H2 by concrete_wf.
  assert (pages_live s g) as H3.
  { split.
    - vm_compute. repeat constructor; set_solver.
    - intros a Ha. change (page_addrs g) with [1; 2] in Ha.
      change (k_pages s) with ({[1; 2; 9]} : gset Z). set_solver. }
  assert (Z.to_nat (nblocks g) < 3)%nat as H4 by (vm_compute; lia).
  split; [repeat (split; [assumption|]); assumption|].
  destruct (@groups_free_exact tiny_platform tiny_platform_ok 3 32 g s H1 H2 H3 H4)
    as (s' & Hrun & _ & Ho & Hpg & _).
  exists s'. split; [exact Hrun|]. split.
  - rewrite Ho. apply map_eq. intros q. destruct (decide (q = 32)) as [->|Hq].
    + rewrite lookup_delete_eq. reflexivity.
    + rewrite lookup_delete_ne by auto. simpl. now rewrite lookup_insert_ne by auto.
  - rewrite Hpg. change (page_addrs g) with [1; 2].
    change (k_pages s) with ({[1; 2; 9]} : gset Z). set_solver.
Defined.

(** set_groups_sorted drops the draft's reference to its old set before it
    takes one to the new set.  Handed the very set the draft holds, when the
    draft's reference is the only one, it therefore frees the set and then
    reaches into the freed structure. *)
Theorem set_groups_sorted_last_reference `{PlatformOk}
    (fuel : nat) (new : cred) (p : Z) (s : kstate) (g : group_info) :
  cred_group_info new = p -> k_objs s !! p = Some g -> usage g = 1 ->
  group_info_wf g -> pages_live s g -> (Z.to_nat (nblocks g) < fuel)%nat ->
  set_groups_sorted fuel new p s = Fault.
Proof.
  intros Hnew Hg Hu Hwf Hlive Hfuel. unfold set_groups_sorted. rewrite Hnew.
  rewrite (kbind_done _ _ s tt _ (put_group_info_last fuel p g s Hg Hu Hwf Hlive Hfuel)).
  unfold get_group_info, kbind, load. simpl. now rewrite lookup_delete_eq.
Qed.

Lemma set_groups_sorted_last_reference_witness :
  let g := @group_info_of linux_platform 1 [100; 200; 300] in
  (cred_group_info (k_cred demo_state) = 16 /\ k_objs demo_state !! 16 = Some g /\
   usage g = 1 /\ @group_info_wf linux_platform g /\ pages_live demo_state g /\
   (Z.to_nat (nblocks g) < 2)%nat) /\
  set_groups_sorted 2 (k_cred demo_state) 16 demo_state = Fault.
Proof.
  intros g.
  assert (cred_group_info (k_cred demo_state) = 16) as H1 by reflexivity.
  assert (k_objs demo_state !! 16 = Some g) as H2 by reflexivity.
  assert (usage g = 1) as H3 by reflexivity.
  assert (@group_info_wf linux_platform g) as H4 by concrete_wf.
  assert (pages_live demo_state g) as H5.
  { split; [constructor | intros a Ha; inversion Ha]. }
  assert (Z.to_nat (nblocks g) < 2)%nat as H6 by (vm_compute; lia).
  split; [repeat (split; [assumption|]); assumption|].
  exact (@set_groups_sorted_last_reference linux_platform linux_platform_ok 2
           (k_cred demo_state) 16 demo_state g H1 H2 H3 H4 H5 H6).
Defined.

(** ** Transfers that stop half-way *)

Section PartialTransfers.
Context `{PlatformOk}.

Lemma set_user_id s : set_user (fun um => um) s = s.
Proof. destruct s; reflexivity. Qed.

Lemma gids_lookup_nat gi (k : nat) :
  (k < Z.to_nat (ngroups gi))%nat -> gids gi !! k = Some (cell_of gi (Z.of_nat k)).
Proof.
  intros Hk. pose proof (gids_lookup gi (Z.of_nat k) ltac:(lia)) as Hl.
  now rewrite Nat2Z.id in Hl.
Qed.

(** The destination cells before [j] are mapped and the one at [j] is not:
    the identifiers before [j] are written, then the transfer fails. *)
Lemma to_user_loop_prefix grouplist gi j : forall fuel i s,
  group_info_wf gi -> 0 <= i <= j -> j < ngroups gi ->
  (Z.to_nat (ngroups gi - i) < fuel)%nat ->
  (forall m, i <= m < j -> is_Some (k_user s !! (grouplist + m))) ->
  k_user s !! (grouplist + j) = None ->
  to_user_loop fuel grouplist gi (ngroups gi) i s =
  Done (- EFAULT,
        set_user (store_gids (grouplist + i)
                    (map from_kgid_munged
                       (take (Z.to_nat (j - i)) (drop (Z.to_nat i) (gids gi))))) s).
Proof.
  induction fuel as [|fuel IH]; intros i s Hwf Hi Hj Hfuel Hmapped Hnone; [lia|].
  pose proof (wf_count _ Hwf) as Hc. unfold INT_MAX in Hc.
  simpl. rewrite to_uint_id by (unfold UINT_MOD; lia).
  destruct (Z.ltb_spec i (ngroups gi)) as [Hlt|Hge]; [|lia].
  rewrite (kbind_done _ _ s (cell_of gi i) s).
  2:{ unfold lift. rewrite (GROUP_AT_cell gi i Hwf) by lia. reflexivity. }
  destruct (Z.eq_dec i j) as [->|Hij].
  - rewrite (kbind_done _ _ s true s (put_user_unmapped _ _ s Hnone)).
    replace (j - j) with 0 by lia. simpl. unfold kret.
    f_equal. f_equal. symmetry. apply set_user_id.
  - rewrite (kbind_done _ _ s false _
               (put_user_mapped _ _ s (Hmapped i ltac:(lia)))).
    rewrite to_int_id by (unfold INT_MAX; lia).
    rewrite IH; try assumption; try lia.
    + rewrite (gids_drop gi i) by lia.
      replace (Z.to_nat (j - i)) with (S (Z.to_nat (j - (i + 1)))) by lia. simpl.
      replace (grouplist + (i + 1)) with (grouplist + i + 1) by lia. reflexivity.
    + intros m Hm. simpl. rewrite lookup_insert_ne by lia. apply Hmapped. lia.
    + simpl. rewrite lookup_insert_ne by lia. exact Hnone.
Qed.

(** The source cells from [i] up to [j] are readable and valid and the one
    at [j] is not: the identifiers before [j] are stored, and the error tells
    an unreadable cell from an invalid value. *)
Lemma from_user_loop_first_error p grouplist j : forall fuel i s g,
  k_objs s !! p = Some g -> group_info_wf g -> 0 <= i <= j -> j < ngroups g ->
  (Z.to_nat (ngroups g - i) < fuel)%nat ->
  (forall m, i <= m < j ->
     exists v, k_user s !! (grouplist + m) = Some v /\ gid_valid (make_kgid v) = true) ->
  (forall v, k_user s !! (grouplist + j) = Some v -> gid_valid (make_kgid v) = false) ->
  exists g',
    from_user_loop fuel p grouplist (ngroups g) i s =
      Done (match k_user s !! (grouplist + j) with
            | None => - EFAULT
            | Some _ => - EINVAL
            end, set_objs (insert p g') s) /\
    group_info_wf g' /\ same_frame g g' /\
    forall m, 0 <= m < ngroups g ->
      cell_of g' m =
      if (i <=? m) && (m <? j)
      then make_kgid (default 0 (k_user s !! (grouplist + m)))
      else cell_of g m.
Proof.
  induction fuel as [|fuel IH]; intros i s g Hg Hwf Hi Hj Hfuel Hgood Hbad; [lia|].
  pose proof (wf_count _ Hwf) as Hc. unfold INT_MAX in Hc.
  assert (set_objs (insert p g) s = s) as Hsame.
  { apply set_objs_id. now apply insert_id. }
  simpl. rewrite to_uint_id by (unfold UINT_MOD; lia).
  destruct (Z.ltb_spec i (ngroups g)) as [Hlt|Hge]; [|lia].
  rewrite (kbind_done _ _ s (k_user s !! (grouplist + i)) s eq_refl).
  destruct (Z.eq_dec i j) as [->|Hij].
  - exists g. rewrite Hsame. split.
    + destruct (k_user s !! (grouplist + j)) as [v|] eqn:Hcell; [|reflexivity].
      now rewrite (Hbad v eq_refl).
    + split; [exact Hwf|]. split; [apply same_frame_refl|]. intros m Hm.
      destruct (Z.leb_spec j m); destruct (Z.ltb_spec m j); simpl; try reflexivity; lia.
  - destruct (Hgood i ltac:(lia)) as (v & Hcell & Hvalid).
    rewrite Hcell, Hvalid. simpl.
    rewrite (kbind_done _ _ s g s (load_eq p g s Hg)).
    destruct (GROUP_AT_set_full g i (make_kgid v) Hwf ltac:(lia))
      as (g1 & Hset & Hwf1 & Hfr1 & _ & Hc1).
    rewrite (kbind_done _ _ s g1 s); [|unfold lift; now rewrite Hset].
    rewrite (kbind_done _ _ s tt _ (store_eq p g g1 s Hg)).
    rewrite to_int_id by (unfold INT_MAX; lia).
    pose proof Hfr1 as (_ & Hn1 & _).
    set (s1 := set_objs (insert p g1) s).
    destruct (IH (i + 1) s1 g1) as (g' & Hrun & Hwf' & Hfr' & Hcells);
      try assumption; try lia; try (rewrite Hn1; lia).
    { apply lookup_insert_eq. }
    { intros m Hm. apply Hgood. lia. }
    rewrite Hn1 in Hrun, Hcells.
    exists g'. split.
    { rewrite Hrun. f_equal. f_equal. unfold s1, set_objs. simpl.
      now rewrite insert_insert_eq. }
    split; [exact Hwf'|]. split; [eapply same_frame_trans; eassumption|].
    intros m Hm. rewrite (Hcells m Hm). rewrite Hc1 by lia. simpl.
    destruct (Z.eq_dec m i) as [->|Hmi].
    + rewrite Z.eqb_refl, Hcell. simpl.
      destruct (Z.leb_spec (i + 1) i); [lia|].
      destruct (Z.leb_spec i i); [|lia].
      destruct (Z.ltb_spec i j); [reflexivity | lia].
    + destruct (Z.eqb_spec m i); [contradiction|].
      destruct (Z.leb_spec (i + 1) m); destruct (Z.leb_spec i m); try lia; reflexivity.
Qed.

End PartialTransfers.

(** A failing getgroups is not all-or-nothing: when the first destination
    cell that cannot be written is the one at index [j], the call returns
    -EFAULT after it has written the first [j] identifiers, and nothing but
    these cells of user memory has changed. *)
Theorem sys_getgroups_fault_prefix `{PlatformOk}
    (fuel : nat) (n grouplist j : Z) (s : kstate) (gi : group_info) :
  k_objs s !! cred_group_info (k_cred s) = Some gi -> group_info_wf gi ->
  (Z.to_nat (ngroups gi) < fuel)%nat ->
  0 < n -> ngroups gi <= n -> 0 <= j < ngroups gi ->
  (forall m, 0 <= m < j -> is_Some (k_user s !! (grouplist + m))) ->
  k_user s !! (grouplist + j) = None ->
  sys_getgroups fuel n grouplist s =
    Done (- EFAULT,
          set_user (store_gids grouplist
                      (map from_kgid_munged (take (Z.to_nat j) (gids gi)))) s).
Proof.
  intros Hgi Hwf Hfuel Hpos Hroom Hj Hmapped Hnone.
  pose proof (wf_count _ Hwf) as Hc.
  pose proof (groups_to_user_run fuel grouplist _ gi s Hgi Hwf) as Hrun.
  unfold sys_getgroups.
  rewrite (kbind_done _ _ s (k_cred s) s eq_refl).
  destruct (Z.ltb_spec n 0); [lia|].
  rewrite (kbind_done _ _ s gi s (load_eq _ gi s Hgi)).
  destruct (Z.eqb_spec n 0); [lia|]. simpl.
  destruct (Z.ltb_spec n (ngroups gi)); [lia|].
  rewrite (kbind_done _ _ s (- EFAULT)
             (set_user (store_gids grouplist
                          (map from_kgid_munged (take (Z.to_nat j) (gids gi)))) s)).
  - reflexivity.
  - rewrite Hrun, (to_user_loop_prefix grouplist gi j fuel 0 s Hwf); try lia.
    + now rewrite Z.add_0_r, Z.sub_0_r.
    + intros m Hm. apply Hmapped. lia.
    + exact Hnone.
Qed.

Lemma sys_getgroups_fault_prefix_witness :
  let gi := @group_info_of linux_platform 1 [100; 200; 300] in
  (k_objs demo_state !! cred_group_info (k_cred demo_state) = Some gi /\
   @group_info_wf linux_platform gi /\ (Z.to_nat (ngroups gi) < 4)%nat /\
   0 < 3 /\ ngroups gi <= 3 /\ 0 <= 2 < ngroups gi /\
   (forall m, 0 <= m < 2 -> is_Some (k_user demo_state !! (66 + m))) /\
   k_user demo_state !! (66 + 2) = None) /\
  exists s', @sys_getgroups linux_platform 4 3 66 demo_state = Done (- EFAULT, s') /\
             k_user s' !! 66 = Some 100 /\ k_user s' !! 67 = Some 200.
Proof.
  intros gi.
  assert (k_objs demo_state !! cred_group_info (k_cred demo_state) = Some gi) as H1
    by reflexivity.
  assert (@group_info_wf linux_platform gi) as H2 by concrete_wf.
  assert (Z.to_nat (ngroups gi) < 4)%nat as H3 by (vm_compute; lia).
  assert (0 < 3) as H4 by lia.
  assert (ngroups gi <= 3) as H5 by (change (ngroups gi) with 3; lia).
  assert (0 <= 2 < ngroups gi) as H6 by (change (ngroups gi) with 3; lia).
  assert (forall m, 0 <= m < 2 -> is_Some (k_user demo_state !! (66 + m))) as H7.
  { intros m Hm. assert (m = 0 \/ m = 1) as [-> | ->] by lia; vm_compute; eauto. }
  assert (k_user demo_state !! (66 + 2) = None) as H8 by reflexivity.
  split; [repeat (split; [assumption|]); assumption|].
  eexists. split.
  - exact (@sys_getgroups_fault_prefix linux_platform linux_platform_ok 4 3 66 2
             demo_state gi H1 H2 H3 H4 H5 H6 H7 H8).
  - split; vm_compute; reflexivity.
Defined.

(** groups_from_user stops at the first source cell it cannot use, with
    -EFAULT when that cell cannot be read and -EINVAL when its value maps to
    no valid identifier.  By then it has stored the identifiers before that
    cell in the structure; the later slots keep what they held. *)
Theorem groups_from_user_first_error `{PlatformOk}
    (fuel : nat) (p grouplist j : Z) (s : kstate) (g : group_info) :
  k_objs s !! p = Some g -> group_info_wf g -> (Z.to_nat (ngroups g) < fuel)%nat ->
  0 <= j < ngroups g ->
  (forall m, 0 <= m < j ->
     exists v, k_user s !! (grouplist + m) = Some v /\ gid_valid (make_kgid v) = true) ->
  (forall v, k_user s !! (grouplist + j) = Some v -> gid_valid (make_kgid v) = false) ->
  exists g',
    groups_from_user fuel p grouplist s =
      Done (match k_user s !! (grouplist + j) with
            | None => - EFAULT
            | Some _ => - EINVAL
            end, set_objs (insert p g') s) /\
    same_frame g g' /\
    take (Z.to_nat j) (gids g') = take (Z.to_nat j) (imported s grouplist (ngroups g)) /\
    drop (Z.to_nat j) (gids g') = drop (Z.to_nat j) (gids g).
Proof.
  intros Hg Hwf Hfuel Hj Hgood Hbad. pose proof (wf_count _ Hwf) as Hc.
  destruct (from_user_loop_first_error p grouplist j fuel 0 s g Hg Hwf)
    as (g' & Hrun & Hwf' & Hfr & Hcells); try assumption; try lia.
  pose proof Hfr as (_ & Hn & _).
  exists g'. split.
  { unfold groups_from_user. rewrite (kbind_done _ _ s g s (load_eq p g s Hg)).
    rewrite to_uint_int by exact Hc. exact Hrun. }
  split; [exact Hfr|]. split.
  - apply list_eq. intros k. rewrite !lookup_take.
    destruct (decide (k < Z.to_nat j)%nat) as [Hk|Hk]; [|reflexivity].
    rewrite (gids_lookup_nat g' k) by (rewrite Hn; lia).
    unfold imported. rewrite list_lookup_fmap.
    rewrite (lookup_seqZ_lt 0 (ngroups g) k) by lia. simpl.
    rewrite (Hcells (Z.of_nat k)) by lia.
    destruct (Z.leb_spec 0 (Z.of_nat k)); [|lia].
    destruct (Z.ltb_spec (Z.of_nat k) j); [|lia]. simpl.
    now rewrite Z.add_0_l.
  - apply list_eq. intros k. rewrite !lookup_drop.
    destruct (decide (Z.to_nat j + k < Z.to_nat (ngroups g))%nat) as [Hk|Hk].
    + rewrite (gids_lookup_nat g' _) by (rewrite Hn; lia).
      rewrite (gids_lookup_nat g _) by lia.
      rewrite (Hcells (Z.of_nat (Z.to_nat j + k))) by lia.
      destruct (Z.ltb_spec (Z.of_nat (Z.to_nat j + k)) j); [lia|].
      now rewrite andb_false_r.
    + rewrite !lookup_ge_None_2; [reflexivity | |]; rewrite gids_length; lia.
Qed.

Lemma groups_from_user_first_error_witness :
  let g := @group_info_of linux_platform 1 [7; 8; 9] in
  let s := set_objs (insert 32 g) demo_capable_state in
  (k_objs s !! 32 = Some g /\ @group_info_wf linux_platform g /\
   (Z.to_nat (ngroups g) < 4)%nat /\ 0 <= 2 < ngroups g /\
   (forall m, 0 <= m < 2 ->
      exists v, k_user s !! (64 + m) = Some v /\
                @gid_valid linux_platform (@make_kgid linux_platform v) = true) /\
   (forall v, k_user s !! (64 + 2) = Some v ->
      @gid_valid linux_platform (@make_kgid linux_platform v) = false)) /\
  exists g',
    @groups_from_user linux_platform 4 32 64 s = Done (- EINVAL, set_objs (insert 32 g') s) /\
    @gids linux_platform g' = [400; 100; 9].
Proof.
  intros g s.
  assert (k_objs s !! 32 = Some g) as H1 by reflexivity.
  assert (@group_info_wf linux_platform g) as H2 by concrete_wf.
  assert (Z.to_nat (ngroups g) < 4)%nat as H3 by (vm_compute; lia).
  assert (0 <= 2 < ngroups g) as H4 by (change (ngroups g) with 3; lia).
  assert (forall m, 0 <= m < 2 ->
            exists v, k_user s !! (64 + m) = Some v /\
                      @gid_valid linux_platform (@make_kgid linux_platform v) = true) as H5.
  { intros m Hm. assert (m = 0 \/ m = 1) as [-> | ->] by lia;
      eexists; split; vm_compute; reflexivity. }
  assert (forall v, k_user s !! (64 + 2) = Some v ->
            @gid_valid linux_platform (@make_kgid linux_platform v) = false) as H6.
  { intros v Hv. vm_compute in Hv. injection Hv as <-. reflexivity. }
  split; [repeat (split; [assumption|]); assumption|].
  destruct (@groups_from_user_first_error linux_platform linux_platform_ok 4 32 64 2 s g
              H1 H2 H3 H4 H5 H6) as (g' & Hrun & _ & Htake & Hdrop).
  exists g'. split; [exact Hrun|].
  rewrite <- (take_drop 2 (@gids linux_platform g')).
  change (Z.to_nat 2) with 2%nat in Htake, Hdrop. rewrite Htake, Hdrop.
  vm_compute. reflexivity.
Defined.

(** ** The two membership queries side by side *)

(** in_group_p and in_egroup_p run the same search and differ in two points
    only: the identifier each compares first (fsgid, egid) and the coredump
    exception, which in_egroup_p does not have.  So for credentials whose
    fsgid and egid coincide the two agree on every identifier, except on 1015
    and 1028 in the coredump task. *)
Theorem membership_queries_agree `{Platform} (fuel : nat) (grp : Z) (s : kstate) :
  fsgid (k_cred s) = egid (k_cred s) ->
  k_dumpTsk s <> k_current s \/ (grp <> AID_SDCARD_RW /\ grp <> AID_SDCARD_R) ->
  in_group_p fuel grp s = in_egroup_p fuel grp s.
Proof.
  intros Hsame Hnormal. rewrite (in_group_p_normal fuel grp s Hnormal).
  unfold in_egroup_p. rewrite (kbind_done _ _ s (k_cred s) s eq_refl).
  rewrite Hsame. destruct (gid_eq grp (egid (k_cred s))); reflexivity.
Qed.

Lemma membership_queries_agree_witness :
  (fsgid (k_cred demo_dump_state) = egid (k_cred demo_dump_state) /\
   (k_dumpTsk demo_dump_state <> k_current demo_dump_state \/
    (200 <> AID_SDCARD_RW /\ 200 <> AID_SDCARD_R))) /\
  @in_group_p linux_platform 4 200 demo_dump_state = Done (1, demo_dump_state) /\
  @in_egroup_p linux_platform 4 200 demo_dump_state = Done (1, demo_dump_state) /\
  @in_group_p linux_platform 4 1015 demo_dump_state = Done (1, demo_dump_state) /\
  @in_egroup_p linux_platform 4 1015 demo_dump_state = Done (0, demo_dump_state).
Proof.
  assert (fsgid (k_cred demo_dump_state) = egid (k_cred demo_dump_state)) as H1
    by reflexivity.
  assert (k_dumpTsk demo_dump_state <> k_current demo_dump_state \/
          (200 <> AID_SDCARD_RW /\ 200 <> AID_SDCARD_R)) as H2.
  { right. split; discriminate. }
  split; [split; assumption|].
  pose proof (@membership_queries_agree linux_platform 4 200 demo_dump_state H1 H2) as Heq.
  split; [rewrite Heq; vm_compute; reflexivity|].
  split; [vm_compute; reflexivity|]. split; vm_compute; reflexivity.
Defined.

(** in_egroup_p never changes the state, and on credentials with a sorted
    group set it answers 1 exactly for the egid and for the identifiers of the
    set, in the coredump task as in any other. *)
Theorem in_egroup_p_members `{PlatformOk}
    (fuel : nat) (grp : Z) (s : kstate) (gi : group_info) :
  cred_group_info (k_cred s) <> 0 ->
  k_objs s !! cred_group_info (k_cred s) = Some gi ->
  group_info_wf gi -> Sorted Z.le (gids gi) -> (Z.to_nat (ngroups gi) < fuel)%nat ->
  in_egroup_p fuel grp s =
    Done (if bool_decide (grp = egid (k_cred s) \/ grp ∈ gids gi) then 1 else 0, s).
Proof.
  intros Hp Hgi Hwf Hs Hfuel.
  destruct (Z.eq_dec grp (egid (k_cred s))) as [Heq|Hne].
  - rewrite (in_egroup_p_fast fuel grp s Heq).
    rewrite bool_decide_eq_true_2 by now left. reflexivity.
  - rewrite (in_egroup_p_search fuel grp s (Some gi) Hne (load_opt_some _ gi s Hp Hgi)).
    rewrite (groups_search_member fuel gi grp Hwf Hs Hfuel). unfold lift.
    assert (bool_decide (grp ∈ gids gi) =
            bool_decide (grp = egid (k_cred s) \/ grp ∈ gids gi)) as ->
      by (apply bool_decide_ext; tauto).
    reflexivity.
Qed.

Lemma in_egroup_p_members_witness :
  let gi := @group_info_of linux_platform 1 [100; 200; 300] in
  (cred_group_info (k_cred demo_dump_state) <> 0 /\
   k_objs demo_dump_state !! cred_group_info (k_cred demo_dump_state) = Some gi /\
   @group_info_wf linux_platform gi /\ Sorted Z.le (@gids linux_platform gi) /\
   (Z.to_nat (ngroups gi) < 4)%nat) /\
  @in_egroup_p linux_platform 4 1028 demo_dump_state = Done (0, demo_dump_state).
Proof.
  intros gi.
  assert (cred_group_info (k_cred demo_dump_state) <> 0) as H1 by discriminate.
  assert (k_objs demo_dump_state !! cred_group_info (k_cred demo_dump_state) = Some gi)
    as H2 by reflexivity.
  assert (@group_info_wf linux_platform gi) as H3 by concrete_wf.
  assert (Sorted Z.le (@gids linux_platform gi)) as H4.
  { vm_compute. repeat constructor; discriminate. }
  assert (Z.to_nat (ngroups gi) < 4)%nat as H5 by (vm_compute; lia).
  split; [repeat (split; [assumption|]); assumption|].
  rewrite (@in_egroup_p_members linux_platform linux_platform_ok 4 1028 demo_dump_state gi
             H1 H2 H3 H4 H5).
  rewrite bool_decide_eq_false_2; [reflexivity|].
  change (@gids linux_platform gi) with [100; 200; 300].
  change (egid (k_cred demo_dump_state)) with 1000.
  intros [Heq | Hin]; [discriminate Heq|]. set_solver.
Defined.

(** ** init_groups *)

(** init_groups has no block at all, and none of the code needs one: it
    holds no identifier for groups_search, groups_sort leaves it as it is, is_subset
    finds it included in every set, and for a task whose credentials hold it
    getgroups reports 0 identifiers and writes nothing, whatever the buffer.
    Its initial count of 2 keeps it alive when its one holder lets go. *)
Theorem init_groups_is_empty `{Platform}
    (fuel : nat) (grp n grouplist p : Z) (g2 : group_info) (s : kstate) :
  (0 < fuel)%nat ->
  groups_search fuel (Some init_groups) grp = Done 0 /\
  groups_sort fuel init_groups = Done init_groups /\
  is_subset fuel init_groups g2 = Done true /\
  (k_objs s !! cred_group_info (k_cred s) = Some init_groups -> 0 <= n ->
   sys_getgroups fuel n grouplist s = Done (0, s)) /\
  (k_objs s !! p = Some init_groups ->
   put_group_info fuel p s = Done (tt, set_objs (insert p (with_usage 1 init_groups)) s)).
Proof.
  intros Hfuel. destruct fuel as [|fuel]; [lia|].
  split; [reflexivity|]. split; [reflexivity|]. split; [reflexivity|]. split.
  - intros Hgi Hn. unfold sys_getgroups.
    rewrite (kbind_done _ _ s (k_cred s) s eq_refl).
    destruct (Z.ltb_spec n 0); [lia|].
    rewrite (kbind_done _ _ s _ s (load_eq _ _ s Hgi)).
    destruct (n =? 0); [reflexivity|]. simpl.
    destruct (Z.ltb_spec n 0); [lia|].
    rewrite (kbind_done _ _ s 0 s); [reflexivity|].
    unfold groups_to_user.
    rewrite (kbind_done _ _ s _ s (load_eq _ _ s Hgi)). reflexivity.
  - intros Hp. unfold put_group_info.
    rewrite (kbind_done _ _ s _ s (load_eq _ _ s Hp)). cbv zeta.
    rewrite (kbind_done _ _ s tt _ (store_eq p _ _ s Hp)). reflexivity.
Qed.

Lemma init_groups_is_empty_witness :
  let s := set_objs (insert 16 (@init_groups linux_platform)) demo_state in
  (0 < 1)%nat /\
  @sys_getgroups linux_platform 1 5 63 s = Done (0, s) /\
  @groups_search linux_platform 1 (Some (@init_groups linux_platform)) 0 = Done 0.
Proof.
  intros s. assert (0 < 1)%nat as H1 by lia. split; [exact H1|].
  destruct (@init_groups_is_empty linux_platform 1 0 5 63 16 (@init_groups linux_platform) s H1)
    as (Hsearch & _ & _ & Hget & _).
  split; [apply Hget; [reflexivity | lia] | exact Hsearch].
Defined.



(** ** setgroups followed by the queries *)

Section SetGroupsRun.
Context `{PlatformOk}.

Lemma with_usage_wf u g : group_info_wf g -> group_info_wf (with_usage u g).
Proof. intros [Hc Hn Hb Hl]. constructor; assumption. Qed.

(** What setgroups does once the structure is allocated and filled, with
    the structure it leaves in the credentials told apart: it is well formed,
    sorted, and holds the identifiers that were imported. *)
Lemma setgroups_installed fuel p s s2 g go :
  k_setgid s2 = true ->
  k_objs s !! p = None -> k_objs s2 = <[p := g]> (k_objs s) ->
  k_pages s2 = k_pages s ∪ list_to_set (page_addrs g) ->
  same_process s s2 ->
  usage g = 1 -> group_info_wf g -> ngroups g <= SORT_MAX ->
  NoDup (page_addrs g) -> (forall a, a ∈ page_addrs g -> a ∉ k_pages s) ->
  (Z.to_nat (ngroups g) < fuel)%nat -> (Z.to_nat (nblocks g) < fuel)%nat ->
  k_objs s !! cred_group_info (k_cred s) = Some go -> group_info_wf go ->
  releasable fuel s go -> usage go < INT_MAX -> (Z.to_nat (ngroups go) < fuel)%nat ->
  exists r s',
    kbind (set_current_groups fuel p)
      (fun retval => kbind (put_group_info fuel p) (fun _ => kret retval)) s2 = Done (r, s') /\
    k_user s' = k_user s /\ k_setgid s' = k_setgid s /\
    k_current s' = k_current s /\ k_dumpTsk s' = k_dumpTsk s /\
    ((r = - ENOMEM /\ k_cred s' = k_cred s /\ k_objs s' = k_objs s) \/
     (r = 0 /\
      exists gi',
        k_cred s' = mk_cred (gid (k_cred s)) (egid (k_cred s)) (fsgid (k_cred s)) p /\
        k_objs s' !! p = Some gi' /\ group_info_wf gi' /\
        usage gi' = 1 /\ ngroups gi' = ngroups g /\
        Sorted Z.le (gids gi') /\ Permutation (gids gi') (gids g))).
Proof.
  intros Hcap Hfresh Ho2 Hpg2 (Hus2 & Hcr2 & Hsg2 & Hcu2 & Hdu2)
         Hu Hwf Hmax Hnd Hnew Hfuel Hfuelb Hold Hwfo Hrel Huo Hfuelo.
  set (oldp := cred_group_info (k_cred s)) in *.
  assert (oldp <> p) as Hne by (intros Heq; rewrite Heq in Hold; congruence).
  assert (k_objs s2 !! p = Some g) as Hp2 by (rewrite Ho2; apply lookup_insert_eq).
  destruct (groups_sort_spec fuel g Hwf Hmax Hfuel) as (gs & Hsort & Hwfs & Hfrs & Hss & Hperm).
  pose proof Hfrs as (Hus & Hns & Hnbs & _).
  pose proof (same_frame_pages _ _ Hfrs) as Hpas.
  destruct (bool_decide (hd true (k_plan s2) = true)) eqn:Hplan.
  - apply bool_decide_eq_true in Hplan.
    assert (1 <= usage g < INT_MAX) as Hu2 by (rewrite Hu; unfold INT_MAX; lia).
    assert (k_objs s2 !! cred_group_info (k_cred s2) = Some go) as Hold2.
    { rewrite Hcr2, Ho2. fold oldp. rewrite lookup_insert_ne by auto. exact Hold. }
    assert (releasable fuel s2 go) as Hrel2.
    { apply (releasable_more_pages fuel s); [|exact Hrel].
      intros a Ha. rewrite Hpg2. set_solver. }
    destruct (set_current_groups_with_draft fuel p s2 g go
                Hp2 Hwf Hmax Hfuel Hu2 Hold2 Hwfo Hfuelo Hrel2 Huo Hplan) as
      (gs' & sub & Hsort' & _ & _ & _ & Hgate).
    assert (gs' = gs) as -> by congruence.
    rewrite Hcap in Hgate. simpl in Hgate.
    destruct Hgate as (s3 & Hrun & Hcr3 & Hobs & Hpl3 & Hus3 & Hsg3 & Hcu3 & Hdu3).
    rewrite Hcr2 in Hobs, Hcr3. fold oldp in Hobs. rewrite decide_False in Hobs by exact Hne.
    destruct Hobs as [Ho3 Hpg3].
    rewrite (kbind_done _ _ s2 0 s3 Hrun).
    assert (k_objs s3 !! p = Some (with_usage (usage g + 1) gs)) as Hp3
      by (rewrite Ho3; apply lookup_insert_eq).
    rewrite (kbind_done _ _ s3 tt _
               (put_group_info_keep fuel p _ s3 Hp3 ltac:(simpl; unfold INT_MAX; lia))).
    eexists 0, _. split; [reflexivity|].
    split; [simpl; congruence|]. split; [simpl; congruence|].
    split; [simpl; congruence|]. split; [simpl; congruence|]. right.
    split; [reflexivity|]. exists (with_usage 1 gs).
    split; [exact Hcr3|]. split.
    { simpl. rewrite lookup_insert_eq. rewrite Hu. reflexivity. }
    split; [apply with_usage_wf, Hwfs|]. split; [reflexivity|].
    split; [exact Hns|]. split; [exact Hss | exact Hperm].
  - apply bool_decide_eq_false in Hplan.
    assert (hd true (k_plan s2) = false) as Hno by (destruct (hd true (k_plan s2)); congruence).
    destruct (set_current_groups_no_draft fuel p s2 g Hp2 Hwf Hmax Hfuel Hno)
      as (gs' & Hsort' & Hrun).
    assert (gs' = gs) as -> by congruence.
    rewrite (kbind_done _ _ s2 _ _ Hrun).
    destruct (put_after_alloc fuel p gs s (set_plan (tail (k_plan s2)) (set_objs (insert p gs) s2)))
      as (s4 & Hput & (Hus4 & Hcr4 & Hsg4 & Hcu4 & Hdu4) & _ & Ho4 & Hpg4); try assumption.
    { simpl. rewrite Ho2. apply insert_insert_eq. }
    { congruence. }
    { now rewrite Hpas. }
    { intros a Ha. rewrite Hpas in Ha. now apply Hnew. }
    { simpl. now rewrite Hpas. }
    { now rewrite Hnbs. }
    rewrite (kbind_done _ _ _ tt s4 Hput).
    exists (- ENOMEM), s4. split; [reflexivity|].
    split; [rewrite Hus4; exact Hus2|]. split; [rewrite Hsg4; exact Hsg2|].
    split; [rewrite Hcu4; exact Hcu2|]. split; [rewrite Hdu4; exact Hdu2|]. left.
    split; [reflexivity|]. split; [rewrite Hcr4; exact Hcr2 | exact Ho4].
Qed.

(** setgroups by a capable caller on a list every cell of which can be
    imported: only the two allocations can fail. *)
Lemma sys_setgroups_run fuel n grouplist s go :
  k_setgid s = true -> 0 <= n <= NGROUPS_MAX ->
  k_objs s !! cred_group_info (k_cred s) = Some go -> group_info_wf go ->
  releasable fuel s go -> usage go < INT_MAX ->
  (Z.to_nat (ngroups go) < fuel)%nat -> (Z.to_nat (Z.max 1 n) < fuel)%nat ->
  import_ok s grouplist n ->
  exists r s',
    sys_setgroups fuel n grouplist s = Done (r, s') /\
    k_user s' = k_user s /\ k_setgid s' = true /\
    k_current s' = k_current s /\ k_dumpTsk s' = k_dumpTsk s /\
    ((r = - ENOMEM /\ k_cred s' = k_cred s /\ k_objs s' = k_objs s) \/
     (r = 0 /\
      exists p gi',
        p <> 0 /\
        k_cred s' = mk_cred (gid (k_cred s)) (egid (k_cred s)) (fsgid (k_cred s)) p /\
        k_objs s' !! p = Some gi' /\ group_info_wf gi' /\
        usage gi' = 1 /\ ngroups gi' = n /\
        Sorted Z.le (gids gi') /\ Permutation (gids gi') (imported s grouplist n))).
Proof.
  intros Hcap Hn Hold Hwfo Hrel Huo Hfuelo Hfueln Himport.
  pose proof max_sortable as Hmaxs. unfold SORT_MAX in Hmaxs.
  assert (0 <= n <= INT_MAX) as Hn' by (unfold INT_MAX; lia).
  pose proof (blocks_for_le n Hn') as Hbl.
  destruct (blocks_for_bounds n Hn') as (Hnb & _).
  unfold sys_setgroups, may_setgroups.
  rewrite (kbind_done _ _ s (k_setgid s) s eq_refl). rewrite Hcap. simpl.
  rewrite (to_uint_id NGROUPS_MAX) by (unfold UINT_MOD; lia).
  rewrite (to_uint_id n) by (unfold UINT_MOD; lia).
  destruct (Z.ltb_spec NGROUPS_MAX n); [lia|].
  destruct (groups_alloc_spec fuel n s Hn' ltac:(lia))
    as (p & s1 & Halloc & Hsp1 & Hcase).
  rewrite (kbind_done _ _ s p s1 Halloc).
  pose proof Hsp1 as (Hus1 & Hcr1 & Hsg1 & Hcu1 & Hdu1).
  destruct Hcase as [(-> & Ho1 & Hpg1) |
                     (Hp0 & Hfresh & g0 & Ho1 & Hu0 & Hn0 & Hnb0 & Hwf0 & Hnd0 & Hnew0 & Hpg1)].
  { exists (- ENOMEM), s1. split; [reflexivity|]. split; [exact Hus1|].
    split; [congruence|]. split; [exact Hcu1|]. split; [exact Hdu1|]. left.
    split; [reflexivity|]. split; assumption. }
  destruct (Z.eqb_spec p 0) as [|_]; [contradiction|].
  assert (k_objs s1 !! p = Some g0) as Hp1 by (rewrite Ho1; apply lookup_insert_eq).
  destruct (groups_from_user_spec fuel p grouplist s1 g0 Hp1 Hwf0 ltac:(rewrite Hn0; lia))
    as (r1 & g & Himp & Hwf & Hfr & Hres).
  rewrite (kbind_done _ _ s1 r1 _ Himp).
  set (s2 := set_objs (insert p g) s1) in *.
  pose proof Hfr as (Hu & Hng & Hnbg & _).
  pose proof (same_frame_pages _ _ Hfr) as Hpa.
  assert (k_objs s2 = <[p := g]> (k_objs s)) as Ho2.
  { unfold s2. simpl. rewrite Ho1. apply insert_insert_eq. }
  rewrite Hn0 in Hres.
  rewrite (import_ok_user s s1 grouplist n Hus1) in Hres.
  rewrite (imported_user s s1 grouplist n Hus1) in Hres.
  destruct Hres as [(-> & _ & Hgids) | (_ & Hbad)]; [|contradiction].
  simpl.
  destruct (setgroups_installed fuel p s s2 g go)
    as (r & s' & Hrun & Hus' & Hsg' & Hcu' & Hdu' & Hout);
    try assumption; try congruence.
  { unfold s2. simpl. congruence. }
  { unfold s2. simpl. rewrite Hpg1, Hpa. reflexivity. }
  { unfold SORT_MAX. rewrite Hng, Hn0. lia. }
  { intros a Ha. rewrite Hpa in Ha. now apply Hnew0. }
  { rewrite Hng, Hn0. lia. }
  { rewrite Hnbg, Hnb0. lia. }
  exists r, s'. split; [exact Hrun|]. split; [exact Hus'|]. split; [congruence|].
  split; [exact Hcu'|]. split; [exact Hdu'|].
  destruct Hout as [Hfail | (-> & gi' & Hcr' & Hp' & Hwf' & Hu' & Hn'' & Hs' & Hperm')];
    [left; exact Hfail | right].
  split; [reflexivity|]. exists p, gi'.
  split; [exact Hp0|]. split; [exact Hcr'|]. split; [exact Hp'|]. split; [exact Hwf'|].
  split; [exact Hu'|]. split; [congruence|]. split; [exact Hs'|]. now rewrite <- Hgids.
Qed.

End SetGroupsRun.

Section Compositions.
Context `{PlatformOk}.

Lemma sys_getgroups_count fuel grouplist s gi :
  k_objs s !! cred_group_info (k_cred s) = Some gi ->
  sys_getgroups fuel 0 grouplist s = Done (ngroups gi, s).
Proof.
  intros Hgi. unfold sys_getgroups.
  rewrite (kbind_done _ _ s (k_cred s) s eq_refl). simpl.
  now rewrite (kbind_done _ _ s gi s (load_eq _ gi s Hgi)).
Qed.

Lemma sys_getgroups_write fuel n grouplist s gi :
  k_objs s !! cred_group_info (k_cred s) = Some gi -> group_info_wf gi ->
  (Z.to_nat (ngroups gi) < fuel)%nat -> 0 < n -> ngroups gi <= n ->
  (forall j, 0 <= j < ngroups gi -> is_Some (k_user s !! (grouplist + j))) ->
  sys_getgroups fuel n grouplist s =
    Done (ngroups gi,
          set_user (store_gids grouplist (map from_kgid_munged (gids gi))) s).
Proof.
  intros Hgi Hwf Hfuel Hpos Hroom Hmapped. pose proof (wf_count _ Hwf) as Hc.
  pose proof (groups_to_user_run fuel grouplist _ gi s Hgi Hwf) as Hrun.
  unfold sys_getgroups.
  rewrite (kbind_done _ _ s (k_cred s) s eq_refl).
  destruct (Z.ltb_spec n 0); [lia|].
  rewrite (kbind_done _ _ s gi s (load_eq _ gi s Hgi)).
  destruct (Z.eqb_spec n 0); [lia|]. simpl.
  destruct (Z.ltb_spec n (ngroups gi)); [lia|].
  rewrite (kbind_done _ _ s 0
             (set_user (store_gids grouplist (map from_kgid_munged (gids gi))) s)).
  - reflexivity.
  - rewrite Hrun, (to_user_loop_ok grouplist gi fuel 0 s Hwf); try lia.
    + now rewrite Z.add_0_r.
    + intros j Hj. apply Hmapped. lia.
Qed.

Lemma store_gids_outside vals : forall addr um a,
  a < addr \/ addr + Z.of_nat (length vals) <= a ->
  store_gids addr vals um !! a = um !! a.
Proof.
  induction vals as [|v vals IH]; intros addr um a Ha; [reflexivity|].
  simpl in *. rewrite IH by lia. apply lookup_insert_ne. lia.
Qed.

Lemma store_gids_inside vals : forall addr um (k : nat),
  (k < length vals)%nat ->
  store_gids addr vals um !! (addr + Z.of_nat k) = vals !! k.
Proof.
  induction vals as [|v vals IH]; intros addr um k Hk; simpl in Hk; [lia|].
  simpl. destruct k as [|k].
  - rewrite store_gids_outside by lia. rewrite Z.add_0_r. apply lookup_insert_eq.
  - replace (addr + Z.of_nat (S k)) with (addr + 1 + Z.of_nat k) by lia.
    apply IH. lia.
Qed.

End Compositions.

(** After a setgroups that returned 0, getgroups reports the size that was
    asked for, duplicates included, and hands back the identifiers that were
    imported, in ascending order. *)
Theorem sys_setgroups_then_getgroups `{PlatformOk}
    (fuel : nat) (n grouplist m out : Z) (s : kstate) (go : group_info) :
  k_setgid s = true -> 0 <= n <= NGROUPS_MAX ->
  k_objs s !! cred_group_info (k_cred s) = Some go -> group_info_wf go ->
  releasable fuel s go -> usage go < INT_MAX ->
  (Z.to_nat (ngroups go) < fuel)%nat -> (Z.to_nat (Z.max 1 n) < fuel)%nat ->
  import_ok s grouplist n ->
  0 < m -> n <= m ->
  (forall j, 0 <= j < n -> is_Some (k_user s !! (out + j))) ->
  exists r s',
    sys_setgroups fuel n grouplist s = Done (r, s') /\
    (r = 0 \/ r = - ENOMEM) /\
    (r = 0 ->
     exists l,
       Sorted Z.le l /\ Permutation l (imported s grouplist n) /\
       sys_getgroups fuel 0 out s' = Done (n, s') /\
       sys_getgroups fuel m out s' =
         Done (n, set_user (store_gids out (map from_kgid_munged l)) s')).
Proof.
  intros Hcap Hn Hold Hwfo Hrel Huo Hfuelo Hfueln Himport Hm Hnm Hmapped.
  destruct (sys_setgroups_run fuel n grouplist s go
              Hcap Hn Hold Hwfo Hrel Huo Hfuelo Hfueln Himport)
    as (r & s' & Hrun & Hus & _ & _ & _ & Hcase).
  exists r, s'. split; [exact Hrun|].
  destruct Hcase as [(-> & _) | (-> & p & gi' & Hp0 & Hcr & Hp & Hwf & Hu & Hng & Hs & Hperm)].
  { split; [now right | discriminate]. }
  split; [now left|]. intros _. exists (gids gi').
  split; [exact Hs|]. split; [exact Hperm|].
  assert (k_objs s' !! cred_group_info (k_cred s') = Some gi') as Hgi
    by (rewrite Hcr; exact Hp).
  split.
  - rewrite (sys_getgroups_count fuel out s' gi' Hgi). now rewrite Hng.
  - rewrite (sys_getgroups_write fuel m out s' gi' Hgi Hwf);
      try lia; try (rewrite Hng; lia).
    + now rewrite Hng.
    + intros j Hj. rewrite Hus. apply Hmapped. lia.
Qed.

(** After a setgroups that returned 0, the membership queries answer 1
    exactly for the identifiers that were imported, and for the egid
    (in_egroup_p) or the fsgid (in_group_p, coredump exception apart), which
    setgroups leaves as they were. *)
Theorem sys_setgroups_then_membership `{PlatformOk}
    (fuel : nat) (n grouplist : Z) (s : kstate) (go : group_info) :
  k_setgid s = true -> 0 <= n <= NGROUPS_MAX ->
  k_objs s !! cred_group_info (k_cred s) = Some go -> group_info_wf go ->
  releasable fuel s go -> usage go < INT_MAX ->
  (Z.to_nat (ngroups go) < fuel)%nat -> (Z.to_nat (Z.max 1 n) < fuel)%nat ->
  import_ok s grouplist n ->
  exists r s',
    sys_setgroups fuel n grouplist s = Done (r, s') /\
    (r = 0 \/ r = - ENOMEM) /\
    (r = 0 ->
     forall grp,
       in_egroup_p fuel grp s' =
         Done (if bool_decide (grp = egid (k_cred s) \/ grp ∈ imported s grouplist n)
               then 1 else 0, s') /\
       (k_dumpTsk s <> k_current s \/ (grp <> AID_SDCARD_RW /\ grp <> AID_SDCARD_R) ->
        in_group_p fuel grp s' =
          Done (if bool_decide (grp = fsgid (k_cred s) \/ grp ∈ imported s grouplist n)
                then 1 else 0, s'))).
Proof.
  intros Hcap Hn Hold Hwfo Hrel Huo Hfuelo Hfueln Himport.
  destruct (sys_setgroups_run fuel n grouplist s go
              Hcap Hn Hold Hwfo Hrel Huo Hfuelo Hfueln Himport)
    as (r & s' & Hrun & Hus & _ & Hcu & Hdu & Hcase).
  exists r, s'. split; [exact Hrun|].
  destruct Hcase as [(-> & _) | (-> & p & gi' & Hp0 & Hcr & Hp & Hwf & Hu & Hng & Hs & Hperm)].
  { split; [now right | discriminate]. }
  split; [now left|]. intros _ grp.
  assert (Z.to_nat (ngroups gi') < fuel)%nat as Hfuel' by (rewrite Hng; lia).
  assert (cred_group_info (k_cred s') = p) as Hcp by (rewrite Hcr; reflexivity).
  assert (load_opt (cred_group_info (k_cred s')) s' = Done (Some gi', s')) as Hload.
  { apply load_opt_some; rewrite Hcp; assumption. }
  pose proof (groups_search_member fuel gi' grp Hwf Hs Hfuel') as Hsearch.
  assert (forall x : Z,
            (if bool_decide (grp ∈ gids gi') then 1 else 0) =
            (if bool_decide (grp = x \/ grp ∈ imported s grouplist n) then 1 else 0) \/
            grp = x) as Hdec.
  { intros x. destruct (Z.eq_dec grp x) as [Heq|Hne]; [now right | left].
    assert (bool_decide (grp ∈ gids gi') =
            bool_decide (grp = x \/ grp ∈ imported s grouplist n)) as ->; [|reflexivity].
    apply bool_decide_ext. rewrite Hperm. tauto. }
  split.
  - destruct (Z.eq_dec grp (egid (k_cred s))) as [Heq|Hne].
    + rewrite in_egroup_p_fast by (rewrite Hcr; exact Heq).
      rewrite bool_decide_eq_true_2 by now left. reflexivity.
    + rewrite (in_egroup_p_search fuel grp s' (Some gi')); [|rewrite Hcr; exact Hne | exact Hload].
      rewrite Hsearch. unfold lift.
      destruct (Hdec (egid (k_cred s))) as [-> | Heq]; [reflexivity | contradiction].
  - intros Hnormal. rewrite in_group_p_normal by (rewrite Hcu, Hdu; exact Hnormal).
    rewrite Hcr. simpl. unfold gid_eq.
    destruct (Z.eqb_spec grp (fsgid (k_cred s))) as [Heq|Hne].
    + rewrite bool_decide_eq_true_2 by now left. reflexivity.
    + unfold kbind. rewrite <- Hcp, Hload. rewrite Hsearch. unfold lift.
      destruct (Hdec (fsgid (k_cred s))) as [-> | Heq]; [reflexivity | contradiction].
Qed.

Lemma sys_setgroups_then_getgroups_witness :
  let s := demo_capable_state in
  let go := @group_info_of linux_platform 1 [100; 200; 300] in
  (k_setgid s = true /\ 0 <= 2 <= @NGROUPS_MAX linux_platform /\
   k_objs s !! cred_group_info (k_cred s) = Some go /\ @group_info_wf linux_platform go /\
   @releasable linux_platform 4 s go /\ usage go < INT_MAX /\
   (Z.to_nat (ngroups go) < 4)%nat /\ (Z.to_nat (Z.max 1 2) < 4)%nat /\
   @import_ok linux_platform s 64 2 /\ 0 < 2 /\ 2 <= 2 /\
   (forall j, 0 <= j < 2 -> is_Some (k_user s !! (64 + j)))) /\
  exists s' l,
    @sys_setgroups linux_platform 4 2 64 s = Done (0, s') /\
    Sorted Z.le l /\ Permutation l [400; 100] /\
    @sys_getgroups linux_platform 4 0 64 s' = Done (2, s') /\
    @sys_getgroups linux_platform 4 2 64 s' =
      Done (2, set_user (store_gids 64 (map (@from_kgid_munged linux_platform) l)) s').
Proof.
  intros s go.
  assert (k_setgid s = true) as H1 by reflexivity.
  assert (0 <= 2 <= @NGROUPS_MAX linux_platform) as H2 by (simpl; lia).
  assert (k_objs s !! cred_group_info (k_cred s) = Some go) as H3 by reflexivity.
  assert (@group_info_wf linux_platform go) as H4 by concrete_wf.
  assert (@releasable linux_platform 4 s go) as H5.
  { split; [vm_compute; split; discriminate|]. intros _.
    split; [concrete_wf|]. split; [|vm_compute; lia].
    split; [constructor | intros a Ha; inversion Ha]. }
  assert (usage go < INT_MAX) as H6 by reflexivity.
  assert (Z.to_nat (ngroups go) < 4)%nat as H7 by (vm_compute; lia).
  assert (Z.to_nat (Z.max 1 2) < 4)%nat as H8 by lia.
  assert (@import_ok linux_platform s 64 2) as H9.
  { intros j Hj. assert (j = 0 \/ j = 1) as [-> | ->] by lia;
      eexists; split; vm_compute; reflexivity. }
  assert (0 < 2) as H10 by lia.
  assert (2 <= 2) as H11 by lia.
  assert (forall j, 0 <= j < 2 -> is_Some (k_user s !! (64 + j))) as H12.
  { intros j Hj. assert (j = 0 \/ j = 1) as [-> | ->] by lia; vm_compute; eauto. }
  split; [repeat (split; [assumption|]); assumption|].
  destruct (@sys_setgroups_then_getgroups linux_platform linux_platform_ok 4 2 64 2 64 s go
              H1 H2 H3 H4 H5 H6 H7 H8 H9 H10 H11 H12) as (r & s' & Hrun & _ & Hok).
  assert (r = 0) as ->.
  { vm_compute in Hrun. now injection Hrun as <- _. }
  destruct (Hok eq_refl) as (l & Hsorted & Hperm & Hcount & Hwrite).
  exists s', l. split; [exact Hrun|]. split; [exact Hsorted|].
  split; [exact Hperm|]. split; [exact Hcount | exact Hwrite].
Defined.

Lemma sys_setgroups_then_membership_witness :
  let s := demo_capable_state in
  let go := @group_info_of linux_platform 1 [100; 200; 300] in
  (k_setgid s = true /\ 0 <= 2 <= @NGROUPS_MAX linux_platform /\
   k_objs s !! cred_group_info (k_cred s) = Some go /\ @group_info_wf linux_platform go /\
   @releasable linux_platform 4 s go /\ usage go < INT_MAX /\
   (Z.to_nat (ngroups go) < 4)%nat /\ (Z.to_nat (Z.max 1 2) < 4)%nat /\
   @import_ok linux_platform s 64 2) /\
  exists s',
    @sys_setgroups linux_platform 4 2 64 s = Done (0, s') /\
    @in_egroup_p linux_platform 4 400 s' = Done (1, s') /\
    @in_egroup_p linux_platform 4 200 s' = Done (0, s').
Proof.
  intros s go.
  assert (k_setgid s = true) as H1 by reflexivity.
  assert (0 <= 2 <= @NGROUPS_MAX linux_platform) as H2 by (simpl; lia).
  assert (k_objs s !! cred_group_info (k_cred s) = Some go) as H3 by reflexivity.
  assert (@group_info_wf linux_platform go) as H4 by concrete_wf.
  assert (@releasable linux_platform 4 s go) as H5.
  { split; [vm_compute; split; discriminate|]. intros _.
    split; [concrete_wf|]. split; [|vm_compute; lia].
    split; [constructor | intros a Ha; inversion Ha]. }
  assert (usage go < INT_MAX) as H6 by reflexivity.
  assert (Z.to_nat (ngroups go) < 4)%nat as H7 by (vm_compute; lia).
  assert (Z.to_nat (Z.max 1 2) < 4)%nat as H8 by lia.
  assert (@import_ok linux_platform s 64 2) as H9.
  { intros j Hj. assert (j = 0 \/ j = 1) as [-> | ->] by lia;
      eexists; split; vm_compute; reflexivity. }
  split; [repeat (split; [assumption|]); assumption|].
  destruct (@sys_setgroups_then_membership linux_platform linux_platform_ok 4 2 64 s go
              H1 H2 H3 H4 H5 H6 H7 H8 H9) as (r & s' & Hrun & _ & Hok).
  assert (r = 0) as ->.
  { vm_compute in Hrun. now injection Hrun as <- _. }
  exists s'. split; [exact Hrun|].
  change (@imported linux_platform s 64 2) with [400; 100] in Hok.
  change (egid (k_cred s)) with 1000 in Hok.
  split.
  - rewrite (proj1 (Hok eq_refl 400)).
    rewrite bool_decide_eq_true_2; [reflexivity | right; constructor].
  - rewrite (proj1 (Hok eq_refl 200)).
    rewrite bool_decide_eq_false_2; [reflexivity|].
    intros [Heq | Hin]; [discriminate Heq|].
    apply list_elem_of_In in Hin. simpl in Hin.
    destruct Hin as [Hin|[Hin|[]]]; discriminate Hin.
Defined.

(** setgroups with size 0 does not look at the list it is handed: whatever
    the address, mapped or not, a capable caller ends with an empty group
    set, unless memory runs out. *)
Theorem sys_setgroups_zero `{PlatformOk}
    (fuel : nat) (grouplist : Z) (s : kstate) (go : group_info) :
  k_setgid s = true ->
  k_objs s !! cred_group_info (k_cred s) = Some go -> group_info_wf go ->
  releasable fuel s go -> usage go < INT_MAX ->
  (Z.to_nat (ngroups go) < fuel)%nat -> (1 < fuel)%nat ->
  exists r s',
    sys_setgroups fuel 0 grouplist s = Done (r, s') /\
    k_user s' = k_user s /\
    (r = 0 \/ r = - ENOMEM) /\
    (r = 0 ->
     exists gi',
       k_objs s' !! cred_group_info (k_cred s') = Some gi' /\
       ngroups gi' = 0 /\ gids gi' = [] /\
       sys_getgroups fuel 0 grouplist s' = Done (0, s')).
Proof.
  intros Hcap Hold Hwfo Hrel Huo Hfuelo Hfuel.
  pose proof max_sortable as Hmaxs.
  assert (0 <= 0 <= NGROUPS_MAX) as Hzero by lia.
  destruct (sys_setgroups_run fuel 0 grouplist s go Hcap Hzero Hold Hwfo Hrel Huo Hfuelo)
    as (r & s' & Hrun & Hus & _ & _ & _ & Hcase); [lia | intros j Hj; lia |].
  exists r, s'. split; [exact Hrun|]. split; [exact Hus|].
  destruct Hcase as [(-> & _) | (-> & p & gi' & Hp0 & Hcr & Hp & Hwf & Hu & Hng & Hs & Hperm)].
  { split; [now right | discriminate]. }
  split; [now left|]. intros _. exists gi'.
  assert (k_objs s' !! cred_group_info (k_cred s') = Some gi') as Hgi
    by (rewrite Hcr; exact Hp).
  split; [exact Hgi|]. split; [exact Hng|]. split.
  - apply Permutation_nil_r. exact Hperm.
  - rewrite (sys_getgroups_count fuel grouplist s' gi' Hgi). now rewrite Hng.
Qed.

Lemma sys_setgroups_zero_witness :
  let s := demo_capable_state in
  let go := @group_info_of linux_platform 1 [100; 200; 300] in
  (k_setgid s = true /\
   k_objs s !! cred_group_info (k_cred s) = Some go /\ @group_info_wf linux_platform go /\
   @releasable linux_platform 4 s go /\ usage go < INT_MAX /\
   (Z.to_nat (ngroups go) < 4)%nat /\ (1 < 4)%nat) /\
  k_user s !! 5000 = None /\
  exists s', @sys_setgroups linux_platform 4 0 5000 s = Done (0, s') /\
             @sys_getgroups linux_platform 4 0 5000 s' = Done (0, s').
Proof.
  intros s go.
  assert (k_setgid s = true) as H1 by reflexivity.
  assert (k_objs s !! cred_group_info (k_cred s) = Some go) as H3 by reflexivity.
  assert (@group_info_wf linux_platform go) as H4 by concrete_wf.
  assert (@releasable linux_platform 4 s go) as H5.
  { split; [vm_compute; split; discriminate|]. intros _.
    split; [concrete_wf|]. split; [|vm_compute; lia].
    split; [constructor | intros a Ha; inversion Ha]. }
  assert (usage go < INT_MAX) as H6 by reflexivity.
  assert (Z.to_nat (ngroups go) < 4)%nat as H7 by (vm_compute; lia).
  assert (1 < 4)%nat as H8 by lia.
  split; [repeat (split; [assumption|]); assumption|].
  split; [reflexivity|].
  destruct (@sys_setgroups_zero linux_platform linux_platform_ok 4 5000 s go
              H1 H3 H4 H5 H6 H7 H8) as (r & s' & Hrun & _ & _ & Hok).
  assert (r = 0) as ->.
  { vm_compute in Hrun. now injection Hrun as <- _. }
  destruct (Hok eq_refl) as (gi' & _ & _ & _ & Hcount).
  exists s'. split; [exact Hrun | exact Hcount].
Defined.

(** ** getgroups, then setgroups *)

(** Saving the group list with getgroups and putting it back with setgroups
    restores it: when every identifier of the caller's sorted set is valid
    and survives the translation to the caller's namespace and back, a
    capable caller that hands setgroups the buffer getgroups has filled ends
    with a set of the same identifiers, unless memory runs out. *)
Theorem sys_getgroups_then_setgroups `{PlatformOk}
    (fuel : nat) (m buf : Z) (s : kstate) (go : group_info) :
  k_setgid s = true ->
  k_objs s !! cred_group_info (k_cred s) = Some go -> group_info_wf go ->
  Sorted Z.le (gids go) -> ngroups go <= NGROUPS_MAX ->
  releasable fuel s go -> usage go < INT_MAX ->
  (Z.to_nat (Z.max 1 (ngroups go)) < fuel)%nat ->
  0 < m -> ngroups go <= m ->
  (forall j, 0 <= j < ngroups go -> is_Some (k_user s !! (buf + j))) ->
  (forall x, x ∈ gids go -> make_kgid (from_kgid_munged x) = x /\ gid_valid x = true) ->
  exists s1,
    sys_getgroups fuel m buf s = Done (ngroups go, s1) /\
    exists r s',
      sys_setgroups fuel (ngroups go) buf s1 = Done (r, s') /\
      (r = 0 \/ r = - ENOMEM) /\
      (r = 0 ->
       exists gi',
         k_objs s' !! cred_group_info (k_cred s') = Some gi' /\ gids gi' = gids go).
Proof.
  intros Hcap Hold Hwfo Hsorted Hmax Hrel Huo Hfuel Hm Hroom Hmapped Hback.
  pose proof (wf_count _ Hwfo) as Hc.
  set (s1 := set_user (store_gids buf (map from_kgid_munged (gids go))) s).
  exists s1. split.
  { apply sys_getgroups_write; try assumption; lia. }
  assert (forall j, 0 <= j < ngroups go ->
            k_user s1 !! (buf + j) = Some (from_kgid_munged (cell_of go j))) as Hcells.
  { intros j Hj. unfold s1. simpl.
    replace (buf + j) with (buf + Z.of_nat (Z.to_nat j)) by lia.
    rewrite store_gids_inside by (rewrite length_map, gids_length; lia).
    rewrite list_lookup_fmap, (gids_lookup go j Hj). reflexivity. }
  assert (import_ok s1 buf (ngroups go)) as Himport.
  { intros j Hj. exists (from_kgid_munged (cell_of go j)). split; [apply Hcells, Hj|].
    destruct (Hback (cell_of go j) (cell_of_in_gids go j Hj)) as [-> Hvalid]. exact Hvalid. }
  assert (imported s1 buf (ngroups go) = gids go) as Himported.
  { unfold imported, gids. apply map_ext_in. intros j Hj.
    apply list_elem_of_In, elem_of_seqZ in Hj.
    rewrite (Hcells j) by lia. simpl.
    apply (Hback (cell_of go j) (cell_of_in_gids go j ltac:(lia))). }
  destruct (sys_setgroups_run fuel (ngroups go) buf s1 go)
    as (r & s' & Hrun & _ & _ & _ & _ & Hcase); try assumption; try lia.
  exists r, s'. split; [exact Hrun|].
  destruct Hcase as [(-> & _) | (-> & p & gi' & Hp0 & Hcr & Hp & Hwf & Hu & Hng & Hs & Hperm)].
  { split; [now right | discriminate]. }
  split; [now left|]. intros _. exists gi'.
  split; [rewrite Hcr; exact Hp|].
  rewrite Himported in Hperm.
  apply (Sorted_unique Z.le); assumption.
Qed.

Lemma sys_getgroups_then_setgroups_witness :
  let s := demo_capable_state in
  let go := @group_info_of linux_platform 1 [100; 200; 300] in
  (k_setgid s = true /\
   k_objs s !! cred_group_info (k_cred s) = Some go /\ @group_info_wf linux_platform go /\
   Sorted Z.le (@gids linux_platform go) /\ ngroups go <= @NGROUPS_MAX linux_platform /\
   @releasable linux_platform 5 s go /\ usage go < INT_MAX /\
   (Z.to_nat (Z.max 1 (ngroups go)) < 5)%nat /\ 0 < 3 /\ ngroups go <= 3 /\
   (forall j, 0 <= j < ngroups go -> is_Some (k_user s !! (64 + j))) /\
   (forall x, x ∈ @gids linux_platform go ->
      @make_kgid linux_platform (@from_kgid_munged linux_platform x) = x /\
      @gid_valid linux_platform x = true)) /\
  exists s1 s' gi',
    @sys_getgroups linux_platform 5 3 64 s = Done (3, s1) /\
    @sys_setgroups linux_platform 5 3 64 s1 = Done (0, s') /\
    k_objs s' !! cred_group_info (k_cred s') = Some gi' /\
    @gids linux_platform gi' = [100; 200; 300].
Proof.
  intros s go.
  assert (k_setgid s = true) as H1 by reflexivity.
  assert (k_objs s !! cred_group_info (k_cred s) = Some go) as H2 by reflexivity.
  assert (@group_info_wf linux_platform go) as H3 by concrete_wf.
  assert (Sorted Z.le (@gids linux_platform go)) as H4.
  { vm_compute. repeat constructor; discriminate. }
  assert (ngroups go <= @NGROUPS_MAX linux_platform) as H5 by (vm_compute; discriminate).
  assert (@releasable linux_platform 5 s go) as H6.
  { split; [vm_compute; split; discriminate|]. intros _.
    split; [concrete_wf|]. split; [|vm_compute; lia].
    split; [constructor | intros a Ha; inversion Ha]. }
  assert (usage go < INT_MAX) as H7 by reflexivity.
  assert (Z.to_nat (Z.max 1 (ngroups go)) < 5)%nat as H8 by (vm_compute; lia).
  assert (0 < 3) as H9 by lia.
  assert (ngroups go <= 3) as H10 by (change (ngroups go) with 3; lia).
  assert (forall j, 0 <= j < ngroups go -> is_Some (k_user s !! (64 + j))) as H11.
  { intros j Hj. change (ngroups go) with 3 in Hj.
    assert (j = 0 \/ j = 1 \/ j = 2) as [-> | [-> | ->]] by lia; vm_compute; eauto. }
  assert (forall x, x ∈ @gids linux_platform go ->
            @make_kgid linux_platform (@from_kgid_munged linux_platform x) = x /\
            @gid_valid linux_platform x = true) as H12.
  { intros x Hx. change (@gids linux_platform go) with [100; 200; 300] in Hx.
    split; [reflexivity|].
    apply list_elem_of_In in Hx. simpl in Hx.
    destruct Hx as [<-|[<-|[<-|[]]]]; reflexivity. }
  split; [repeat (split; [assumption|]); assumption|].
  destruct (@sys_getgroups_then_setgroups linux_platform linux_platform_ok 5 3 64 s go
              H1 H2 H3 H4 H5 H6 H7 H8 H9 H10 H11 H12)
    as (s1 & Hget & r & s' & Hset & _ & Hok).
  assert (r = 0) as ->.
  { clear Hok. vm_compute in Hget. injection Hget as <-.
    vm_compute in Hset. now injection Hset as <- _. }
  destruct (Hok eq_refl) as (gi' & Hgi & Hgids).
  exists s1, s', gi'. split; [exact Hget|]. split; [exact Hset|].
  split; [exact Hgi | exact Hgids].
Defined.

(** ** groups_alloc on sizes beyond the inline array *)

Section AllocPaged.
Context `{PlatformOk}.

Lemma block_addrs_paged bl :
  Forall paged_block bl -> length (block_addrs bl) = length bl.
Proof.
  induction 1 as [|b bl (a & cells & -> & _) _ IH]; [reflexivity|].
  change (block_addrs (InPage a cells :: bl)) with (a :: block_addrs bl).
  simpl. now rewrite IH.
Qed.

End AllocPaged.

(** A set too large for the inline array is laid out on pages only: when
    groups_alloc succeeds every block is a whole page of its own, there are
    exactly as many pages as blocks, all new, and the live pages are the
    former ones and these; when it fails no structure and no page is left
    over. *)
Theorem groups_alloc_paged `{PlatformOk} (fuel : nat) (k : Z) (s : kstate) :
  NGROUPS_SMALL < k <= INT_MAX -> (Z.to_nat (blocks_for k) < fuel)%nat ->
  exists p s',
    groups_alloc fuel k s = Done (p, s') /\
    ((p = 0 /\ k_objs s' = k_objs s /\ k_pages s' = k_pages s) \/
     (p <> 0 /\
      exists gi,
        k_objs s' !! p = Some gi /\ ngroups gi = k /\
        Forall paged_block (blocks gi) /\
        Z.of_nat (length (page_addrs gi)) = blocks_for k /\
        NoDup (page_addrs gi) /\
        (forall a, a ∈ page_addrs gi -> a ∉ k_pages s) /\
        k_pages s' = k_pages s ∪ list_to_set (page_addrs gi))).
Proof.
  intros Hk Hfuel. pose proof small_in_block as Hsmall. pose proof per_block_pos as Hp.
  assert (0 <= k <= INT_MAX) as Hk' by lia.
  pose proof (nblocks_computed k Hk') as Hn. cbv zeta in Hn.
  destruct (blocks_for_bounds k Hk') as (Hnb & Hcover & Hleast).
  unfold groups_alloc. cbv zeta. rewrite Hn. set (n := blocks_for k) in *.
  destruct (kmalloc_group_info_spec n s) as (p & s1 & Hk1 & Hpg1 & Hsp1 & Hcase).
  rewrite (kbind_done _ _ s p s1 Hk1).
  destruct Hcase as [[-> Ho1] | (Hp0 & Hfresh & Ho1)].
  { exists 0, s1. split; [reflexivity|]. left. auto. }
  destruct (Z.eqb_spec p 0) as [|_]; [contradiction|].
  set (blank := mk_group_info 0 0 0 (replicate (Z.to_nat NGROUPS_SMALL) 0)
                  (replicate (Z.to_nat n) Unset)) in *.
  assert (k_objs s1 !! p = Some blank) as Hblank by (rewrite Ho1; apply lookup_insert_eq).
  rewrite (kbind_done _ _ s1 blank s1 (load_eq p blank s1 Hblank)).
  set (hdr := mk_group_info 1 k n (replicate (Z.to_nat NGROUPS_SMALL) 0)
                (replicate (Z.to_nat n) Unset)).
  set (s2 := set_objs (insert p hdr) s1).
  rewrite (kbind_done _ _ s1 tt s2 (store_eq p blank hdr s1 Hblank)).
  assert (k_objs s2 !! p = Some hdr) as Hhdr by apply lookup_insert_eq.
  destruct (Z.leb_spec k NGROUPS_SMALL) as [Hks|_]; [lia|].
  assert (building (k_pages s) p hdr [] (replicate (Z.to_nat n) Unset) s2) as Hb.
  { split; [exact Hhdr|]. split; [constructor|]. split; [constructor|].
    split; [intros a Ha; inversion Ha|]. simpl. rewrite Hpg1. set_solver. }
  destruct (alloc_blocks_spec (k_pages s) p hdr (replicate (Z.to_nat n) Unset) [] fuel s2 Hb)
    as (out & done & rest & s3 & Hrun & Hb3 & Hlen3 & Hsp3 & Hel3 & Hout).
  { simpl. rewrite length_replicate. lia. }
  { rewrite length_replicate. exact Hfuel. }
  simpl in Hrun, Hlen3. rewrite length_replicate in Hrun, Hlen3.
  rewrite Z2Nat.id in Hrun by lia.
  rewrite (kbind_done _ _ s2 out s3 Hrun).
  destruct Hb3 as (Hobj3 & Hall3 & Hnd3 & Hnew3 & Hpg3).
  destruct out as [j|].
  - subst j.
    rewrite (kbind_done _ _ s3 tt _
               (undo_partial_alloc_spec (k_pages s) p hdr done rest fuel s3
                  ltac:(repeat split; assumption)
                  ltac:(rewrite length_app in Hlen3; lia)
                  ltac:(rewrite length_app in Hlen3; lia))).
    rewrite (kbind_done _ _ _ tt _ (kfree_eq p _ (set_pages (fun _ => k_pages s) s3) Hobj3)).
    eexists 0, _. split; [reflexivity|]. left.
    split; [reflexivity|]. split; [|reflexivity]. simpl.
    apply map_eq. intros q. destruct (decide (q = p)) as [->|Hq].
    + now rewrite lookup_delete_eq.
    + rewrite lookup_delete_ne by auto. rewrite (Hel3 q Hq). unfold s2. simpl.
      rewrite lookup_insert_ne by auto. rewrite Ho1. now rewrite lookup_insert_ne by auto.
  - subst rest. rewrite app_nil_r in *.
    exists p, s3. split; [reflexivity|]. right. split; [exact Hp0|].
    exists (with_blocks done hdr). split; [exact Hobj3|]. split; [reflexivity|].
    split; [exact Hall3|]. split.
    { unfold page_addrs. simpl. rewrite (block_addrs_paged done Hall3), Hlen3. lia. }
    split; [exact Hnd3|]. split; [exact Hnew3 | exact Hpg3].
Qed.

Lemma groups_alloc_paged_witness :
  (@NGROUPS_SMALL tiny_platform < 9 <= INT_MAX /\
   (Z.to_nat (@blocks_for tiny_platform 9) < 5)%nat) /\
  exists p s' gi,
    @groups_alloc tiny_platform 5 9 demo_state = Done (p, s') /\ p <> 0 /\
    k_objs s' !! p = Some gi /\ ngroups gi = 9 /\ length (page_addrs gi) = 3%nat.
Proof.
  assert (@NGROUPS_SMALL tiny_platform < 9 <= INT_MAX) as H1
    by (unfold INT_MAX; simpl; lia).
  assert (Z.to_nat (@blocks_for tiny_platform 9) < 5)%nat as H2 by (vm_compute; lia).
  split; [split; assumption|].
  destruct (@groups_alloc_paged tiny_platform tiny_platform_ok 5 9 demo_state H1 H2)
    as (p & s' & Hrun & Hcase).
  destruct Hcase as [(-> & _) | (Hp0 & gi & Hgi & Hn & _ & Hlen & _)].
  - exfalso. vm_compute in Hrun. discriminate Hrun.
  - exists p, s', gi. split; [exact Hrun|]. split; [exact Hp0|].
    split; [exact Hgi|]. split; [exact Hn|].
    change (@blocks_for tiny_platform 9) with 3 in Hlen. lia.
Defined.

(** ** The gate for a caller without the capability *)

(** For a caller without CAP_SETGID whose credentials hold a sorted set, and
    once the draft is had, the outcome of set_current_groups is decided by
    one test on the sorted request: it is installed (return 0) when it is a
    subsequence of the held set, and refused with -EPERM, the credentials
    staying as they were, when it is not. *)
Theorem set_current_groups_unprivileged `{PlatformOk}
    (fuel : nat) (p : Z) (s : kstate) (gi go : group_info) :
  k_objs s !! p = Some gi -> group_info_wf gi -> ngroups gi <= SORT_MAX ->
  (Z.to_nat (ngroups gi) < fuel)%nat -> 1 <= usage gi < INT_MAX ->
  k_objs s !! cred_group_info (k_cred s) = Some go -> group_info_wf go ->
  (Z.to_nat (ngroups go) < fuel)%nat -> releasable fuel s go -> usage go < INT_MAX ->
  Sorted Z.le (gids go) -> k_setgid s = false -> hd true (k_plan s) = true ->
  exists gi' r s',
    groups_sort fuel gi = Done gi' /\
    set_current_groups fuel p s = Done (r, s') /\
    (gids gi' `sublist_of` gids go -> r = 0 /\ cred_group_info (k_cred s') = p) /\
    (~ gids gi' `sublist_of` gids go -> r = - EPERM /\ k_cred s' = k_cred s).
Proof.
  intros Hp Hwf Hmax Hfuel Hu Hold Hwfo Hfuelo Hrel Huo Hso Hcap Hplan.
  pose proof (set_current_groups_with_draft fuel p s gi go) as Hgate. cbv zeta in Hgate.
  destruct (Hgate Hp Hwf Hmax Hfuel Hu Hold Hwfo Hfuelo Hrel Huo Hplan)
    as (gi' & sub & Hsort & _ & _ & Hsub & Hcase).
  destruct (groups_sort_wf fuel gi gi' Hwf Hmax Hfuel Hsort) as (Hwf' & Hfr & _ & _).
  destruct Hfr as (_ & Hn & _).
  set (held := if decide (cred_group_info (k_cred s) = p) then gi' else go) in *.
  assert (held = go) as Hheld.
  { unfold held. destruct (decide (cred_group_info (k_cred s) = p)) as [Heq|]; [|reflexivity].
    assert (go = gi) as -> by (rewrite Heq in Hold; congruence).
    pose proof (groups_sort_fixed fuel gi Hwf Hmax Hfuel Hso) as Hfix. congruence. }
  rewrite Hheld in Hsub.
  pose proof (wf_count _ Hwf') as Hc1. pose proof (wf_count _ Hwfo) as Hc2.
  destruct (subset_loop_sublist gi' go fuel fuel 0 0 Hwf' Hwfo) as (b & Hb & Hiff);
    try lia.
  { apply Sorted_ascending, Hso. }
  unfold is_subset in Hsub. rewrite Hsub in Hb. injection Hb as <-.
  simpl in Hiff. rewrite Hcap in Hcase. simpl in Hcase.
  destruct sub; simpl in Hcase.
  - destruct Hcase as (s' & Hrun & Hcr & _).
    exists gi', 0, s'. split; [exact Hsort|]. split; [exact Hrun|]. split.
    + intros _. split; [reflexivity | rewrite Hcr; reflexivity].
    + intros Hno. exfalso. apply Hno. now apply Hiff.
  - destruct Hcase as (Hrun & Hcr & _).
    exists gi', (- EPERM), (sorted_and_tried p gi' s).
    split; [exact Hsort|]. split; [exact Hrun|]. split.
    + intros Hyes. apply Hiff in Hyes. discriminate Hyes.
    + intros _. split; [reflexivity | exact Hcr].
Qed.

Lemma set_current_groups_unprivileged_witness :
  let s := set_objs (insert 32 (@group_info_of linux_platform 1 [100; 100])) demo_state in
  let gi := @group_info_of linux_platform 1 [100; 100] in
  let go := @group_info_of linux_platform 1 [100; 200; 300] in
  (k_objs s !! 32 = Some gi /\ @group_info_wf linux_platform gi /\
   ngroups gi <= SORT_MAX /\ (Z.to_nat (ngroups gi) < 4)%nat /\ 1 <= usage gi < INT_MAX /\
   k_objs s !! cred_group_info (k_cred s) = Some go /\ @group_info_wf linux_platform go /\
   (Z.to_nat (ngroups go) < 4)%nat /\ @releasable linux_platform 4 s go /\
   usage go < INT_MAX /\ Sorted Z.le (@gids linux_platform go) /\
   k_setgid s = false /\ hd true (k_plan s) = true) /\
  (forall x, x ∈ @gids linux_platform gi -> x ∈ @gids linux_platform go) /\
  exists s', @set_current_groups linux_platform 4 32 s = Done (- EPERM, s') /\
             k_cred s' = k_cred s.
Proof.
  intros s gi go.
  assert (k_objs s !! 32 = Some gi) as H1 by reflexivity.
  assert (@group_info_wf linux_platform gi) as H2 by concrete_wf.
  assert (ngroups gi <= SORT_MAX) as H3 by (vm_compute; discriminate).
  assert (Z.to_nat (ngroups gi) < 4)%nat as H4 by (vm_compute; lia).
  assert (1 <= usage gi < INT_MAX) as H5 by (vm_compute; split; [discriminate | reflexivity]).
  assert (k_objs s !! cred_group_info (k_cred s) = Some go) as H6 by reflexivity.
  assert (@group_info_wf linux_platform go) as H7 by concrete_wf.
  assert (Z.to_nat (ngroups go) < 4)%nat as H8 by (vm_compute; lia).
  assert (@releasable linux_platform 4 s go) as H9.
  { split; [vm_compute; split; discriminate|]. intros _.
    split; [concrete_wf|]. split; [|vm_compute; lia].
    split; [constructor | intros a Ha; inversion Ha]. }
  assert (usage go < INT_MAX) as H10 by reflexivity.
  assert (Sorted Z.le (@gids linux_platform go)) as H11.
  { vm_compute. repeat constructor; discriminate. }
  assert (k_setgid s = false) as H12 by reflexivity.
  assert (hd true (k_plan s) = true) as H13 by reflexivity.
  split; [repeat (split; [assumption|]); assumption|].
  split.
  { change (@gids linux_platform gi) with [100; 100].
    change (@gids linux_platform go) with [100; 200; 300].
    intros x Hx. set_solver. }
  destruct (@set_current_groups_unprivileged linux_platform linux_platform_ok 4 32 s gi go
              H1 H2 H3 H4 H5 H6 H7 H8 H9 H10 H11 H12 H13)
    as (gi' & r & s' & Hsort & Hrun & _ & Hrefused).
  assert (r = - EPERM) as Hr.
  { vm_compute in Hrun. now injection Hrun as <- _. }
  subst r. exists s'. split; [exact Hrun|].
  apply Hrefused. intros Hsub.
  vm_compute in Hsort. injection Hsort as <-.
  change (@gids linux_platform (@group_info_of linux_platform 1 [100; 100]))
    with [100; 100] in Hsub.
  change (@gids linux_platform go) with [100; 200; 300] in Hsub.
  apply sublist_cons_r in Hsub as [Hsub | (l' & Heq & Hsub)].
  - apply sublist_length in Hsub as Hlen. apply sublist_cons_r in Hsub as [Hs|(?&Heq&_)];
      [|discriminate Heq].
    apply sublist_cons_r in Hs as [Hs|(?&Heq&_)]; [|discriminate Heq].
    apply sublist_nil_r in Hs. discriminate Hs.
  - injection Heq as <-.
    apply sublist_cons_r in Hsub as [Hs|(?&Heq&_)]; [|discriminate Heq].
    apply sublist_cons_r in Hs as [Hs|(?&Heq&_)]; [|discriminate Heq].
    apply sublist_nil_r in Hs. discriminate Hs.
Defined.

(** ** The cost of groups_search *)

Section SearchCost.
Context `{PlatformOk}.

(** Each turn of the loop halves the window at least. *)
Lemma search_loop_halving fuel gi grp : forall left right,
  group_info_wf gi -> ascending (gids gi) ->
  0 <= left -> left <= right -> right <= ngroups gi ->
  right - left < 2 ^ (Z.of_nat fuel - 1) ->
  (forall i, 0 <= i < ngroups gi -> gids gi !! Z.to_nat i = Some grp -> left <= i < right) ->
  search_loop fuel gi grp left right =
  Done (if bool_decide (grp ∈ gids gi) then 1 else 0).
Proof.
  induction fuel as [|fuel IH]; intros left right Hwf Hasc Hl Hlr Hr Hsize Hwin.
  { change (2 ^ (Z.of_nat 0 - 1)) with 0 in Hsize. lia. }
  pose proof (wf_count _ Hwf) as Hc. unfold INT_MAX in Hc.
  simpl. destruct (Z.ltb_spec left right) as [Hlt|Hge].
  - assert (2 ^ (Z.of_nat (S fuel) - 1) = 2 * 2 ^ (Z.of_nat fuel - 1)) as Hpow.
    { destruct fuel as [|fuel].
      - change (2 ^ (Z.of_nat 1 - 1)) with 1 in Hsize. lia.
      - replace (Z.of_nat (S (S fuel)) - 1) with (Z.succ (Z.of_nat (S fuel) - 1)) by lia.
        apply Z.pow_succ_r. lia. }
    rewrite Hpow in Hsize.
    rewrite to_uint_id by (unfold UINT_MOD; lia).
    set (mid := (left + right) / 2).
    assert (2 * mid <= left + right < 2 * mid + 2) as Hmid2.
    { unfold mid. pose proof (Z.mul_div_le (left + right) 2 ltac:(lia)).
      pose proof (Z.mul_succ_div_gt (left + right) 2 ltac:(lia)). lia. }
    assert (left <= mid < right) as Hmid by lia.
    destruct (GROUP_AT_gids gi mid Hwf ltac:(lia)) as (x & Hx & Hgx).
    rewrite Hx. simpl. unfold gid_gt, gid_lt.
    destruct (Z.ltb_spec x grp) as [Hxg|Hxg].
    + rewrite to_uint_id by (unfold UINT_MOD; lia).
      apply IH; try assumption; try lia.
      intros i Hi Hgi. specialize (Hwin i Hi Hgi).
      destruct (Z.le_gt_cases i mid) as [Him|Him]; [|lia].
      pose proof (Hasc (Z.to_nat i) (Z.to_nat mid) grp x ltac:(lia) Hgi Hgx). lia.
    + destruct (Z.ltb_spec grp x) as [Hgx'|Hgx'].
      * apply IH; try assumption; try lia.
        intros i Hi Hgi. specialize (Hwin i Hi Hgi).
        destruct (Z.le_gt_cases mid i) as [Him|Him]; [|lia].
        pose proof (Hasc (Z.to_nat mid) (Z.to_nat i) x grp ltac:(lia) Hgx Hgi). lia.
      * assert (x = grp) as -> by lia.
        rewrite bool_decide_eq_true_2; [reflexivity|].
        eapply list_elem_of_lookup_2. exact Hgx.
  - rewrite bool_decide_eq_false_2; [reflexivity|].
    intros Hin. apply list_elem_of_lookup_1 in Hin as [k Hk].
    pose proof (lookup_lt_Some _ _ _ Hk) as Hlen. rewrite gids_length in Hlen.
    specialize (Hwin (Z.of_nat k) ltac:(lia)).
    rewrite Nat2Z.id in Hwin. specialize (Hwin Hk). lia.
Qed.

End SearchCost.

(** groups_search is logarithmic: on a sorted set of fewer than 2^k
    identifiers it has its answer after at most k probes (k + 1 tests of the
    loop condition). *)
Theorem groups_search_logarithmic `{PlatformOk} (fuel : nat) (gi : group_info) (grp : Z) :
  group_info_wf gi -> Sorted Z.le (gids gi) ->
  ngroups gi < 2 ^ (Z.of_nat fuel - 1) ->
  groups_search fuel (Some gi) grp = Done (if bool_decide (grp ∈ gids gi) then 1 else 0).
Proof.
  intros Hwf Hs Hsize. pose proof (wf_count _ Hwf) as Hc.
  unfold groups_search. rewrite to_uint_int by exact Hc.
  apply search_loop_halving; try assumption; try lia.
  apply Sorted_ascending, Hs.
Qed.

Lemma groups_search_logarithmic_witness :
  let gi := @group_info_of linux_platform 1 [10; 20; 30; 40; 50; 60; 70] in
  (@group_info_wf linux_platform gi /\ Sorted Z.le (@gids linux_platform gi) /\
   ngroups gi < 2 ^ (Z.of_nat 4 - 1)) /\
  @groups_search linux_platform 4 (Some gi) 70 = Done 1 /\
  @groups_search linux_platform 3 (Some gi) 75 = NoFuel.
Proof.
  intros gi.
  assert (@group_info_wf linux_platform gi) as H1 by concrete_wf.
  assert (Sorted Z.le (@gids linux_platform gi)) as H2.
  { vm_compute. repeat constructor; discriminate. }
  assert (ngroups gi < 2 ^ (Z.of_nat 4 - 1)) as H3 by (vm_compute; reflexivity).
  split; [split; [exact H1 | split; [exact H2 | exact H3]]|].
  split; [|vm_compute; reflexivity].
  rewrite (@groups_search_logarithmic linux_platform linux_platform_ok 4 gi 70 H1 H2 H3).
  rewrite bool_decide_eq_true_2; [reflexivity|].
  change (@gids linux_platform gi) with [10; 20; 30; 40; 50; 60; 70]. set_solver.
Defined.

(** ** The functions behind the system calls *)

(** groups_to_user, when every destination cell can be written, returns 0
    having stored the identifier at index i, translated for the caller's
    namespace, in the cell grouplist + i, for each of the ngroups
    identifiers; no other cell of user memory and nothing of the kernel state
    changes. *)
Theorem groups_to_user_writes `{PlatformOk}
    (fuel : nat) (grouplist p : Z) (gi : group_info) (s : kstate) :
  k_objs s !! p = Some gi -> group_info_wf gi -> (Z.to_nat (ngroups gi) < fuel)%nat ->
  (forall j, 0 <= j < ngroups gi -> is_Some (k_user s !! (grouplist + j))) ->
  exists s',
    groups_to_user fuel grouplist p s = Done (0, s') /\ user_only s s' /\
    (forall j, 0 <= j < ngroups gi ->
       k_user s' !! (grouplist + j) = Some (from_kgid_munged (cell_of gi j))) /\
    (forall a, a < grouplist \/ grouplist + ngroups gi <= a ->
       k_user s' !! a = k_user s !! a).
Proof.
  intros Hgi Hwf Hfuel Hmapped. pose proof (wf_count _ Hwf) as Hc.
  exists (set_user (store_gids grouplist (map from_kgid_munged (gids gi))) s).
  split.
  { rewrite (groups_to_user_run fuel grouplist p gi s Hgi Hwf).
    rewrite (to_user_loop_ok grouplist gi fuel 0 s Hwf); try lia.
    - now rewrite Z.add_0_r.
    - intros j Hj. apply Hmapped. lia. }
  split; [repeat split|]. split.
  - intros j Hj. simpl.
    replace (grouplist + j) with (grouplist + Z.of_nat (Z.to_nat j)) by lia.
    rewrite store_gids_inside by (rewrite length_map, gids_length; lia).
    rewrite list_lookup_fmap, (gids_lookup gi j Hj). reflexivity.
  - intros a Ha. simpl. apply store_gids_outside.
    rewrite length_map, gids_length. lia.
Qed.

Lemma groups_to_user_writes_witness :
  let gi := @group_info_of linux_platform 1 [100; 200; 300] in
  (k_objs demo_state !! 16 = Some gi /\ @group_info_wf linux_platform gi /\
   (Z.to_nat (ngroups gi) < 4)%nat /\
   (forall j, 0 <= j < ngroups gi -> is_Some (k_user demo_state !! (64 + j)))) /\
  exists s',
    @groups_to_user linux_platform 4 64 16 demo_state = Done (0, s') /\
    k_user s' !! 66 = Some 300 /\ k_user s' !! 67 = Some 0.
Proof.
  intros gi.
  assert (k_objs demo_state !! 16 = Some gi) as H1 by reflexivity.
  assert (@group_info_wf linux_platform gi) as H2 by concrete_wf.
  assert (Z.to_nat (ngroups gi) < 4)%nat as H3 by (vm_compute; lia).
  assert (forall j, 0 <= j < ngroups gi -> is_Some (k_user demo_state !! (64 + j))) as H4.
  { intros j Hj. change (ngroups gi) with 3 in Hj.
    assert (j = 0 \/ j = 1 \/ j = 2) as [-> | [-> | ->]] by lia; vm_compute; eauto. }
  split; [repeat (split; [assumption|]); assumption|].
  destruct (@groups_to_user_writes linux_platform linux_platform_ok 4 64 16 gi demo_state
              H1 H2 H3 H4) as (s' & Hrun & _ & Hin & Hout).
  exists s'. split; [exact Hrun|]. split.
  - change 66 with (64 + 2). rewrite Hin by (change (ngroups gi) with 3; lia). reflexivity.
  - rewrite Hout by (right; change (ngroups gi) with 3; lia). reflexivity.
Defined.

(** groups_from_user returns 0, -EFAULT or -EINVAL; it returns 0 exactly
    when each of the ngroups source cells can be read and holds a value that
    maps to a valid identifier, and then the structure holds these
    identifiers in the order of the cells, unsorted and with their
    duplicates.  Only the identifiers of the structure change. *)
Theorem groups_from_user_imports `{PlatformOk}
    (fuel : nat) (p grouplist : Z) (s : kstate) (g : group_info) :
  k_objs s !! p = Some g -> group_info_wf g -> (Z.to_nat (ngroups g) < fuel)%nat ->
  exists r g',
    groups_from_user fuel p grouplist s = Done (r, set_objs (insert p g') s) /\
    same_frame g g' /\
    (r = 0 \/ r = - EFAULT \/ r = - EINVAL) /\
    (r = 0 <-> import_ok s grouplist (ngroups g)) /\
    (r = 0 -> gids g' = imported s grouplist (ngroups g)).
Proof.
  intros Hg Hwf Hfuel.
  destruct (groups_from_user_spec fuel p grouplist s g Hg Hwf Hfuel)
    as (r & g' & Hrun & _ & Hfr & Hres).
  exists r, g'. split; [exact Hrun|]. split; [exact Hfr|].
  destruct Hres as [(-> & Hok & Hgids) | (Hr & Hbad)].
  - split; [now left|]. split; [tauto | intros _; exact Hgids].
  - assert (r <> 0) as Hne by (destruct Hr as [-> | ->]; discriminate).
    split; [right; exact Hr|]. split; [tauto | intros Hzero; contradiction].
Qed.

Lemma groups_from_user_imports_witness :
  let g := @group_info_of linux_platform 1 [7; 8] in
  let s := set_objs (insert 32 g) demo_capable_state in
  (k_objs s !! 32 = Some g /\ @group_info_wf linux_platform g /\
   (Z.to_nat (ngroups g) < 3)%nat) /\
  exists g',
    @groups_from_user linux_platform 3 32 64 s = Done (0, set_objs (insert 32 g') s) /\
    @gids linux_platform g' = [400; 100].
Proof.
  intros g s.
  assert (k_objs s !! 32 = Some g) as H1 by reflexivity.
  assert (@group_info_wf linux_platform g) as H2 by concrete_wf.
  assert (Z.to_nat (ngroups g) < 3)%nat as H3 by (vm_compute; lia).
  split; [split; [exact H1 | split; [exact H2 | exact H3]]|].
  destruct (@groups_from_user_imports linux_platform linux_platform_ok 3 32 64 s g H1 H2 H3)
    as (r & g' & Hrun & _ & _ & Hiff & Hgids).
  assert (r = 0) as ->.
  { apply Hiff. intros j Hj. change (ngroups g) with 2 in Hj.
    assert (j = 0 \/ j = 1) as [-> | ->] by lia; eexists; split; vm_compute; reflexivity. }
  exists g'. split; [exact Hrun|]. rewrite (Hgids eq_refl). vm_compute. reflexivity.
Defined.

(** set_groups_sorted neither sorts nor reads the set it is handed: it
    moves one reference.  The set the draft held loses a reference and is
    freed with its pages when that was the last one, the new set gains one,
    and the draft comes back pointing at the new set with its three group
    identifiers unchanged.  Handed the set the draft already holds, of which
    the caller has a reference of its own, it leaves the heap as it was. *)
Theorem set_groups_sorted_swaps `{PlatformOk}
    (fuel : nat) (new : cred) (p : Z) (s : kstate) (gi go : group_info) :
  k_objs s !! p = Some gi -> k_objs s !! cred_group_info new = Some go ->
  1 <= usage gi < INT_MAX -> releasable fuel s go ->
  (cred_group_info new = p -> 2 <= usage gi) ->
  exists s',
    set_groups_sorted fuel new p s = Done (mk_cred (gid new) (egid new) (fsgid new) p, s') /\
    heap_only s s' /\
    (cred_group_info new = p -> k_objs s' = k_objs s /\ k_pages s' = k_pages s) /\
    (cred_group_info new <> p ->
     k_objs s' !! p = Some (with_usage (usage gi + 1) gi) /\
     k_objs s' !! cred_group_info new =
       (if decide (usage go = 1) then None else Some (with_usage (usage go - 1) go)) /\
     k_pages s' = pages_after_put go (k_pages s)).
Proof.
  intros Hp Hold Hu Hrel Hsame.
  destruct (set_groups_sorted_spec fuel new p s gi go Hp Hold) as (s' & Hrun & Hheap & Hobs);
    try assumption; try lia.
  exists s'. split; [exact Hrun|]. split; [exact Hheap|].
  destruct (decide (cred_group_info new = p)) as [Heq|Hne].
  - split; [intros _; exact Hobs | intros Hne; contradiction].
  - destruct Hobs as [Ho Hpg]. split; [intros Heq; contradiction|]. intros _.
    split; [rewrite Ho; apply lookup_insert_eq|]. split; [|exact Hpg].
    rewrite Ho, lookup_insert_ne by auto. unfold objs_after_put.
    destruct (decide (usage go = 1)).
    + apply lookup_delete_eq.
    + apply lookup_insert_eq.
Qed.

Lemma set_groups_sorted_swaps_witness :
  let s := demo_request_state in
  let gi := @group_info_of linux_platform 1 [400; 100] in
  let go := @group_info_of linux_platform 1 [100; 200; 300] in
  (k_objs s !! 32 = Some gi /\ k_objs s !! cred_group_info (k_cred s) = Some go /\
   1 <= usage gi < INT_MAX /\ @releasable linux_platform 2 s go /\
   (cred_group_info (k_cred s) = 32 -> 2 <= usage gi)) /\
  exists s',
    set_groups_sorted 2 (k_cred s) 32 s = Done (mk_cred 1000 1000 1000 32, s') /\
    k_objs s' !! 32 = Some (@group_info_of linux_platform 2 [400; 100]) /\
    k_objs s' !! 16 = None.
Proof.
  intros s gi go.
  assert (k_objs s !! 32 = Some gi) as H1 by reflexivity.
  assert (k_objs s !! cred_group_info (k_cred s) = Some go) as H2 by reflexivity.
  assert (1 <= usage gi < INT_MAX) as H3 by (vm_compute; split; [discriminate | reflexivity]).
  assert (@releasable linux_platform 2 s go) as H4.
  { split; [vm_compute; split; discriminate|]. intros _.
    split; [concrete_wf|]. split; [|vm_compute; lia].
    split; [constructor | intros a Ha; inversion Ha]. }
  assert (cred_group_info (k_cred s) = 32 -> 2 <= usage gi) as H5 by discriminate.
  split; [repeat (split; [assumption|]); assumption|].
  destruct (@set_groups_sorted_swaps linux_platform linux_platform_ok 2 (k_cred s) 32 s gi go
              H1 H2 H3 H4 H5) as (s' & Hrun & _ & _ & Hother).
  destruct (Hother ltac:(discriminate)) as (Hnew & Hold & _).
  exists s'. split; [exact Hrun|]. split; [exact Hnew | exact Hold].
Defined.
